(** * Backtest journal: trade notation parser and performance aggregator

    A shallow embedding of [src/trade_analyzer.py] ([parse_trade_data],
    [analyze_trades]), of [src/utils.py] ([save_data], [load_data]) and of
    the blocks of [src/Backtest.py] that change the list of trading days,
    with the properties of the specification stated over it, followed by
    further properties of the code.

    Conventions of the embedding.

    - A Python [float] is an IEEE-754 binary64 number: [spec_float] with
      precision 53 and maximal exponent 1024, with the operations of
      [SpecFloat] (round to nearest, ties to even).  The integer literals the
      code mixes with floats ([0], [100], [252]) are their float values.
    - Python exceptions are explicit: a computation returns [Ok v] or
      [Raise e].  [/] raises [ZeroDivisionError] on a zero divisor, [** 2]
      raises [OverflowError] when a finite square leaves the float range,
      [math.sqrt] raises [ValueError] on a negative argument and [float(s)]
      raises [ValueError] on a text that denotes no number.
    - A Python [str] is a [string]; the text is ASCII.
    - Lists keep the order of [append]; dictionaries are association lists in
      insertion order.
    - A CSV file is the list of its rows, each the list of its fields, as
      [csv.writer] receives them.  [csv.reader] yields the rows as they were
      written, and raises [csv.Error] at a row with a field of more than
      131072 characters, its default limit.
    - [int(s)] and [str(n)] raise [ValueError] beyond 4300 digits, the limit
      that CPython sets by default.
    - [x ** 2] is the product [x * x] rounded once; the [pow] of the C
      library, which CPython calls, may differ from it in the last place. *)

From Stdlib Require Import ZArith List String Ascii Bool Lia QArith Qround.
From Stdlib Require Import SpecFloat DecimalString.
From Stdlib Require DecimalN.
Import ListNotations.

Local Open Scope Z_scope.
Local Open Scope string_scope.

(* ================================================================= *)
(** ** Exceptions *)

Inductive exn : Type :=
| ValueError
| ZeroDivisionError
| OverflowError.

Inductive result (A : Type) : Type :=
| Ok (a : A)
| Raise (e : exn).

Arguments Ok {A} a.
Arguments Raise {A} e.

Definition bind {A B : Type} (c : result A) (k : A -> result B) : result B :=
  match c with
  | Ok a => k a
  | Raise e => Raise e
  end.

Notation "x <- c ;; k" := (bind c (fun x => k))
  (at level 61, c at next level, right associativity).

Notation "' p <- c ;; k" := (bind c (fun x => let 'p := x in k))
  (at level 61, p pattern, c at next level, right associativity).

Fixpoint mapM {A B : Type} (f : A -> result B) (xs : list A) : result (list B) :=
  match xs with
  | [] => Ok []
  | x :: xs' => y <- f x ;; ys <- mapM f xs' ;; Ok (y :: ys)
  end.

(* ================================================================= *)
(** ** Python floats *)

Module PyFloat.

Definition float : Type := spec_float.

Definition prec : Z := 53.
Definition emax : Z := 1024.

Definition add : float -> float -> float := SFadd prec emax.
Definition sub : float -> float -> float := SFsub prec emax.
Definition mul : float -> float -> float := SFmul prec emax.
Definition neg : float -> float := SFopp.
Definition ltb : float -> float -> bool := SFltb.
Definition leb : float -> float -> bool := SFleb.
Definition eqb : float -> float -> bool := SFeqb.
(** [a > b] *)
Definition gtb (a b : float) : bool := SFltb b a.

Definition zero : float := S754_zero false.
Definition inf : float := S754_infinity false.

Fixpoint pow10 (k : nat) : positive :=
  match k with
  | O => 1%positive
  | S k' => (10 * pow10 k')%positive
  end.

(** The float nearest to the rational [num / den]; [sign] is [true] for a
    negative number. *)
Definition of_ratio (sign : bool) (num : Z) (den : positive) : float :=
  match num with
  | Zpos n =>
      let '(mz, ez, lz) := SFdiv_core_binary prec emax (Zpos n) 0 (Zpos den) 0 in
      binary_round_aux prec emax sign mz ez lz
  | _ => S754_zero sign
  end.

(** [float(n)] for an [int] [n]. *)
Definition of_Z (n : Z) : float := binary_normalize prec emax n 0 false.
Definition of_nat (n : nat) : float := of_Z (Z.of_nat n).

Definition is_zero (x : float) : bool :=
  match x with
  | S754_zero _ => true
  | _ => false
  end.

Definition is_finite (x : float) : bool :=
  match x with
  | S754_zero _ | S754_finite _ _ _ => true
  | _ => false
  end.

Definition is_inf (x : float) : bool :=
  match x with
  | S754_infinity _ => true
  | _ => false
  end.

(** [a / b] on floats. *)
Definition div (a b : float) : result float :=
  if is_zero b then Raise ZeroDivisionError else Ok (SFdiv prec emax a b).

(** [a / n] where [n] is an [int] (a [len(...)] or a count): the integer is
    converted to float; the divisor is zero, and the division raises, exactly
    when the integer is zero. *)
Definition div_int (a : float) (n : nat) : result float :=
  match n with
  | O => Raise ZeroDivisionError
  | S _ => Ok (SFdiv prec emax a (of_nat n))
  end.

(** [m / n] on two [int]s (true division). *)
Definition int_div (m n : nat) : result float := div_int (of_nat m) n.

(** [x ** 2]: the square, rounded once, and [OverflowError] when a finite
    [x] has a square outside the float range (an infinite [x] gives an
    infinite square, without an exception).  CPython computes it with the
    [pow] of the C library, whose result may differ from the rounded
    product in the last place. *)
Definition pow2 (x : float) : result float :=
  let y := mul x x in
  if is_finite x && is_inf y then Raise OverflowError else Ok y.

(** [math.sqrt(x)] *)
Definition sqrt (x : float) : result float :=
  if ltb x zero then Raise ValueError else Ok (SFsqrt prec emax x).

(** [sum(xs)]: addition from the left, starting from [0] (each addition is
    rounded; no compensation of the rounding errors). *)
Definition sum (xs : list float) : float := fold_left add xs zero.

End PyFloat.

Import PyFloat.

(* ================================================================= *)
(** ** Python strings *)

Module PyStr.

Definition is_digit (c : ascii) : bool :=
  let n := nat_of_ascii c in (48 <=? n)%nat && (n <=? 57)%nat.

(** [c.isspace()] on ASCII: tab, line feed, vertical tab, form feed,
    carriage return, the four separators 28 to 31, and the space. *)
Definition is_space (c : ascii) : bool :=
  let n := nat_of_ascii c in
  ((9 <=? n)%nat && (n <=? 13)%nat) || ((28 <=? n)%nat && (n <=? 32)%nat).

Definition upper_char (c : ascii) : ascii :=
  let n := nat_of_ascii c in
  if (97 <=? n)%nat && (n <=? 122)%nat then ascii_of_nat (n - 32) else c.

(** [s.upper()] *)
Fixpoint upper (s : string) : string :=
  match s with
  | EmptyString => EmptyString
  | String c s' => String (upper_char c) (upper s')
  end.

(** [s.replace(c, empty)] for a one-character [c] *)
Fixpoint remove_char (c : ascii) (s : string) : string :=
  match s with
  | EmptyString => EmptyString
  | String a s' =>
      if Ascii.eqb a c then remove_char c s' else String a (remove_char c s')
  end.

(** [s.split(sep)] for a one-character [sep]: always at least one piece. *)
Fixpoint split (sep : ascii) (s : string) : list string :=
  match s with
  | EmptyString => [EmptyString]
  | String a s' =>
      if Ascii.eqb a sep then EmptyString :: split sep s'
      else match split sep s' with
           | piece :: pieces => String a piece :: pieces
           | [] => [String a EmptyString]
           end
  end.

Fixpoint lstrip (s : string) : string :=
  match s with
  | EmptyString => EmptyString
  | String a s' => if is_space a then lstrip s' else s
  end.

Fixpoint rstrip (s : string) : string :=
  match s with
  | EmptyString => EmptyString
  | String a s' =>
      match rstrip s' with
      | EmptyString => if is_space a then EmptyString else String a EmptyString
      | t => String a t
      end
  end.

(** [s.strip()] *)
Definition strip (s : string) : string := rstrip (lstrip s).

(** [sep.join(pieces)] *)
Fixpoint join (sep : string) (pieces : list string) : string :=
  match pieces with
  | [] => EmptyString
  | [p] => p
  | p :: ps => p ++ sep ++ join sep ps
  end.

(** The longest prefix of decimal digits, and the rest: [\d*]. *)
Fixpoint take_digits (s : string) : string * string :=
  match s with
  | EmptyString => (EmptyString, EmptyString)
  | String a s' =>
      if is_digit a then let '(ds, rest) := take_digits s' in (String a ds, rest)
      else (EmptyString, s)
  end.

(** An optional leading character of the class [p]: [[p]?]. *)
Definition take_opt (p : ascii -> bool) (s : string) : string * string :=
  match s with
  | String a s' => if p a then (String a EmptyString, s') else (EmptyString, s)
  | EmptyString => (EmptyString, EmptyString)
  end.

Definition is_sign (c : ascii) : bool := Ascii.eqb c "-" || Ascii.eqb c "+".
Definition is_dot (c : ascii) : bool := Ascii.eqb c ".".

(** The number written by a run of decimal digits. *)
Definition digit_value (c : ascii) : Z := Z.of_nat (nat_of_ascii c) - 48.

Fixpoint digits_value_from (acc : Z) (s : string) : Z :=
  match s with
  | EmptyString => acc
  | String a s' => digits_value_from (10 * acc + digit_value a) s'
  end.

Definition digits_value (s : string) : Z := digits_value_from 0 s.

(** [float(s)] on the texts [[-+]?\d*\.?\d*] that the second group of the
    trade pattern produces: an optional sign, digits, an optional point
    and digits.  The text denotes a number when it has a digit; the float
    is the one nearest to the decimal value. *)
Definition py_float (s : string) : result float :=
  let '(sgn, r1) := take_opt is_sign s in
  let '(ip, r2) := take_digits r1 in
  let '(dot, r3) := take_opt is_dot r2 in
  let '(fp, r4) := take_digits r3 in
  if (r4 =? EmptyString) && negb ((ip =? EmptyString) && (fp =? EmptyString)) then
    Ok (of_ratio (sgn =? "-") (digits_value (ip ++ fp))
                 (pow10 (String.length fp)))
  else Raise ValueError.

End PyStr.

Import PyStr.

(* ================================================================= *)
(** ** [repr] of a float

    [f"{x}"] on a float is [repr(x)]: the shortest run of decimal digits
    that [float] reads back as [x] (the nearest to [x] when several have
    that length), written in positional notation when the decimal point
    position [decpt] satisfies [-4 < decpt <= 16] and in exponent notation
    otherwise. *)

Module PyRepr.

Definition string_of_N (n : N) : string := NilZero.string_of_uint (N.to_uint n).

Fixpoint zeros (k : nat) : string :=
  match k with
  | O => EmptyString
  | S k' => String "0" (zeros k')
  end.

(** The value [m * 2^e] as a fraction. *)
Definition ratio_of (m : positive) (e : Z) : Z * Z :=
  match e with
  | Zneg p => (Zpos m, 2 ^ Zpos p)
  | _ => (Zpos m * 2 ^ e, 1)
  end.

(** [num / den * 10^k] as a fraction. *)
Definition scale10 (q : Z * Z) (k : Z) : Z * Z :=
  let '(num, den) := q in
  match k with
  | Zneg p => (num, den * 10 ^ Zpos p)
  | _ => (num * 10 ^ k, den)
  end.

(** A lower bound of the decimal logarithm of [m * 2^e], from the number
    of bits: [0.30102 < log10 2 < 0.30103]. *)
Definition decpt_estimate (m : positive) (e : Z) : Z :=
  let b := Zdigits2 (Zpos m) + e - 1 in
  Z.min (b * 30102 / 100000) (b * 30103 / 100000).

(** The least [d] from [d0] on with [num / den < 10^d]. *)
Fixpoint find_decpt (fuel : nat) (q : Z * Z) (d : Z) : Z :=
  match fuel with
  | O => d
  | S fuel' =>
      let '(num, den) := scale10 q (- d) in
      if (num <? den)%Z then d else find_decpt fuel' q (d + 1)
  end.

Definition reads_back (x : float) (c : Z) (k : Z) : bool :=
  let '(num, den) := scale10 (c, 1) k in
  SFeqb (of_ratio false num (Z.to_pos den)) x.

(** The candidate with [n] digits, if one reads back as [x]. *)
Definition candidate (x : float) (q : Z * Z) (decpt : Z) (n : Z) : option Z :=
  let '(num, den) := scale10 q (n - decpt) in
  let lo := num / den in
  let r := num mod den in
  let hi := lo + 1 in
  let k := decpt - n in
  if (r =? 0)%Z then Some lo
  else
    match reads_back x lo k, reads_back x hi k with
    | true, true =>
        match (2 * r ?= den)%Z with
        | Lt => Some lo
        | Gt => Some hi
        | Eq => if Z.even lo then Some lo else Some hi
        end
    | true, false => Some lo
    | false, true => Some hi
    | false, false => None
    end.

Fixpoint shortest (fuel : nat) (x : float) (q : Z * Z) (decpt : Z) (n : Z) : Z * Z :=
  match fuel with
  | O => (fst (scale10 q (n - decpt)) / snd (scale10 q (n - decpt)), n)
  | S fuel' =>
      match candidate x q decpt n with
      | Some c => (c, n)
      | None => shortest fuel' x q decpt (n + 1)
      end
  end.

Fixpoint strip_zeros (s : string) : string :=
  match s with
  | EmptyString => EmptyString
  | String a s' =>
      match strip_zeros s' with
      | EmptyString => if Ascii.eqb a "0" then EmptyString else String a EmptyString
      | t => String a t
      end
  end.

(** The digits of a positive finite float and the position of its decimal
    point: the value is [0.digits * 10^decpt]. *)
Definition shortest_digits (m : positive) (e : Z) : string * Z :=
  let q := ratio_of m e in
  let d := find_decpt 8 q (decpt_estimate m e) in
  let '(c, n) := shortest 17 (S754_finite false m e) q d 1 in
  let ds := string_of_N (Z.to_N c) in
  (strip_zeros ds, d + (Z.of_nat (String.length ds) - n)).

Definition two_digits (n : Z) : string :=
  let s := string_of_N (Z.to_N n) in
  if (String.length s <? 2)%nat then "0" ++ s else s.

Definition format_short (ds : string) (decpt : Z) : string :=
  let nd := Z.of_nat (String.length ds) in
  if (decpt <=? -4)%Z || (16 <? decpt)%Z then
    let mant :=
      match ds with
      | String a EmptyString => ds
      | String a rest => String a ("." ++ rest)
      | EmptyString => ds
      end in
    let ex := decpt - 1 in
    mant ++ "e" ++ (if (ex <? 0)%Z then "-" else "+") ++ two_digits (Z.abs ex)
  else if (decpt <=? 0)%Z then "0." ++ zeros (Z.to_nat (- decpt)) ++ ds
  else if (nd <=? decpt)%Z then ds ++ zeros (Z.to_nat (decpt - nd)) ++ ".0"
  else substring 0 (Z.to_nat decpt) ds ++ "."
       ++ substring (Z.to_nat decpt) (Z.to_nat (nd - decpt)) ds.

Definition float_repr (x : float) : string :=
  match x with
  | S754_nan => "nan"
  | S754_infinity s => if s then "-inf" else "inf"
  | S754_zero s => if s then "-0.0" else "0.0"
  | S754_finite s m e =>
      let '(ds, decpt) := shortest_digits m e in
      (if s then "-" else EmptyString) ++ format_short ds decpt
  end.

End PyRepr.

Import PyRepr.

(* ================================================================= *)
(** ** Data model *)

(** The type of a trade: the texts [W], [L] and [BE]. *)
Inductive trade_type : Type := W | L | BE.

Definition trade_type_eqb (a b : trade_type) : bool :=
  match a, b with
  | W, W | L, L | BE, BE => true
  | _, _ => false
  end.

Definition type_name (t : trade_type) : string :=
  match t with
  | W => "W"
  | L => "L"
  | BE => "BE"
  end.

(** One trade: a dictionary with the keys [type] and [r_multiple]. *)
Record trade : Type := mk_trade {
  type : trade_type;
  r_multiple : float
}.

(** One trading day: a dictionary with the keys [day], [date] and
    [trades]. *)
Record day_data : Type := mk_day {
  day : Z;
  date : string;
  trades : list trade
}.

(* ================================================================= *)
(** ** trade_analyzer.py: [parse_trade_data] *)

Definition one : float := of_Z 1.

(** [re.match] of the trade pattern on [entry].  The pattern is a first
    group [[WL]], a second group made of [[-+]?], [\d*], [\.?] and [\d*], and
    a final [R?].  The match is anchored at the start of [entry] only.  Every
    part after the first letter is optional and greedy, so the match succeeds
    as soon as the first letter is [W] or [L]; the result is the two
    groups. *)
Definition re_match_trade (entry : string) : option (trade_type * string) :=
  match entry with
  | String c rest =>
      let '(sgn, r1) := take_opt is_sign rest in
      let '(ip, r2) := take_digits r1 in
      let '(dot, r3) := take_opt is_dot r2 in
      let '(fp, r4) := take_digits r3 in
      let '(_, _) := take_opt (Ascii.eqb "R") r4 in
      let r_str := sgn ++ ip ++ dot ++ fp in
      if Ascii.eqb c "W" then Some (W, r_str)
      else if Ascii.eqb c "L" then Some (L, r_str)
      else None
  | EmptyString => None
  end.

(** The loop over the entries; [trades] is the list built so far.  The
    result is [Ok (Some trades)] for [return trades], [Ok None] for
    [return None], and [Raise e] when an exception leaves the function. *)
Fixpoint parse_entries (trade_entries : list string) (trades : list trade)
  : result (option (list trade)) :=
  match trade_entries with
  | [] => Ok (Some trades)
  | entry :: rest =>
      let entry := upper (strip entry) in
      if entry =? EmptyString then parse_entries rest trades
      else if entry =? "BE" then
        parse_entries rest (trades ++ [mk_trade BE zero])
      else
        match re_match_trade entry with
        | Some (trade_type, r_str) =>
            r_multiple <- (if r_str =? EmptyString then Ok one else py_float r_str) ;;
            parse_entries rest (trades ++ [mk_trade trade_type r_multiple])
        | None => Ok None
        end
  end.

Definition parse_trade_data (trade_input : string) : result (option (list trade)) :=
  let trade_input := remove_char " " trade_input in
  let trade_entries := split "," trade_input in
  parse_entries trade_entries [].

(* ================================================================= *)
(** ** utils.py: the trade text written by [save_data] *)

Definition trade_string (t : trade) : string :=
  match type t with
  | BE => "BE"
  | ty => type_name ty ++ float_repr (r_multiple t) ++ "R"
  end.

(** [trades_str] of [save_data], for the trades of one day. *)
Definition trades_str (day_trades : list trade) : string :=
  join "," (map trade_string day_trades).

(* ================================================================= *)
(** ** Dates: [datetime.strptime(s, "%Y-%m-%d")], [weekday], [strftime("%A")]

    The proleptic Gregorian calendar of the [datetime] module. *)

Module PyDate.

Record datetime : Type := mk_datetime {
  year : Z;
  month : Z;
  day : Z
}.

Definition is_leap (y : Z) : bool :=
  ((y mod 4 =? 0)%Z && negb (y mod 100 =? 0)%Z) || (y mod 400 =? 0)%Z.

Definition days_in_month (y m : Z) : Z :=
  if (m =? 2)%Z then (if is_leap y then 29 else 28)
  else if (m =? 4)%Z || (m =? 6)%Z || (m =? 9)%Z || (m =? 11)%Z then 30
  else 31.

Definition days_before_year (y : Z) : Z :=
  let y' := y - 1 in
  y' * 365 + y' / 4 - y' / 100 + y' / 400.

Definition days_before_month (y m : Z) : Z :=
  nth (Z.to_nat m) [0; 0; 31; 59; 90; 120; 151; 181; 212; 243; 273; 304; 334] 0
  + (if (2 <? m)%Z && is_leap y then 1 else 0).

Definition toordinal (d : datetime) : Z :=
  days_before_year (year d) + days_before_month (year d) (month d) + day d.

(** Monday is 0 and Sunday is 6. *)
Definition weekday (d : datetime) : Z := (toordinal d + 6) mod 7.

(** [d.replace(day=1)] *)
Definition replace_day_1 (d : datetime) : datetime :=
  mk_datetime (year d) (month d) 1.

(** [d.strftime("%A")] *)
Definition day_name (d : datetime) : string :=
  nth (Z.to_nat (weekday d))
      ["Monday"; "Tuesday"; "Wednesday"; "Thursday"; "Friday"; "Saturday"; "Sunday"]
      "Sunday".

Definition in_range (lo hi : ascii) (c : ascii) : bool :=
  (nat_of_ascii lo <=? nat_of_ascii c)%nat && (nat_of_ascii c <=? nat_of_ascii hi)%nat.

(** [%Y]: four digits. *)
Definition take_year (s : string) : option (string * string) :=
  match s with
  | String a (String b (String c (String d rest))) =>
      if is_digit a && is_digit b && is_digit c && is_digit d
      then Some (String a (String b (String c (String d EmptyString))), rest)
      else None
  | _ => None
  end.

(** [%m] followed by the hyphen: [1[0-2]], then [0[1-9]], then [[1-9]];
    an alternative is kept when the hyphen follows it. *)
Definition take_month (s : string) : option (string * string) :=
  let two :=
    match s with
    | String a (String b (String "-" rest)) =>
        if (Ascii.eqb a "1" && in_range "0" "2" b)
           || (Ascii.eqb a "0" && in_range "1" "9" b)
        then Some (String a (String b EmptyString), rest)
        else None
    | _ => None
    end in
  match two, s with
  | Some r, _ => Some r
  | None, String a (String "-" rest) =>
      if in_range "1" "9" a then Some (String a EmptyString, rest) else None
  | None, _ => None
  end.

(** [%d] at the end of the format: [3[0-1]], then [[1-2]\d], then
    [0[1-9]], then [[1-9]], then a space and [[1-9]]; the first
    alternative that matches is kept. *)
Definition take_day (s : string) : option (string * string) :=
  match s with
  | String a rest =>
      match rest with
      | String b rest' =>
          if (Ascii.eqb a "3" && in_range "0" "1" b)
             || (in_range "1" "2" a && is_digit b)
             || (Ascii.eqb a "0" && in_range "1" "9" b)
          then Some (String a (String b EmptyString), rest')
          else if in_range "1" "9" a then Some (String a EmptyString, rest)
          else if Ascii.eqb a " " && in_range "1" "9" b
          then Some (String b EmptyString, rest')
          else None
      | EmptyString =>
          if in_range "1" "9" a then Some (String a EmptyString, rest) else None
      end
  | EmptyString => None
  end.

(** [datetime.strptime(s, "%Y-%m-%d")]; [None] stands for the
    [ValueError] of a text that is not a date. *)
Definition strptime (s : string) : option datetime :=
  match take_year s with
  | Some (ys, String "-" r1) =>
      match take_month r1 with
      | Some (ms, r2) =>
          match take_day r2 with
          | Some (ds, EmptyString) =>
              let y := digits_value ys in
              let m := digits_value ms in
              let d := digits_value ds in
              if (1 <=? y)%Z && (d <=? days_in_month y m)%Z
              then Some (mk_datetime y m d) else None
          | _ => None
          end
      | None => None
      end
  | _ => None
  end.

End PyDate.

(* ================================================================= *)
(** ** trade_analyzer.py: [analyze_trades] *)

Definition hundred : float := of_Z 100.

(** One entry of [daily_results]. *)
Module Daily.
Record t : Type := mk {
  day : Z;
  date : string;
  day_of_week : string;
  week_of_month : option Z;
  month : option Z;
  num_trades : nat;
  wins : nat;
  losses : nat;
  breakeven : nat;
  r_won : float;
  r_lost : float;
  net_r : float;
  win_rate : float;
  daily_pnl : float;
  end_balance : float
}.
End Daily.

(** The [overall] dictionary of the report. *)
Module Overall.
Record t : Type := mk {
  total_trades : nat;
  win_rate : float;
  total_r : float;
  profit_factor : float;
  avg_win_r : float;
  avg_loss_r : float;
  avg_risk_reward : float;
  net_pnl : float;
  final_balance : float;
  max_drawdown_pct : float;
  max_drawdown_amount : float;
  expectancy : float;
  max_win_streak : nat;
  max_loss_streak : nat;
  sharpe_ratio : float;
  sqn : float;
  day_of_week_performance : list (string * float);
  week_of_month_performance : list (string * float);
  month_performance : list (string * float)
}.
End Overall.

Record report : Type := mk_report {
  overall : Overall.t;
  daily : list Daily.t
}.

(** The variables of [analyze_trades] that the loop over the days updates. *)
Module Loop.
Record state : Type := mk {
  total_trades : nat;
  total_wins : nat;
  total_losses : nat;
  total_breakeven : nat;
  total_r_won : float;
  total_r_lost : float;
  daily_results : list Daily.t;
  current_balance : float;
  peak_balance : float;
  equity_curve : list float;
  daily_returns : list float;
  current_win_streak : nat;
  current_loss_streak : nat;
  max_win_streak : nat;
  max_loss_streak : nat;
  day_of_week_performance : list (string * list float);
  week_of_month_performance : list (Z * list float);
  month_performance : list (Z * list float);
  all_trade_r : list float
}.
End Loop.

(** [if k in d: d[k].append(v)] on a dictionary of lists. *)
Fixpoint dict_append {K : Type} (eqb : K -> K -> bool) (k : K) (v : float)
  (d : list (K * list float)) : list (K * list float) :=
  match d with
  | [] => []
  | (k', vs) :: d' =>
      if eqb k k' then (k', (vs ++ [v])%list) :: d'
      else (k', vs) :: dict_append eqb k v d'
  end.

Definition dict_append_opt (k : option Z) (v : float)
  (d : list (Z * list float)) : list (Z * list float) :=
  match k with
  | Some k' => dict_append Z.eqb k' v d
  | None => d
  end.

Definition initial_state (initial_balance : float) : Loop.state :=
  Loop.mk 0 0 0 0 zero zero []
    initial_balance initial_balance [initial_balance] []
    0 0 0 0
    [("Monday", []); ("Tuesday", []); ("Wednesday", []); ("Thursday", []); ("Friday", [])]
    [(1, []); (2, []); (3, []); (4, []); (5, [])]
    [(1, []); (2, []); (3, []); (4, []); (5, []); (6, []);
     (7, []); (8, []); (9, []); (10, []); (11, []); (12, [])]
    [].

(** [(adjusted_dom - 1) // 7 + 1] with [adjusted_dom = dom + first_day.weekday()] *)
Definition week_of_month_of (date_obj : PyDate.datetime) : Z :=
  let first_day := PyDate.replace_day_1 date_obj in
  let dom := PyDate.day date_obj in
  let adjusted_dom := dom + PyDate.weekday first_day in
  (adjusted_dom - 1) / 7 + 1.

(** The [try] block on the date: day of week, month and week of month, or
    the values of the [except] branch. *)
Definition calendar_fields (day_date : string) : string * option Z * option Z :=
  match PyDate.strptime day_date with
  | Some date_obj =>
      (PyDate.day_name date_obj, Some (PyDate.month date_obj),
       Some (week_of_month_of date_obj))
  | None => ("Unknown", None, None)
  end.

Definition count_type (ty : trade_type) (day_trades : list trade) : nat :=
  List.length (filter (fun trade => trade_type_eqb (type trade) ty) day_trades).

Definition sum_r (ty : trade_type) (day_trades : list trade) : float :=
  sum (map r_multiple (filter (fun trade => trade_type_eqb (type trade) ty) day_trades)).

Definition day_net_r_of (day_trades : list trade) : float :=
  sub (sum_r W day_trades) (sum_r L day_trades).

(** The signed R of one trade, as appended to [all_trade_r]. *)
Definition signed_r (trade : trade) : float :=
  match type trade with
  | W => r_multiple trade
  | L => neg (r_multiple trade)
  | BE => zero
  end.

(** The body of the loop [for day_data in trades_data]. *)
Definition process_day (risk_amount : float) (st : Loop.state) (day_data : day_data)
  : result Loop.state :=
  let day_number := day day_data in
  let day_date := date day_data in
  let day_trades := trades day_data in
  let '(day_of_week, month, week_of_month) := calendar_fields day_date in
  let day_trade_count := List.length day_trades in
  let day_wins := count_type W day_trades in
  let day_losses := count_type L day_trades in
  let day_breakeven := count_type BE day_trades in
  let day_r_won := sum_r W day_trades in
  let day_r_lost := sum_r L day_trades in
  let day_net_r := sub day_r_won day_r_lost in
  let all_trade_r := (Loop.all_trade_r st ++ map signed_r day_trades)%list in
  let non_be_trades := (day_wins + day_losses)%nat in
  day_win_rate <-
    (if (0 <? non_be_trades)%nat
     then q <- int_div day_wins non_be_trades ;; Ok (mul q hundred)
     else Ok zero) ;;
  let day_pnl := mul day_net_r risk_amount in
  let previous_balance := Loop.current_balance st in
  let current_balance := add (Loop.current_balance st) day_pnl in
  let peak_balance :=
    if gtb current_balance (Loop.peak_balance st) then current_balance
    else Loop.peak_balance st in
  daily_returns <-
    (if gtb previous_balance zero
     then daily_return <- div day_pnl previous_balance ;;
          Ok (Loop.daily_returns st ++ [daily_return])%list
     else Ok (Loop.daily_returns st)) ;;
  let '(current_win_streak, current_loss_streak, max_win_streak, max_loss_streak) :=
    if gtb day_net_r zero then
      let current_win_streak := (Loop.current_win_streak st + 1)%nat in
      (current_win_streak, 0%nat,
       if (Loop.max_win_streak st <? current_win_streak)%nat
       then current_win_streak else Loop.max_win_streak st,
       Loop.max_loss_streak st)
    else if ltb day_net_r zero then
      let current_loss_streak := (Loop.current_loss_streak st + 1)%nat in
      (0%nat, current_loss_streak,
       Loop.max_win_streak st,
       if (Loop.max_loss_streak st <? current_loss_streak)%nat
       then current_loss_streak else Loop.max_loss_streak st)
    else
      (Loop.current_win_streak st, Loop.current_loss_streak st,
       Loop.max_win_streak st, Loop.max_loss_streak st) in
  let day_of_week_performance :=
    dict_append String.eqb day_of_week day_net_r (Loop.day_of_week_performance st) in
  let week_of_month_performance :=
    dict_append_opt week_of_month day_net_r (Loop.week_of_month_performance st) in
  let month_performance :=
    dict_append_opt month day_net_r (Loop.month_performance st) in
  let equity_curve := (Loop.equity_curve st ++ [current_balance])%list in
  let daily_results :=
    (Loop.daily_results st ++
     [Daily.mk day_number day_date day_of_week week_of_month month
        day_trade_count day_wins day_losses day_breakeven
        day_r_won day_r_lost day_net_r day_win_rate day_pnl current_balance])%list in
  Ok (Loop.mk
        (Loop.total_trades st + day_trade_count)
        (Loop.total_wins st + day_wins)
        (Loop.total_losses st + day_losses)
        (Loop.total_breakeven st + day_breakeven)
        (add (Loop.total_r_won st) day_r_won)
        (add (Loop.total_r_lost st) day_r_lost)
        daily_results current_balance peak_balance equity_curve daily_returns
        current_win_streak current_loss_streak max_win_streak max_loss_streak
        day_of_week_performance week_of_month_performance month_performance
        all_trade_r).

(** The whole loop, from the state [st]. *)
Fixpoint run_days (risk_amount : float) (trades_data : list day_data) (st : Loop.state)
  : result Loop.state :=
  match trades_data with
  | [] => Ok st
  | day_data :: rest =>
      st' <- process_day risk_amount st day_data ;; run_days risk_amount rest st'
  end.

(** One step of the walk over [equity_curve[1:]]; the accumulator is
    [(peak, max_drawdown_amount, max_drawdown_pct)]. *)
Definition drawdown_step (acc : float * float * float) (equity : float)
  : result (float * float * float) :=
  let '(peak, max_drawdown_amount, max_drawdown_pct) := acc in
  let peak := if gtb equity peak then equity else peak in
  let drawdown := sub peak equity in
  drawdown_pct <-
    (if gtb peak zero then q <- div drawdown peak ;; Ok (mul q hundred) else Ok zero) ;;
  if gtb drawdown max_drawdown_amount
  then Ok (peak, drawdown, drawdown_pct)
  else Ok (peak, max_drawdown_amount, max_drawdown_pct).

Fixpoint drawdown_walk (acc : float * float * float) (curve : list float)
  : result (float * float * float) :=
  match curve with
  | [] => Ok acc
  | equity :: rest => acc' <- drawdown_step acc equity ;; drawdown_walk acc' rest
  end.

(** [(max_drawdown_pct, max_drawdown_amount)] *)
Definition max_drawdown (equity_curve : list float) : result (float * float) :=
  if (1 <? List.length equity_curve)%nat then
    let peak := List.hd zero equity_curve in
    '(_, amount, pct) <- drawdown_walk (peak, zero, zero) (List.tl equity_curve) ;;
    Ok (pct, amount)
  else Ok (zero, zero).

(** [sum(xs) / len(xs)] *)
Definition mean (xs : list float) : result float :=
  div_int (sum xs) (List.length xs).

(** [math.sqrt(sum((r - avg) ** 2 for r in xs) / len(xs))] *)
Definition std_dev_of (xs : list float) (avg : float) : result float :=
  squares <- mapM (fun r => pow2 (sub r avg)) xs ;;
  variance <- div_int (sum squares) (List.length xs) ;;
  sqrt variance.

Definition sharpe_ratio_of (daily_returns : list float) : result float :=
  if (1 <? List.length daily_returns)%nat then
    avg_return <- mean daily_returns ;;
    std_dev <- std_dev_of daily_returns avg_return ;;
    if gtb std_dev zero then
      q <- div avg_return std_dev ;;
      s <- sqrt (of_Z 252) ;;
      Ok (mul q s)
    else Ok zero
  else Ok zero.

Definition sqn_of (all_trade_r : list float) : result float :=
  if (1 <? List.length all_trade_r)%nat then
    avg_r <- mean all_trade_r ;;
    std_dev_r <- std_dev_of all_trade_r avg_r ;;
    if gtb std_dev_r zero then
      s <- sqrt (of_nat (List.length all_trade_r)) ;;
      div (mul avg_r s) std_dev_r
    else Ok zero
  else Ok zero.

(** The averages of the weekday dictionary: every key is kept. *)
Fixpoint day_of_week_avg_of (d : list (string * list float))
  : result (list (string * float)) :=
  match d with
  | [] => Ok []
  | (day, results) :: d' =>
      avg <- (match results with [] => Ok zero | _ => mean results end) ;;
      rest <- day_of_week_avg_of d' ;;
      Ok ((day, avg) :: rest)
  end.

(** The averages of a dictionary keyed by a number: the keys with an empty
    list are left out; [name] gives the key of the result. *)
Fixpoint numbered_avg_of (name : Z -> string) (d : list (Z * list float))
  : result (list (string * float)) :=
  match d with
  | [] => Ok []
  | (num, results) :: d' =>
      match results with
      | [] => numbered_avg_of name d'
      | _ =>
          avg <- mean results ;;
          rest <- numbered_avg_of name d' ;;
          Ok ((name num, avg) :: rest)
      end
  end.

Definition week_name (week_num : Z) : string :=
  "Week " ++ string_of_N (Z.to_N week_num).

Definition month_names (month_num : Z) : string :=
  nth (Z.to_nat month_num)
      ["January"; "January"; "February"; "March"; "April"; "May"; "June"; "July";
       "August"; "September"; "October"; "November"; "December"]
      "December".

(** The code after the loop. *)
Definition overall_metrics (risk_amount : float) (st : Loop.state) : result Overall.t :=
  let total_wins := Loop.total_wins st in
  let total_losses := Loop.total_losses st in
  let total_r_won := Loop.total_r_won st in
  let total_r_lost := Loop.total_r_lost st in
  let total_non_be_trades := (total_wins + total_losses)%nat in
  overall_win_rate <-
    (if (0 <? total_non_be_trades)%nat
     then q <- int_div total_wins total_non_be_trades ;; Ok (mul q hundred)
     else Ok zero) ;;
  let total_r := sub total_r_won total_r_lost in
  profit_factor <-
    (if gtb total_r_lost zero then div total_r_won total_r_lost else Ok inf) ;;
  avg_win_r <-
    (if (0 <? total_wins)%nat then div_int total_r_won total_wins else Ok zero) ;;
  avg_loss_r <-
    (if (0 <? total_losses)%nat then div_int total_r_lost total_losses else Ok zero) ;;
  avg_risk_reward <-
    (if gtb avg_loss_r zero then div avg_win_r avg_loss_r else Ok inf) ;;
  let net_pnl := mul total_r risk_amount in
  '(max_drawdown_pct, max_drawdown_amount) <- max_drawdown (Loop.equity_curve st) ;;
  win_part <- div overall_win_rate hundred ;;
  loss_part <- div (sub hundred overall_win_rate) hundred ;;
  let expectancy := sub (mul win_part avg_win_r) (mul loss_part avg_loss_r) in
  sharpe_ratio <- sharpe_ratio_of (Loop.daily_returns st) ;;
  sqn <- sqn_of (Loop.all_trade_r st) ;;
  day_of_week_avg <- day_of_week_avg_of (Loop.day_of_week_performance st) ;;
  week_of_month_avg <- numbered_avg_of week_name (Loop.week_of_month_performance st) ;;
  month_avg <- numbered_avg_of month_names (Loop.month_performance st) ;;
  Ok (Overall.mk
        (Loop.total_trades st) overall_win_rate total_r profit_factor
        avg_win_r avg_loss_r avg_risk_reward net_pnl (Loop.current_balance st)
        max_drawdown_pct max_drawdown_amount expectancy
        (Loop.max_win_streak st) (Loop.max_loss_streak st)
        sharpe_ratio sqn day_of_week_avg week_of_month_avg month_avg).

Definition analyze_trades (trades_data : list day_data)
  (initial_balance risk_amount : float) : result report :=
  st <- run_days risk_amount trades_data (initial_state initial_balance) ;;
  overall <- overall_metrics risk_amount st ;;
  Ok (mk_report overall (Loop.daily_results st)).

(* ================================================================= *)
(** ** Predicates of the statements *)

(** [x] is not a number, or carries the sign [+]. *)
Definition sign_false (x : float) : Prop :=
  match x with
  | S754_zero s | S754_infinity s | S754_finite s _ _ => s = false
  | S754_nan => True
  end.

(** [x < 0] is false: [x] is not a number, a zero, or positive. *)
Definition nonneg (x : float) : Prop := ltb x zero = false.

(** The character [c] occurs in [s]. *)
Fixpoint contains (c : ascii) (s : string) : bool :=
  match s with
  | EmptyString => false
  | String a s' => Ascii.eqb a c || contains c s'
  end.

(** The population standard deviation of the specification: the square
    root of the sum of the squared deviations from [avg] divided by the
    number of samples. *)
Definition population_variance (xs : list float) (avg : float) : result float :=
  squares <- mapM (fun x => pow2 (sub x avg)) xs ;;
  div_int (sum squares) (List.length xs).

Definition population_std_dev (xs : list float) (avg : float) : result float :=
  variance <- population_variance xs avg ;; sqrt variance.

(** [x] is a zero or not a number. *)
Definition zero_or_nan (x : float) : Prop :=
  match x with
  | S754_zero _ | S754_nan => True
  | _ => False
  end.

(** A squared deviation from the mean of [xs] is out of the float range. *)
Definition square_overflows (xs : list float) : Prop :=
  exists avg r, mean xs = Ok avg /\ In r xs /\ pow2 (sub r avg) = Raise OverflowError.

(** Every trade of every day is a break-even. *)
Definition all_breakeven (trades_data : list day_data) : Prop :=
  forall d t, In d trades_data -> In t (trades d) -> type t = BE.

(* ================================================================= *)
(** ** Data of the examples *)

(** The two days of the example of the specification, [W2R,L1R] and then
    [W1R], with any day numbers and dates. *)
Definition example_history (n1 : Z) (d1 : string) (n2 : Z) (d2 : string) : list day_data :=
  [mk_day n1 d1 [mk_trade W (of_Z 2); mk_trade L one];
   mk_day n2 d2 [mk_trade W one]].

(** A win of 1R and then a loss of 1R, on two days. *)
Definition win_then_loss : list day_data :=
  [mk_day 1 "2024-01-01" [mk_trade W one];
   mk_day 2 "2024-01-02" [mk_trade L one]].

(** The float [1e200]. *)
Definition huge : float := of_Z (10 ^ 200).

(* ================================================================= *)
(** ** Texts of one kind of character *)

(** Every character of [s] satisfies [p]. *)
Fixpoint string_forall (p : ascii -> bool) (s : string) : bool :=
  match s with
  | EmptyString => true
  | String a s' => p a && string_forall p s'
  end.

(** A number in positional notation: an optional minus sign, digits, a
    point and digits, as [repr] writes a float between [0.0001] and
    [1e16]. *)
Definition plain_number (s : string) : bool :=
  let '(sgn, r1) := take_opt (Ascii.eqb "-") s in
  let '(ip, r2) := take_digits r1 in
  let '(dot, r3) := take_opt is_dot r2 in
  let '(fp, r4) := take_digits r3 in
  negb (ip =? EmptyString) && negb (dot =? EmptyString)
  && negb (fp =? EmptyString) && (r4 =? EmptyString).

(** The magnitude of [t] is written by [save_data] in positional notation,
    and [float] reads the text back as the magnitude; a break-even holds
    the magnitude [0] that the parser gives it. *)
Definition written_plainly (t : trade) : Prop :=
  match type t with
  | BE => r_multiple t = zero
  | _ => plain_number (float_repr (r_multiple t)) = true
         /\ py_float (float_repr (r_multiple t)) = Ok (r_multiple t)
  end.

(** The characters of the texts that [save_data] writes for trades in
    positional notation. *)
Definition token_char (c : ascii) : bool :=
  is_digit c || Ascii.eqb c "-" || Ascii.eqb c "."
  || Ascii.eqb c "W" || Ascii.eqb c "L" || Ascii.eqb c "R"
  || Ascii.eqb c "B" || Ascii.eqb c "E".

(* ================================================================= *)
(** ** Predicates on the report *)

(** The balances of the daily results follow one another from [prev]: the
    P&L of a day is its net R times the risk amount, and its end balance is
    the balance before plus the P&L. *)
Fixpoint balance_chain (risk_amount prev : float) (results : list Daily.t) : Prop :=
  match results with
  | [] => True
  | dr :: rest =>
      Daily.daily_pnl dr = mul (Daily.net_r dr) risk_amount
      /\ Daily.end_balance dr = add prev (Daily.daily_pnl dr)
      /\ balance_chain risk_amount (Daily.end_balance dr) rest
  end.

(** The days with a net R above zero, and those with a net R below zero. *)
Definition winning_days (trades_data : list day_data) : list day_data :=
  filter (fun d => gtb (day_net_r_of (trades d)) zero) trades_data.

Definition losing_days (trades_data : list day_data) : list day_data :=
  filter (fun d => ltb (day_net_r_of (trades d)) zero) trades_data.

(** The maximal drawdown [amount] with its percentage [pct], over the
    balances [curve]: either both are [0], or the amount is above zero, it
    is the fall from a balance [peak] of the curve to a balance [low] of
    the curve, and the percentage is that of this fall on this peak ([0]
    for a peak that is not above zero). *)
Definition drawdown_of_curve (curve : list float) (amount pct : float) : Prop :=
  (amount = zero /\ pct = zero)
  \/ (gtb amount zero = true
      /\ exists peak low,
           In peak curve /\ In low curve
           /\ amount = sub peak low
           /\ pct = if gtb peak zero
                    then mul (SFdiv prec emax amount peak) hundred
                    else zero).

(** The falls that the walk over the curve computes, one for each balance
    after the first: the running peak minus the balance. *)
Fixpoint falls_from (peak : float) (curve : list float) : list float :=
  match curve with
  | [] => []
  | equity :: rest =>
      let peak := if gtb equity peak then equity else peak in
      sub peak equity :: falls_from peak rest
  end.

(** The net R of the days of [trades_data] selected by [p], in order. *)
Definition net_r_where (p : day_data -> bool) (trades_data : list day_data) : list float :=
  map (fun d => day_net_r_of (trades d)) (filter p trades_data).

(** The date of [d] is read and falls on the weekday [name]. *)
Definition on_weekday (name : string) (d : day_data) : bool :=
  String.eqb (fst (fst (calendar_fields (date d)))) name.

(** The date of [d] is read and falls in week [w] of its month. *)
Definition in_week (w : Z) (d : day_data) : bool :=
  match snd (calendar_fields (date d)) with
  | Some k => Z.eqb k w
  | None => false
  end.

(** The date of [d] is read and falls in month [m]. *)
Definition in_month (m : Z) (d : day_data) : bool :=
  match snd (fst (calendar_fields (date d))) with
  | Some k => Z.eqb k m
  | None => false
  end.

(** The arithmetic mean, and 0 for no value. *)
Definition average_or_zero (results : list float) : float :=
  match results with
  | [] => zero
  | _ => SFdiv prec emax (sum results) (of_nat (List.length results))
  end.

(** The entry [name: mean], and no entry for no value. *)
Definition named_average (name : string) (results : list float) : list (string * float) :=
  match results with
  | [] => []
  | _ => [(name, SFdiv prec emax (sum results) (of_nat (List.length results)))]
  end.

(* ================================================================= *)
(** ** utils.py: [save_data] and [load_data]

    The file is the list of its rows, each a list of fields: the rows that
    [save_data] hands to [csv.writer].  [load_data] is given first on the
    rows that [csv.reader] yields, and then, as [load_saved_file], on the
    rows that were written, with the reader in between. *)

(** The white space that [int] skips around an ASCII text: tab, line feed,
    vertical tab, form feed, carriage return and the space. *)
Definition is_c_space (c : ascii) : bool :=
  let n := nat_of_ascii c in
  ((9 <=? n)%nat && (n <=? 13)%nat) || (n =? 32)%nat.

Fixpoint skip_spaces (s : string) : string :=
  match s with
  | EmptyString => EmptyString
  | String a s' => if is_c_space a then skip_spaces s' else s
  end.

(** The digits that follow a first digit, each possibly after one
    underscore, and the rest of the text. *)
Fixpoint int_digits (s : string) : string * string :=
  match s with
  | EmptyString => (EmptyString, EmptyString)
  | String a s' =>
      if is_digit a then let '(ds, rest) := int_digits s' in (String a ds, rest)
      else if Ascii.eqb a "_" then
        match s' with
        | String b s'' =>
            if is_digit b then let '(ds, rest) := int_digits s'' in (String b ds, rest)
            else (EmptyString, s)
        | EmptyString => (EmptyString, s)
        end
      else (EmptyString, s)
  end.

(** The largest number of digits that [int] and [str] convert, by
    default. *)
Definition max_str_digits : nat := 4300.

(** [int(s)] on an ASCII text: white space, an optional sign, decimal
    digits with single underscores between them, white space. *)
Definition py_int (s : string) : result Z :=
  let '(sgn, s2) := take_opt is_sign (skip_spaces s) in
  match s2 with
  | String a s3 =>
      if is_digit a then
        let '(ds, rest) := int_digits s3 in
        match skip_spaces rest with
        | EmptyString =>
            if (max_str_digits <? String.length (String a ds))%nat then Raise ValueError
            else Ok (if sgn =? "-" then - digits_value (String a ds)
                     else digits_value (String a ds))
        | _ => Raise ValueError
        end
      else Raise ValueError
  | EmptyString => Raise ValueError
  end.

(** [str(n)] for an integer [n]. *)
Definition str_int (n : Z) : result string :=
  let ds := string_of_N (Z.to_N (Z.abs n)) in
  if (max_str_digits <? String.length ds)%nat then Raise ValueError
  else Ok (if (n <? 0)%Z then "-" ++ ds else ds).

(** The loop of [save_data] over the days: the rows written, and whether
    the loop came to its end; [writerow] raises for a day number that [str]
    does not convert, which ends the function with [False]. *)
Fixpoint save_rows (trades_data : list day_data) : list (list string) * bool :=
  match trades_data with
  | [] => ([], true)
  | day_data :: rest =>
      let trades_str := trades_str (trades day_data) in
      match str_int (day day_data) with
      | Ok day_text =>
          let '(rows, ok) := save_rows rest in
          ([day_text; date day_data; trades_str] :: rows, ok)
      | Raise _ => ([], false)
      end
  end.

(** [save_data(trades_data, filename)]: the rows of the file and the value
    returned. *)
Definition save_data (trades_data : list day_data) : list (list string) * bool :=
  let '(rows, ok) := save_rows trades_data in
  (["Day"; "Date"; "Trades"] :: rows, ok).

(** The loop [for row in reader] of [load_data]. *)
Fixpoint load_rows (rows : list (list string)) (trades_data : list day_data)
  : result (list day_data) :=
  match rows with
  | [] => Ok trades_data
  | row :: rest =>
      match row with
      | [day_num; date_str; trades_str] =>
          trades <- parse_trade_data trades_str ;;
          match trades with
          | Some ((_ :: _) as trades) =>
              n <- py_int day_num ;;
              load_rows rest (trades_data ++ [mk_day n date_str trades])%list
          | _ => load_rows rest trades_data
          end
      | _ => load_rows rest trades_data
      end
  end.

(** [load_data(filename)] on the rows that the reader yields when it reads
    the file to its end: [next(reader)] raises on a file without rows, and
    every exception gives [None]. *)
Definition load_data (file : list (list string)) : option (list day_data) :=
  match file with
  | [] => None
  | _ :: rows =>
      match load_rows rows [] with
      | Ok trades_data => Some trades_data
      | Raise _ => None
      end
  end.

(** The largest number of characters of a field that [csv.reader] accepts,
    by default. *)
Definition field_size_limit : Z := 131072.

Definition within_limit (field : string) : bool :=
  (Z.of_nat (String.length field) <=? field_size_limit)%Z.

(** [csv.reader] yields the row that was written as [row]; otherwise it
    raises [csv.Error], for a field larger than the limit. *)
Definition reader_accepts (row : list string) : bool := forallb within_limit row.

(** The rows that [csv.reader] yields from the file written from the rows
    [written], up to the end of the file or to the first row at which it
    raises, and whether it raises. *)
Fixpoint reader_rows (written : list (list string)) : list (list string) * bool :=
  match written with
  | [] => ([], false)
  | row :: rest =>
      if reader_accepts row then
        let '(rows, raises) := reader_rows rest in (row :: rows, raises)
      else ([], true)
  end.

(** [load_data(filename)] on the file written from the rows [written]: the
    loop runs over the rows that the reader yields, and the exception of the
    reader, at the header or in the loop, gives [None] as every other one. *)
Definition load_saved_file (written : list (list string)) : option (list day_data) :=
  let '(rows, raises) := reader_rows written in
  if raises then None else load_data rows.

(** The date and the trade text of [day_data] are fields that the reader
    accepts. *)
Definition fields_within_limit (day_data : day_data) : bool :=
  within_limit (date day_data) && within_limit (trades_str (trades day_data)).

(** A row that the loop of [load_data] passes over: it has not three
    fields, or its trade text is rejected or holds no trade. *)
Definition passed_over (row : list string) : Prop :=
  match row with
  | [_; _; trades_str] =>
      parse_trade_data trades_str = Ok None \/ parse_trade_data trades_str = Ok (Some [])
  | _ => True
  end.

(** A row on which the loop of [load_data] raises: its trade text makes
    the parser raise, or it has trades and a day number that [int]
    rejects. *)
Definition raising_row (row : list string) : Prop :=
  match row with
  | [day_num; _; trades_str] =>
      (exists e, parse_trade_data trades_str = Raise e)
      \/ (exists t l e, parse_trade_data trades_str = Ok (Some (t :: l))
                        /\ py_int day_num = Raise e)
  | _ => False
  end.

Definition has_trades (day_data : day_data) : bool :=
  match trades day_data with
  | [] => false
  | _ => true
  end.

(* ================================================================= *)
(** ** The history as a whole *)

(** The trades of all the days, in order. *)
Definition all_trades (trades_data : list day_data) : list trade :=
  List.concat (map trades trades_data).

(** The returns of the days that start with a balance above zero: the P&L
    of the day over the balance before it. *)
Fixpoint returns_of (previous_balance : float) (results : list Daily.t) : list float :=
  match results with
  | [] => []
  | dr :: rest =>
      ((if gtb previous_balance zero
        then [SFdiv prec emax (Daily.daily_pnl dr) previous_balance]
        else [])
       ++ returns_of (Daily.end_balance dr) rest)%list
  end.

(* ================================================================= *)
(** ** Backtest.py: the list of trading days of the session

    The blocks of the page that change [st.session_state.trades_data]
    without the database: the form that adds a day, the button that removes
    one, and the button that loads a file. *)

(** A day of the session: the keys that the analysis reads, and the key
    [rules_followed], which the days loaded from a file do not have. *)
Record session_day : Type := mk_session_day {
  data : day_data;
  rules_followed : option (list nat)
}.

(** [d['day'] = n] *)
Definition set_day (n : Z) (d : session_day) : session_day :=
  mk_session_day (mk_day n (date (data d)) (trades (data d))) (rules_followed d).

(** [for i, d in enumerate(trades_data): d['day'] = i + 1], from the
    index [i]. *)
Fixpoint renumber_from (i : nat) (trades_data : list session_day) : list session_day :=
  match trades_data with
  | [] => []
  | d :: rest => set_day (Z.of_nat i + 1) d :: renumber_from (S i) rest
  end.

(** [l.pop(idx)] for an index from 0: the list that remains, and [None]
    for the [IndexError] of an index outside the list. *)
Definition pop {A : Type} (idx : nat) (l : list A) : option (list A) :=
  if (idx <? List.length l)%nat then Some (firstn idx l ++ skipn (S idx) l)%list
  else None.

(** The button that removes the day at the index [idx]. *)
Definition remove_day (idx : nat) (trades_data : list session_day)
  : option (list session_day) :=
  match pop idx trades_data with
  | Some remaining => Some (renumber_from 0 remaining)
  | None => None
  end.

(** What the form that adds a day shows. *)
Inductive add_outcome : Type :=
| Added (num_trades : nat) (day_number : Z)
| InvalidTradeFormat
| NothingSubmitted.

(** The form that adds a day: [date_text] is the date chosen, written as
    year, month and day. *)
Definition add_day (submitted : bool) (trade_input date_text : string)
  (rules : list nat) (trades_data : list session_day)
  : result (list session_day * add_outcome) :=
  let day_number := Z.of_nat (List.length trades_data) + 1 in
  if submitted && negb (trade_input =? EmptyString) then
    trades <- parse_trade_data trade_input ;;
    match trades with
    | Some ((_ :: _) as trades) =>
        Ok ((trades_data
             ++ [mk_session_day (mk_day day_number date_text trades) (Some rules)])%list,
            Added (List.length trades) day_number)
    | _ => Ok (trades_data, InvalidTradeFormat)
    end
  else Ok (trades_data, NothingSubmitted).

(** The button that loads the selected file: the days of the session are
    replaced when [load_data] returns at least one day. *)
Definition load_selected (file : list (list string)) (trades_data : list session_day)
  : list session_day :=
  match load_data file with
  | Some ((_ :: _) as loaded_data) => map (fun d => mk_session_day d None) loaded_data
  | _ => trades_data
  end.

(** One use of the form or of one of the two buttons. *)
Inductive session_step : list session_day -> list session_day -> Prop :=
| step_add submitted trade_input date_text rules trades_data trades_data' outcome :
    add_day submitted trade_input date_text rules trades_data = Ok (trades_data', outcome) ->
    session_step trades_data trades_data'
| step_remove idx trades_data trades_data' :
    remove_day idx trades_data = Some trades_data' ->
    session_step trades_data trades_data'
| step_load file trades_data :
    session_step trades_data (load_selected file trades_data).

(** The days that a sequence of such uses leads to. *)
Inductive session_steps : list session_day -> list session_day -> Prop :=
| steps_none trades_data : session_steps trades_data trades_data
| steps_more trades_data trades_data' trades_data'' :
    session_steps trades_data trades_data' ->
    session_step trades_data' trades_data'' ->
    session_steps trades_data trades_data''.

(** The days carry the numbers 1, 2, 3, ... in order. *)
Definition numbered_in_order (trades_data : list session_day) : Prop :=
  map (fun d => day (data d)) trades_data
  = map (fun i => Z.of_nat i + 1) (seq 0 (List.length trades_data)).

(** What [d] holds beside its number. *)
Definition without_number (d : session_day) : string * list trade * option (list nat) :=
  (date (data d), trades (data d), rules_followed d).

(** White space or a comma. *)
Definition blank_char (c : ascii) : bool := is_space c || Ascii.eqb c ",".

(* ================================================================= *)
(** ** The entries of a text and the sign of what is stored *)

(** The entries that the loop of the parser does not skip: stripped, in
    capitals and not empty, in order. *)
Definition entries_of (trade_input : string) : list string :=
  filter (fun entry => negb (entry =? EmptyString))
    (map (fun entry => upper (strip entry)) (split "," (remove_char " " trade_input))).

(** A minus sign follows the first character of [entry]. *)
Definition minus_written (entry : string) : bool :=
  match entry with
  | String _ (String c _) => Ascii.eqb c "-"
  | _ => false
  end.

(** The trade [t] is what the parser stores for [entry]: the break-even
    with [0] for [BE]; otherwise a win or a loss after the first letter of
    the entry, whose magnitude is a number [>= 0], negated when a minus
    sign follows the letter. *)
Definition stored_for (entry : string) (t : trade) : Prop :=
  if entry =? "BE" then t = mk_trade BE zero
  else
    (type t = W \/ type t = L)
    /\ (exists rest, entry = type_name (type t) ++ rest)
    /\ exists magnitude,
         leb zero magnitude = true
         /\ r_multiple t = if minus_written entry then neg magnitude else magnitude.

(* ================================================================= *)
(** ** Float arithmetic: signs *)
Lemma sign_false_nonneg x : sign_false x -> nonneg x.
Proof. destruct x as [s|s| |s m e]; simpl; intros H; try subst s; reflexivity. Qed.

Lemma binary_round_aux_sign_false m e l :
  sign_false (binary_round_aux prec emax false m e l).
Proof.
  unfold binary_round_aux.
  destruct (shr_fexp prec emax m e l) as [mrs' e'].
  destruct (shr_fexp prec emax _ e' loc_Exact) as [mrs'' e''].
  destruct (shr_m mrs''); simpl; auto.
  destruct (Z.leb _ _); simpl; auto.
Qed.

Lemma binary_round_sign_false m e : sign_false (binary_round prec emax false m e).
Proof.
  unfold binary_round.
  destruct (shl_align m e _) as [mz ez]. apply binary_round_aux_sign_false.
Qed.

Lemma of_nat_sign_false n : sign_false (of_nat n).
Proof.
  unfold of_nat, of_Z, binary_normalize.
  destruct (Z.of_nat n) eqn:E; simpl; auto.
  - apply binary_round_sign_false.
  - lia.
Qed.

Lemma mul_self_nonneg x : nonneg (mul x x).
Proof.
  destruct x as [s|s| |s m e]; try (destruct s; reflexivity); try reflexivity.
  unfold mul, SFmul. rewrite xorb_nilpotent.
  apply sign_false_nonneg, binary_round_aux_sign_false.
Qed.

Lemma pow2_nonneg x y : pow2 x = Ok y -> nonneg y.
Proof.
  unfold pow2. destruct (is_finite x && is_inf (mul x x)); intros H; inversion H.
  apply mul_self_nonneg.
Qed.

Lemma add_nonneg a b : nonneg a -> nonneg b -> nonneg (add a b).
Proof.
  intros Ha Hb.
  destruct a as [sa|sa| |sa ma ea]; destruct b as [sb|sb| |sb mb eb];
    try (destruct sa; try discriminate Ha); try (destruct sb; try discriminate Hb);
    try reflexivity.
  unfold add, SFadd. cbn [cond_Zopp]. cbn [Z.add].
  apply sign_false_nonneg. unfold binary_normalize. apply binary_round_sign_false.
Qed.

Lemma sum_from_nonneg xs a : nonneg a -> Forall nonneg xs -> nonneg (fold_left add xs a).
Proof.
  intros Ha H. revert a Ha. induction H as [|x xs Hx _ IH]; intros a Ha; simpl; auto.
  apply IH, add_nonneg; assumption.
Qed.

Lemma sum_nonneg xs : Forall nonneg xs -> nonneg (sum xs).
Proof. apply sum_from_nonneg. reflexivity. Qed.

Lemma div_nonneg a b : nonneg a -> sign_false b -> nonneg (SFdiv prec emax a b).
Proof.
  intros Ha Hb.
  destruct a as [sa|sa| |sa ma ea]; destruct b as [sb|sb| |sb mb eb];
    simpl in Hb; try subst sb;
    try (destruct sa; try discriminate Ha); try reflexivity.
  unfold SFdiv.
  destruct (SFdiv_core_binary prec emax (Zpos ma) ea (Zpos mb) eb) as [[mz ez] lz].
  apply sign_false_nonneg, binary_round_aux_sign_false.
Qed.

Lemma gtb_zero_not_zero b : gtb b zero = true -> is_zero b = false.
Proof. destruct b as [s|s| |s m e]; simpl; intros H; auto; discriminate. Qed.

Lemma div_guarded a b : gtb b zero = true -> div a b = Ok (SFdiv prec emax a b).
Proof. intros H. unfold div. rewrite (gtb_zero_not_zero _ H). reflexivity. Qed.

Lemma div_int_pos a n : (0 <? n)%nat = true -> div_int a n = Ok (SFdiv prec emax a (of_nat n)).
Proof. destruct n; [discriminate | reflexivity]. Qed.

Lemma div_hundred a : div a hundred = Ok (SFdiv prec emax a hundred).
Proof. reflexivity. Qed.

Lemma mean_cons x xs : mean (x :: xs) = Ok (SFdiv prec emax (sum (x :: xs)) (of_nat (List.length (x :: xs)))).
Proof. reflexivity. Qed.

Lemma rate_guard_ok m n :
  exists v, (if (0 <? n)%nat then q <- int_div m n ;; Ok (mul q hundred) else Ok zero) = Ok v.
Proof.
  destruct (0 <? n)%nat eqn:E; [|eauto].
  unfold int_div. rewrite (div_int_pos _ _ E). simpl. eauto.
Qed.

Lemma return_guard_ok pnl prev (l : list float) :
  (if gtb prev zero then r <- div pnl prev ;; Ok (l ++ [r])%list else Ok l)
  = Ok (if gtb prev zero then (l ++ [SFdiv prec emax pnl prev])%list else l).
Proof.
  destruct (gtb prev zero) eqn:E; [|reflexivity].
  rewrite (div_guarded _ _ E). reflexivity.
Qed.

(** What one pass of the loop body does to the variables. *)
Lemma process_day_fields ra st d :
  exists st', process_day ra st d = Ok st'
    /\ Loop.total_wins st' = (Loop.total_wins st + count_type W (trades d))%nat
    /\ Loop.total_losses st' = (Loop.total_losses st + count_type L (trades d))%nat
    /\ Loop.total_r_won st' = add (Loop.total_r_won st) (sum_r W (trades d))
    /\ Loop.total_r_lost st' = add (Loop.total_r_lost st) (sum_r L (trades d))
    /\ Loop.all_trade_r st' = (Loop.all_trade_r st ++ map signed_r (trades d))%list
    /\ Loop.current_balance st'
       = add (Loop.current_balance st) (mul (day_net_r_of (trades d)) ra)
    /\ Loop.equity_curve st' = (Loop.equity_curve st ++ [Loop.current_balance st'])%list
    /\ Loop.daily_returns st'
       = (if gtb (Loop.current_balance st) zero
          then (Loop.daily_returns st
                ++ [SFdiv prec emax (mul (day_net_r_of (trades d)) ra)
                      (Loop.current_balance st)])%list
          else Loop.daily_returns st)
    /\ (Loop.current_win_streak st', Loop.current_loss_streak st',
        Loop.max_win_streak st', Loop.max_loss_streak st')
       = (if gtb (day_net_r_of (trades d)) zero then
            ((Loop.current_win_streak st + 1)%nat, 0%nat,
             if (Loop.max_win_streak st <? Loop.current_win_streak st + 1)%nat
             then (Loop.current_win_streak st + 1)%nat else Loop.max_win_streak st,
             Loop.max_loss_streak st)
          else if ltb (day_net_r_of (trades d)) zero then
            (0%nat, (Loop.current_loss_streak st + 1)%nat,
             Loop.max_win_streak st,
             if (Loop.max_loss_streak st <? Loop.current_loss_streak st + 1)%nat
             then (Loop.current_loss_streak st + 1)%nat else Loop.max_loss_streak st)
          else
            (Loop.current_win_streak st, Loop.current_loss_streak st,
             Loop.max_win_streak st, Loop.max_loss_streak st))
    /\ exists dr, Loop.daily_results st' = (Loop.daily_results st ++ [dr])%list
         /\ (Daily.day_of_week dr, Daily.month dr, Daily.week_of_month dr)
            = calendar_fields (date d)
         /\ Daily.net_r dr = day_net_r_of (trades d)
         /\ Daily.daily_pnl dr = mul (day_net_r_of (trades d)) ra
         /\ Daily.end_balance dr = Loop.current_balance st'.
Proof.
  unfold process_day, day_net_r_of.
  destruct (calendar_fields (date d)) as [[dow mo] wk].
  destruct (rate_guard_ok (count_type W (trades d))
              (count_type W (trades d) + count_type L (trades d))) as [v Hv].
  rewrite Hv. cbn [bind].
  rewrite return_guard_ok. cbn [bind].
  destruct (gtb (sub (sum_r W (trades d)) (sum_r L (trades d))) zero);
    [|destruct (ltb (sub (sum_r W (trades d)) (sum_r L (trades d))) zero)];
    (eexists; split; [reflexivity|]; cbn;
     repeat (split; [reflexivity|]);
     eexists; split; [reflexivity|]; cbn; auto).
Qed.

Lemma process_day_total ra st d : exists st', process_day ra st d = Ok st'.
Proof. destruct (process_day_fields ra st d) as [st' [H _]]. eauto. Qed.

Lemma run_days_total ra days : forall st, exists st', run_days ra days st = Ok st'.
Proof.
  induction days as [|d days IH]; intros st; simpl; eauto.
  destruct (process_day_total ra st d) as [st1 H1]. rewrite H1. cbn [bind]. apply IH.
Qed.

Lemma drawdown_step_total acc equity : exists acc', drawdown_step acc equity = Ok acc'.
Proof.
  destruct acc as [[peak amount] pct]. unfold drawdown_step.
  set (peak' := if gtb equity peak then equity else peak).
  destruct (gtb peak' zero) eqn:E.
  - rewrite (div_guarded _ _ E). cbn [bind]. destruct (gtb _ amount); eauto.
  - cbn [bind]. destruct (gtb _ amount); eauto.
Qed.

Lemma drawdown_walk_total curve : forall acc, exists acc', drawdown_walk acc curve = Ok acc'.
Proof.
  induction curve as [|e curve IH]; intros acc; simpl; eauto.
  destruct (drawdown_step_total acc e) as [acc1 H1]. rewrite H1. cbn [bind]. apply IH.
Qed.

Lemma max_drawdown_total curve : exists p, max_drawdown curve = Ok p.
Proof.
  unfold max_drawdown. destruct (1 <? List.length curve)%nat; [|eauto].
  destruct (drawdown_walk_total (List.tl curve) (List.hd zero curve, zero, zero))
    as [[[pk am] pc] H].
  rewrite H. cbn. eauto.
Qed.

(** The squares either all exist, and none is negative, or one of them
    overflows. *)
Lemma squares_cases xs avg :
  (exists sq, mapM (fun r => pow2 (sub r avg)) xs = Ok sq /\ Forall nonneg sq)
  \/ (mapM (fun r => pow2 (sub r avg)) xs = Raise OverflowError
      /\ exists r, In r xs /\ pow2 (sub r avg) = Raise OverflowError).
Proof.
  induction xs as [|x xs IH]; simpl.
  - left. eauto.
  - destruct (pow2 (sub x avg)) as [y|e] eqn:E.
    + cbn [bind]. destruct IH as [[sq [-> Hsq]]|[-> [r [Hr Hp]]]]; cbn [bind].
      * left. eexists; split; [reflexivity|]. constructor; [eapply pow2_nonneg; eauto|auto].
      * right. split; [reflexivity|]. eauto.
    + cbn [bind]. right.
      assert (e = OverflowError) as ->.
      { unfold pow2 in E. destruct (is_finite _ && is_inf _); congruence. }
      split; [reflexivity|]. eauto.
Qed.

Lemma sqrt_nonneg_ok x : nonneg x -> sqrt x = Ok (SFsqrt prec emax x).
Proof. unfold nonneg, sqrt. intros ->. reflexivity. Qed.

Lemma std_dev_of_cases x xs avg :
  (exists sq, mapM (fun r => pow2 (sub r avg)) (x :: xs) = Ok sq
     /\ std_dev_of (x :: xs) avg
        = Ok (SFsqrt prec emax (SFdiv prec emax (sum sq) (of_nat (List.length (x :: xs))))))
  \/ (std_dev_of (x :: xs) avg = Raise OverflowError
      /\ exists r, In r (x :: xs) /\ pow2 (sub r avg) = Raise OverflowError).
Proof.
  unfold std_dev_of.
  destruct (squares_cases (x :: xs) avg) as [[sq [H Hsq]]|[H Hr]]; rewrite H; cbn [bind].
  - left. eexists; split; [reflexivity|].
    cbn [List.length div_int bind].
    rewrite sqrt_nonneg_ok; [reflexivity|].
    apply div_nonneg; [apply sum_nonneg; assumption | apply of_nat_sign_false].
  - right. auto.
Qed.

Lemma sqrt_252_ok : sqrt (of_Z 252) = Ok (SFsqrt prec emax (of_Z 252)).
Proof. vm_compute. reflexivity. Qed.

Lemma sharpe_ratio_of_cases xs :
  (exists s, sharpe_ratio_of xs = Ok s)
  \/ (sharpe_ratio_of xs = Raise OverflowError /\ square_overflows xs).
Proof.
  unfold sharpe_ratio_of, square_overflows.
  destruct (1 <? List.length xs)%nat eqn:E; [|eauto].
  destruct xs as [|x xs]; [discriminate|].
  rewrite mean_cons. cbn [bind].
  destruct (std_dev_of_cases x xs (SFdiv prec emax (sum (x :: xs)) (of_nat (List.length (x :: xs)))))
    as [[sq [_ H]]|[H [r Hr]]]; rewrite H; cbn [bind]; [|right; eauto].
  left. destruct (gtb _ zero) eqn:G; [|eauto].
  rewrite (div_guarded _ _ G). cbn [bind]. rewrite sqrt_252_ok. cbn [bind]. eauto.
Qed.

Lemma sqn_of_cases xs :
  (exists s, sqn_of xs = Ok s)
  \/ (sqn_of xs = Raise OverflowError /\ square_overflows xs).
Proof.
  unfold sqn_of, square_overflows.
  destruct (1 <? List.length xs)%nat eqn:E; [|eauto].
  destruct xs as [|x xs]; [discriminate|].
  rewrite mean_cons. cbn [bind].
  destruct (std_dev_of_cases x xs (SFdiv prec emax (sum (x :: xs)) (of_nat (List.length (x :: xs)))))
    as [[sq [_ H]]|[H [r Hr]]]; rewrite H; cbn [bind]; [|right; eauto].
  left. destruct (gtb _ zero) eqn:G; [|eauto].
  rewrite sqrt_nonneg_ok by (apply sign_false_nonneg, of_nat_sign_false).
  cbn [bind]. rewrite (div_guarded _ _ G). eauto.
Qed.

Lemma day_of_week_avg_of_total d : exists avgs, day_of_week_avg_of d = Ok avgs.
Proof.
  induction d as [|[k results] d [avgs IH]]; simpl; eauto.
  rewrite IH. destruct results; cbn; eauto.
Qed.

Lemma numbered_avg_of_total name d : exists avgs, numbered_avg_of name d = Ok avgs.
Proof.
  induction d as [|[k results] d [avgs IH]]; simpl; eauto.
  rewrite IH. destruct results; cbn; eauto.
Qed.

(** The code after the loop returns the metrics, with the guarded ratios,
    unless the Sharpe ratio or the SQN raises [OverflowError]. *)
Lemma overall_metrics_cases ra st :
  (exists o s q, overall_metrics ra st = Ok o
     /\ sharpe_ratio_of (Loop.daily_returns st) = Ok s
     /\ sqn_of (Loop.all_trade_r st) = Ok q
     /\ Overall.sharpe_ratio o = s
     /\ Overall.sqn o = q
     /\ Overall.total_r o = sub (Loop.total_r_won st) (Loop.total_r_lost st)
     /\ Overall.profit_factor o
        = (if gtb (Loop.total_r_lost st) zero
           then SFdiv prec emax (Loop.total_r_won st) (Loop.total_r_lost st)
           else inf)
     /\ Overall.max_win_streak o = Loop.max_win_streak st
     /\ Overall.max_loss_streak o = Loop.max_loss_streak st
     /\ (if (0 <? Loop.total_wins st + Loop.total_losses st)%nat
         then q <- int_div (Loop.total_wins st) (Loop.total_wins st + Loop.total_losses st) ;;
              Ok (mul q hundred)
         else Ok zero) = Ok (Overall.win_rate o)
     /\ max_drawdown (Loop.equity_curve st)
        = Ok (Overall.max_drawdown_pct o, Overall.max_drawdown_amount o))
  \/ (overall_metrics ra st = Raise OverflowError
      /\ ((sharpe_ratio_of (Loop.daily_returns st) = Raise OverflowError
           /\ square_overflows (Loop.daily_returns st))
          \/ (sqn_of (Loop.all_trade_r st) = Raise OverflowError
              /\ square_overflows (Loop.all_trade_r st)))).
Proof.
  unfold overall_metrics.
  destruct (rate_guard_ok (Loop.total_wins st) (Loop.total_wins st + Loop.total_losses st))
    as [wr Hwr].
  rewrite Hwr. cbn [bind].
  assert (Hpf : (if gtb (Loop.total_r_lost st) zero
                 then div (Loop.total_r_won st) (Loop.total_r_lost st) else Ok inf)
                = Ok (if gtb (Loop.total_r_lost st) zero
                      then SFdiv prec emax (Loop.total_r_won st) (Loop.total_r_lost st)
                      else inf)).
  { destruct (gtb (Loop.total_r_lost st) zero) eqn:G; [apply div_guarded; exact G | reflexivity]. }
  rewrite Hpf. cbn [bind].
  assert (Haw : exists aw, (if (0 <? Loop.total_wins st)%nat
                 then div_int (Loop.total_r_won st) (Loop.total_wins st) else Ok zero) = Ok aw).
  { destruct (0 <? Loop.total_wins st)%nat eqn:G; [rewrite (div_int_pos _ _ G)|]; eauto. }
  destruct Haw as [aw ->]. cbn [bind].
  assert (Hal : exists al, (if (0 <? Loop.total_losses st)%nat
                 then div_int (Loop.total_r_lost st) (Loop.total_losses st) else Ok zero) = Ok al).
  { destruct (0 <? Loop.total_losses st)%nat eqn:G; [rewrite (div_int_pos _ _ G)|]; eauto. }
  destruct Hal as [al ->]. cbn [bind].
  assert (Hrr : exists rr, (if gtb al zero then div aw al else Ok inf) = Ok rr).
  { destruct (gtb al zero) eqn:G; [rewrite (div_guarded _ _ G)|]; eauto. }
  destruct Hrr as [rr ->]. cbn [bind].
  destruct (max_drawdown_total (Loop.equity_curve st)) as [[pct amount] Hdd].
  rewrite Hdd. cbn [bind].
  rewrite !div_hundred. cbn [bind].
  destruct (sharpe_ratio_of_cases (Loop.daily_returns st)) as [[s Hs]|[Hs Ho]];
    rewrite Hs; cbn [bind]; [|right; auto].
  destruct (sqn_of_cases (Loop.all_trade_r st)) as [[q Hq]|[Hq Ho]];
    rewrite Hq; cbn [bind]; [|right; auto].
  destruct (day_of_week_avg_of_total (Loop.day_of_week_performance st)) as [dw ->].
  destruct (numbered_avg_of_total week_name (Loop.week_of_month_performance st)) as [wk ->].
  destruct (numbered_avg_of_total month_names (Loop.month_performance st)) as [mo ->].
  cbn [bind]. left. do 3 eexists. split; [reflexivity|]. cbn. auto 10.
Qed.

(** *** The parsed number has the sign that is written *)

Lemma shr_1_nonneg mrs : 0 <= shr_m mrs -> 0 <= shr_m (shr_1 mrs).
Proof.
  destruct mrs as [m r s]. simpl.
  destruct m as [|[p|p|]|[p|p|]]; simpl; intros H; lia.
Qed.

Lemma iter_shr_1_nonneg p : forall mrs, 0 <= shr_m mrs -> 0 <= shr_m (iter_pos shr_1 p mrs).
Proof.
  induction p as [p IH|p IH|]; intros mrs H; simpl.
  - apply IH, IH, shr_1_nonneg, H.
  - apply IH, IH, H.
  - apply shr_1_nonneg, H.
Qed.

Lemma shr_fexp_nonneg m e l : 0 <= m -> 0 <= shr_m (fst (shr_fexp prec emax m e l)).
Proof.
  intros H. unfold shr_fexp, shr.
  assert (H0 : 0 <= shr_m (shr_record_of_loc m l)).
  { destruct l as [|[]]; simpl; exact H. }
  destruct (fexp prec emax (Zdigits2 m + e) - e); simpl; auto.
  apply iter_shr_1_nonneg, H0.
Qed.

Lemma round_nearest_even_nonneg m l : 0 <= m -> 0 <= round_nearest_even m l.
Proof.
  intros H. destruct l as [|[]]; simpl; try lia. destruct (Z.even m); lia.
Qed.

Lemma binary_round_aux_leb m e l :
  0 <= m -> leb zero (binary_round_aux prec emax false m e l) = true.
Proof.
  intros H. unfold binary_round_aux.
  pose proof (shr_fexp_nonneg m e l H) as H1.
  destruct (shr_fexp prec emax m e l) as [mrs' e']. simpl in H1.
  pose proof (shr_fexp_nonneg _ e' loc_Exact
                (round_nearest_even_nonneg _ (loc_of_shr_record mrs') H1)) as H2.
  destruct (shr_fexp prec emax _ e' loc_Exact) as [mrs'' e'']. simpl in H2.
  destruct (shr_m mrs''); try lia; [reflexivity|].
  destruct (Z.leb _ _); reflexivity.
Qed.

Lemma of_ratio_leb num den : leb zero (of_ratio false num den) = true.
Proof.
  unfold of_ratio. destruct num as [|n|n]; try reflexivity.
  unfold SFdiv_core_binary.
  set (s := 0 - 0 - _).
  set (m' := match s with Z0 => Zpos n | Zpos _ => Z.shiftl (Zpos n) s | Zneg _ => 0 end).
  assert (Hm : 0 <= m').
  { subst m'. destruct s; try lia. apply Z.shiftl_nonneg. lia. }
  pose proof (Z.div_pos m' (Zpos den) Hm ltac:(lia)) as Hq.
  unfold Z.div in Hq. destruct (Z.div_eucl m' (Zpos den)) as [q r]. simpl in Hq.
  apply binary_round_aux_leb, Hq.
Qed.


Lemma contains_append c a b : contains c (a ++ b) = contains c a || contains c b.
Proof. induction a as [|x a IH]; simpl; [reflexivity|]. rewrite IH, orb_assoc. reflexivity. Qed.

Lemma append_assoc (a b c : string) : (a ++ b) ++ c = a ++ (b ++ c).
Proof. induction a as [|x a IH]; simpl; [reflexivity|]. rewrite IH. reflexivity. Qed.

Lemma take_digits_append s : s = fst (take_digits s) ++ snd (take_digits s).
Proof.
  induction s as [|a s IH]; simpl; [reflexivity|].
  destruct (is_digit a); [|reflexivity].
  destruct (take_digits s) as [ds rest]. simpl in *. congruence.
Qed.

Lemma take_opt_append p s : s = fst (take_opt p s) ++ snd (take_opt p s).
Proof. destruct s as [|a s]; simpl; [reflexivity|]. destruct (p a); reflexivity. Qed.

Lemma re_match_trade_inv entry ty r_str :
  re_match_trade entry = Some (ty, r_str) ->
  (ty = W \/ ty = L) /\ exists c tail, entry = String c (r_str ++ tail).
Proof.
  destruct entry as [|c rest]; simpl; [discriminate|].
  pose proof (take_opt_append is_sign rest) as H1.
  destruct (take_opt is_sign rest) as [sgn r1]. simpl in H1.
  pose proof (take_digits_append r1) as H2.
  destruct (take_digits r1) as [ip r2]. simpl in H2.
  pose proof (take_opt_append is_dot r2) as H3.
  destruct (take_opt is_dot r2) as [dot r3]. simpl in H3.
  pose proof (take_digits_append r3) as H4.
  destruct (take_digits r3) as [fp r4]. simpl in H4.
  destruct (take_opt (Ascii.eqb "R") r4) as [x y].
  assert (Hrest : rest = (sgn ++ ip ++ dot ++ fp) ++ r4).
  { subst rest r1 r2 r3. rewrite !append_assoc. reflexivity. }
  destruct (Ascii.eqb c "W"); [|destruct (Ascii.eqb c "L")]; intros H; inversion H; subst;
    (split; [auto|]); exists c, r4; rewrite Hrest at 1; reflexivity.
Qed.

Lemma upper_char_minus a : Ascii.eqb (upper_char a) "-" = Ascii.eqb a "-".
Proof. destruct a as [[] [] [] [] [] [] [] []]; reflexivity. Qed.

Lemma contains_upper s : contains "-" (upper s) = contains "-" s.
Proof. induction s as [|a s IH]; simpl; [reflexivity|]. rewrite upper_char_minus, IH. reflexivity. Qed.

Lemma contains_lstrip c s : contains c (lstrip s) = true -> contains c s = true.
Proof.
  induction s as [|a s IH]; simpl; [auto|].
  destruct (is_space a); simpl; [|auto]. intros H. rewrite (IH H). apply orb_true_r.
Qed.

Lemma contains_rstrip c s : contains c (rstrip s) = true -> contains c s = true.
Proof.
  induction s as [|a s IH]; simpl; [auto|].
  destruct (rstrip s) as [|b t] eqn:E.
  - destruct (is_space a); simpl; [discriminate|]. rewrite orb_false_r. intros ->. reflexivity.
  - simpl in *. destruct (Ascii.eqb a c); simpl; [reflexivity|]. exact IH.
Qed.

Lemma contains_strip c s : contains c (strip s) = true -> contains c s = true.
Proof. intros H. apply contains_lstrip, contains_rstrip, H. Qed.

Lemma contains_split c sep s piece :
  In piece (split sep s) -> contains c piece = true -> contains c s = true.
Proof.
  revert piece. induction s as [|a s IH]; simpl; intros piece.
  - intros [<-|[]]. auto.
  - destruct (Ascii.eqb a sep).
    + intros [<-|H] Hc; [discriminate|]. rewrite (IH _ H Hc). apply orb_true_r.
    + destruct (split sep s) as [|p ps] eqn:E.
      * intros [<-|[]]. simpl. destruct (Ascii.eqb a c); simpl; [reflexivity|discriminate].
      * intros [<-|H] Hc.
        -- simpl in Hc. destruct (Ascii.eqb a c); simpl; [reflexivity|].
           apply (IH p); [left; reflexivity | exact Hc].
        -- rewrite (IH piece); [apply orb_true_r | right; exact H | exact Hc].
Qed.

Lemma contains_remove_char c d s :
  contains c (remove_char d s) = true -> contains c s = true.
Proof.
  induction s as [|a s IH]; simpl; [auto|].
  destruct (Ascii.eqb a d); simpl.
  - intros H. rewrite (IH H). apply orb_true_r.
  - destruct (Ascii.eqb a c); simpl; auto.
Qed.

Lemma py_float_unsigned r_str x :
  py_float r_str = Ok x -> contains "-" r_str = false -> leb zero x = true.
Proof.
  unfold py_float.
  assert (Hs : contains "-" r_str = false -> (fst (take_opt is_sign r_str) =? "-") = false).
  { destruct r_str as [|a s]; simpl; [reflexivity|].
    destruct (is_sign a); simpl; [|reflexivity].
    intros H. apply orb_false_iff in H. destruct H as [H _].
    unfold String.eqb. rewrite H. reflexivity. }
  destruct (take_opt is_sign r_str) as [sgn r1].
  destruct (take_digits r1) as [ip r2].
  destruct (take_opt is_dot r2) as [dot r3].
  destruct (take_digits r3) as [fp r4].
  destruct (_ && _); [|discriminate].
  intros H Hc. inversion H. simpl in Hs. rewrite (Hs Hc). apply of_ratio_leb.
Qed.

Lemma parse_entries_inv (P : trade -> Prop) entries :
  P (mk_trade BE zero) ->
  (forall entry ty r_str x,
      In entry entries ->
      re_match_trade (upper (strip entry)) = Some (ty, r_str) ->
      (if r_str =? EmptyString then Ok one else py_float r_str) = Ok x ->
      P (mk_trade ty x)) ->
  forall acc ts,
    parse_entries entries acc = Ok (Some ts) ->
    (forall t, In t acc -> P t) ->
    forall t, In t ts -> P t.
Proof.
  intros Hbe. induction entries as [|entry rest IH]; intros Hstep acc ts; simpl.
  - intros H Hacc. inversion H. subst. exact Hacc.
  - assert (Hrest : forall acc' ts', parse_entries rest acc' = Ok (Some ts') ->
                      (forall t, In t acc' -> P t) -> forall t, In t ts' -> P t).
    { apply IH. intros e ty r x He. apply Hstep. right. exact He. }
    destruct (upper (strip entry) =? EmptyString); [apply Hrest|].
    destruct (upper (strip entry) =? "BE").
    { intros H Hacc. apply (Hrest _ _ H). intros t Ht.
      apply in_app_or in Ht. destruct Ht as [Ht|[<-|[]]]; auto. }
    destruct (re_match_trade (upper (strip entry))) as [[ty r_str]|] eqn:Em; [|discriminate].
    destruct (if r_str =? EmptyString then Ok one else py_float r_str) as [x|e] eqn:Ex;
      cbn [bind]; [|discriminate].
    intros H Hacc. apply (Hrest _ _ H). intros t Ht.
    apply in_app_or in Ht. destruct Ht as [Ht|[<-|[]]]; auto.
    apply (Hstep entry ty r_str x); auto. left. reflexivity.
Qed.


(* ================================================================= *)
(** ** The parser on the examples of the specification *)

Example parse_examples :
  parse_trade_data "BE" = Ok (Some [mk_trade BE zero])
  /\ parse_trade_data "W2R,L1R,BE"
     = Ok (Some [mk_trade W (of_Z 2); mk_trade L one; mk_trade BE zero])
  /\ parse_trade_data "W" = Ok (Some [mk_trade W one])
  /\ parse_trade_data "w1.5r, l , ,be," 
     = Ok (Some [mk_trade W (of_ratio false 15 10); mk_trade L one; mk_trade BE zero])
  /\ parse_trade_data "garbage" = Ok None
  /\ parse_trade_data "W2R, garbage, L1R" = Ok None.
Proof. repeat split; vm_compute; reflexivity. Qed.

(* ================================================================= *)
(** ** The parser on malformed entries *)

(** An entry that is not empty, is not [BE] and does not start with [W] or
    [L] makes the whole parse return [None] or raise: no list is returned. *)
Lemma parse_entries_rejects entries :
  forall acc ts,
    parse_entries entries acc = Ok (Some ts) ->
    forall entry, In entry entries ->
      upper (strip entry) = EmptyString
      \/ upper (strip entry) = "BE"
      \/ re_match_trade (upper (strip entry)) <> None.
Proof.
  induction entries as [|e rest IH]; intros acc ts H entry [].
  - subst e. simpl in H.
    destruct (String.eqb_spec (upper (strip entry)) EmptyString) as [E|_]; [auto|].
    destruct (String.eqb_spec (upper (strip entry)) "BE") as [E|_]; [auto|].
    destruct (re_match_trade (upper (strip entry))); [right; right; discriminate | discriminate].
  - simpl in H.
    destruct (upper (strip e) =? EmptyString); [eapply IH; eauto|].
    destruct (upper (strip e) =? "BE"); [eapply IH; eauto|].
    destruct (re_match_trade (upper (strip e))) as [[ty r_str]|]; [|discriminate].
    destruct (if r_str =? EmptyString then Ok one else py_float r_str); cbn [bind] in H;
      [eapply IH; eauto | discriminate].
Qed.

Lemma parse_rejects_unknown_first_letter s entry :
  In entry (split "," (remove_char " " s)) ->
  upper (strip entry) <> EmptyString ->
  upper (strip entry) <> "BE" ->
  re_match_trade (upper (strip entry)) = None ->
  forall ts, parse_trade_data s <> Ok (Some ts).
Proof.
  intros Hin H1 H2 H3 ts H.
  destruct (parse_entries_rejects _ _ _ H entry Hin) as [E|[E|E]]; auto.
Qed.

(** C1 (the code departs from the claim).  The entries [W2X], [WIN] and
    [LOSS] are neither [BE] nor a letter [W] or [L] followed by an optional
    signed decimal number and an optional [R], yet the parse succeeds: the
    pattern is matched at the start of the entry only, and the text after
    the match is ignored. *)
Theorem parse_accepts_trailing_text :
  parse_trade_data "W2X" = Ok (Some [mk_trade W (of_Z 2)])
  /\ parse_trade_data "WIN, LOSS" = Ok (Some [mk_trade W one; mk_trade L one]).
Proof. split; vm_compute; reflexivity. Qed.

(** C2 (the code departs from the claim).  On [W.] and [L-] the numeric
    group is a point or a sign alone; [float] raises [ValueError], which
    nothing catches: the parse neither returns a list nor [None]. *)
Theorem parse_raises_value_error :
  parse_trade_data "W." = Raise ValueError
  /\ parse_trade_data "L-" = Raise ValueError
  /\ parse_trade_data "W2R, L+" = Raise ValueError.
Proof. repeat split; vm_compute; reflexivity. Qed.

(* ================================================================= *)
(** ** The sign of the stored magnitude *)

(** C3, counterexample.  [L-1] and [W-2R] are parsed, and the magnitude
    stored is negative. *)
Lemma parse_stores_negative_magnitude :
  parse_trade_data "L-1" = Ok (Some [mk_trade L (neg one)])
  /\ leb zero (r_multiple (mk_trade L (neg one))) = false
  /\ parse_trade_data "W-2R" = Ok (Some [mk_trade W (neg (of_Z 2))])
  /\ leb zero (r_multiple (mk_trade W (neg (of_Z 2)))) = false.
Proof. repeat split; vm_compute; reflexivity. Qed.

(** Every trade of a successful parse of a text without any minus sign has
    a magnitude [>= 0], and a break-even stores [0]. *)
Lemma parse_without_minus s ts t :
  parse_trade_data s = Ok (Some ts) ->
  In t ts ->
  (type t = BE -> r_multiple t = zero)
  /\ (contains "-" s = false -> leb zero (r_multiple t) = true).
Proof.
  unfold parse_trade_data. intros Hp Ht. split.
  - revert t Ht.
    apply (parse_entries_inv (fun t => type t = BE -> r_multiple t = zero)
             (split "," (remove_char " " s))) with (acc := []) (ts := ts);
      [reflexivity | | exact Hp | intros t []].
    intros entry ty r_str x _ Hm _. simpl.
    destruct (re_match_trade_inv _ _ _ Hm) as [[-> | ->] _]; discriminate.
  - intros Hc. revert t Ht.
    apply (parse_entries_inv (fun t => leb zero (r_multiple t) = true)
             (split "," (remove_char " " s))) with (acc := []) (ts := ts);
      [reflexivity | | exact Hp | intros t []].
    intros entry ty r_str x Hin Hm Hx. simpl.
    destruct (r_str =? EmptyString); [inversion Hx; reflexivity|].
    apply (py_float_unsigned r_str x Hx).
    destruct (contains "-" r_str) eqn:Er; [|reflexivity].
    exfalso.
    destruct (re_match_trade_inv _ _ _ Hm) as [_ [c [tail He]]].
    assert (H1 : contains "-" (upper (strip entry)) = true).
    { rewrite He. simpl. rewrite contains_append, Er. simpl. apply orb_true_r. }
    rewrite contains_upper in H1.
    apply contains_strip in H1.
    apply (contains_split _ _ _ _ Hin) in H1.
    apply contains_remove_char in H1. congruence.
Qed.

Lemma of_ratio_neg num den : of_ratio true num den = neg (of_ratio false num den).
Proof.
  unfold of_ratio. destruct num as [|n|n]; try reflexivity.
  destruct (SFdiv_core_binary prec emax (Z.pos n) 0 (Z.pos den) 0) as [[mz ez] lz].
  unfold binary_round_aux.
  destruct (shr_fexp prec emax mz ez lz) as [mrs' e'].
  destruct (shr_fexp prec emax _ e' loc_Exact) as [mrs'' e''].
  destruct (shr_m mrs''); try reflexivity.
  destruct (Z.leb _ _); reflexivity.
Qed.

Lemma py_float_value r_str x :
  py_float r_str = Ok x ->
  exists num den, x = of_ratio (fst (take_opt is_sign r_str) =? "-") num den.
Proof.
  unfold py_float.
  destruct (take_opt is_sign r_str) as [sgn r1].
  destruct (take_digits r1) as [ip r2].
  destruct (take_opt is_dot r2) as [dot r3].
  destruct (take_digits r3) as [fp r4].
  destruct (_ && _); [|discriminate].
  intros H. inversion H. cbn [fst]. eauto.
Qed.

(** The sign that [float] reads in the second group of the pattern is the
    minus sign that follows the first letter of the entry, if any. *)
Lemma re_match_sign entry ty r_str :
  re_match_trade entry = Some (ty, r_str) ->
  if r_str =? EmptyString then minus_written entry = false
  else (fst (take_opt is_sign r_str) =? "-") = minus_written entry.
Proof.
  destruct entry as [|c rest]; [discriminate|].
  unfold re_match_trade.
  assert (Hgoal :
            let '(sgn, r1) := take_opt is_sign rest in
            let '(ip, r2) := take_digits r1 in
            let '(dot, r3) := take_opt is_dot r2 in
            let '(fp, r4) := take_digits r3 in
            if sgn ++ ip ++ dot ++ fp =? EmptyString
            then minus_written (String c rest) = false
            else (fst (take_opt is_sign (sgn ++ ip ++ dot ++ fp)) =? "-")
                 = minus_written (String c rest)).
  { destruct rest as [|a rest']; [reflexivity|].
    cbn [take_opt minus_written].
    destruct (is_sign a) eqn:Es.
    - destruct (take_digits rest') as [ip r2].
      destruct (take_opt is_dot r2) as [dot r3].
      destruct (take_digits r3) as [fp r4].
      change ((String a EmptyString) ++ ip ++ dot ++ fp) with (String a (ip ++ dot ++ fp)).
      cbn [String.eqb take_opt]. rewrite Es. cbn [fst String.eqb].
      destruct (Ascii.eqb a "-"); reflexivity.
    - assert (Em : Ascii.eqb a "-" = false).
      { unfold is_sign in Es. apply orb_false_iff in Es. exact (proj1 Es). }
      rewrite Em. cbn [take_digits].
      destruct (is_digit a) eqn:Ed.
      + destruct (take_digits rest') as [ip r2].
        destruct (take_opt is_dot r2) as [dot r3].
        destruct (take_digits r3) as [fp r4].
        change (EmptyString ++ String a ip ++ dot ++ fp) with (String a (ip ++ dot ++ fp)).
        cbn [String.eqb take_opt]. rewrite Es. reflexivity.
      + cbn [take_opt]. destruct (is_dot a) eqn:Eo.
        * destruct (take_digits rest') as [fp r4].
          change (EmptyString ++ EmptyString ++ String a EmptyString ++ fp)
            with (String a fp).
          cbn [String.eqb take_opt]. rewrite Es. reflexivity.
        * cbn [take_digits]. rewrite Ed. reflexivity. }
  destruct (take_opt is_sign rest) as [sgn r1].
  destruct (take_digits r1) as [ip r2].
  destruct (take_opt is_dot r2) as [dot r3].
  destruct (take_digits r3) as [fp r4].
  destruct (take_opt (Ascii.eqb "R") r4) as [x y].
  destruct (Ascii.eqb c "W"); [|destruct (Ascii.eqb c "L"); [|discriminate]];
    intros H; inversion H; subst; exact Hgoal.
Qed.

Lemma re_match_first_letter entry ty r_str :
  re_match_trade entry = Some (ty, r_str) ->
  (ty = W \/ ty = L) /\ exists rest, entry = type_name ty ++ rest.
Proof.
  destruct entry as [|c rest]; [discriminate|].
  unfold re_match_trade.
  destruct (take_opt is_sign rest) as [sgn r1].
  destruct (take_digits r1) as [ip r2].
  destruct (take_opt is_dot r2) as [dot r3].
  destruct (take_digits r3) as [fp r4].
  destruct (take_opt (Ascii.eqb "R") r4) as [x y].
  destruct (Ascii.eqb c "W") eqn:Ew.
  - apply Ascii.eqb_eq in Ew. subst c. intros H. inversion H.
    split; [left; reflexivity | exists rest; reflexivity].
  - destruct (Ascii.eqb c "L") eqn:El; [|discriminate].
    apply Ascii.eqb_eq in El. subst c. intros H. inversion H.
    split; [right; reflexivity | exists rest; reflexivity].
Qed.

Lemma re_match_stored entry ty r_str x :
  (entry =? "BE") = false ->
  re_match_trade entry = Some (ty, r_str) ->
  (if r_str =? EmptyString then Ok one else py_float r_str) = Ok x ->
  stored_for entry (mk_trade ty x).
Proof.
  intros Hbe Hm Hx. unfold stored_for. rewrite Hbe. cbn [type r_multiple].
  destruct (re_match_first_letter _ _ _ Hm) as [Hty Hrest].
  split; [exact Hty|]. split; [exact Hrest|].
  pose proof (re_match_sign _ _ _ Hm) as Hs.
  destruct (r_str =? EmptyString).
  - inversion Hx. exists one. rewrite Hs. split; reflexivity.
  - destruct (py_float_value _ _ Hx) as (num & den & ->).
    exists (of_ratio false num den). split; [apply of_ratio_leb|].
    rewrite Hs. destruct (minus_written entry); [apply of_ratio_neg | reflexivity].
Qed.

Lemma parse_entries_stored entries :
  forall acc ts,
    parse_entries entries acc = Ok (Some ts) ->
    exists new,
      ts = (acc ++ new)%list
      /\ Forall2 stored_for
           (filter (fun entry => negb (entry =? EmptyString))
              (map (fun entry => upper (strip entry)) entries))
           new.
Proof.
  induction entries as [|entry rest IH]; intros acc ts H.
  - inversion H. exists []. rewrite app_nil_r. split; [reflexivity | constructor].
  - cbn [parse_entries map filter] in *.
    destruct (upper (strip entry) =? EmptyString) eqn:Ee; cbn [negb].
    + apply IH. exact H.
    + destruct (upper (strip entry) =? "BE") eqn:Eb.
      * destruct (IH _ _ H) as (new & -> & Hf).
        exists (mk_trade BE zero :: new). rewrite <- app_assoc.
        split; [reflexivity|]. constructor; [|exact Hf].
        unfold stored_for. rewrite Eb. reflexivity.
      * destruct (re_match_trade (upper (strip entry))) as [[ty r_str]|] eqn:Em;
          [|discriminate H].
        destruct (if r_str =? EmptyString then Ok one else py_float r_str)
          as [x|e] eqn:Ex; cbn [bind] in H; [|discriminate H].
        destruct (IH _ _ H) as (new & -> & Hf).
        exists (mk_trade ty x :: new). rewrite <- app_assoc.
        split; [reflexivity|]. constructor; [|exact Hf].
        apply (re_match_stored _ _ _ _ Eb Em Ex).
Qed.

Lemma leb_neg_magnitude m : leb zero m = true -> leb (neg m) zero = true.
Proof. destruct m as [s|s| |s a e]; try destruct s; intros H; try discriminate H; reflexivity. Qed.

Lemma ltb_neg_magnitude m : leb zero m = true -> ltb (neg m) zero = gtb m zero.
Proof. destruct m as [s|s| |s a e]; try destruct s; intros H; try discriminate H; reflexivity. Qed.

Lemma ltb_magnitude m : leb zero m = true -> ltb m zero = false.
Proof. destruct m as [s|s| |s a e]; try destruct s; intros H; try discriminate H; reflexivity. Qed.

(** C3, amended.  A successful parse stores one trade for each entry that
    is not empty, in order.  The entry [BE] stores a break-even with [0].
    Any other entry stores a win or a loss after its first letter, with a
    number [m >= 0] when no minus sign follows the letter and with [-m]
    when one does: the stored magnitude is [>= 0] for every entry without
    such a minus sign, it is [<= 0] for every entry with one, and it is
    below zero exactly when the minus sign is there and the number is not
    zero.  A minus sign elsewhere in the entry changes nothing; a text
    without any minus sign stores magnitudes [>= 0] only. *)
Theorem parse_sign_follows_entry s ts :
  parse_trade_data s = Ok (Some ts) ->
  Forall2 stored_for (entries_of s) ts
  /\ Forall2 (fun entry t =>
                (minus_written entry = false -> leb zero (r_multiple t) = true)
                /\ (minus_written entry = true -> leb (r_multiple t) zero = true)
                /\ (ltb (r_multiple t) zero = true -> minus_written entry = true)
                /\ (type t = BE -> r_multiple t = zero))
       (entries_of s) ts
  /\ (contains "-" s = false -> Forall (fun t => leb zero (r_multiple t) = true) ts).
Proof.
  intros H.
  assert (Hf : Forall2 stored_for (entries_of s) ts).
  { destruct (parse_entries_stored _ _ _ H) as (new & -> & Hf). exact Hf. }
  split; [exact Hf|]. split.
  - clear H. revert Hf. generalize (entries_of s). intros entries Hf.
    induction Hf as [|entry t entries ts' Hst _ IH]; [constructor|].
    constructor; [|exact IH].
    unfold stored_for in Hst.
    destruct (entry =? "BE") eqn:Eb.
    + apply String.eqb_eq in Eb. subst. cbn. repeat split; intros; try reflexivity;
        discriminate.
    + destruct Hst as (Hty & _ & m & Hm & Hr). rewrite Hr.
      destruct (minus_written entry).
      * repeat split; intros; try discriminate; try reflexivity.
        -- apply leb_neg_magnitude. exact Hm.
        -- destruct Hty; congruence.
      * repeat split; intros; try discriminate; try exact Hm.
        -- rewrite (ltb_magnitude _ Hm) in *. discriminate.
        -- destruct Hty; congruence.
  - intros Hc. apply Forall_forall. intros t Ht.
    exact (proj2 (parse_without_minus s ts t H Ht) Hc).
Qed.

Lemma parse_sign_follows_entry_witness :
  parse_trade_data "W2R-5, l-1.5 ,be, W-0"
  = Ok (Some [mk_trade W (of_Z 2); mk_trade L (neg (of_ratio false 15 10));
              mk_trade BE zero; mk_trade W (neg zero)])
  /\ entries_of "W2R-5, l-1.5 ,be, W-0" = ["W2R-5"; "L-1.5"; "BE"; "W-0"]
  /\ Forall2 stored_for ["W2R-5"; "L-1.5"; "BE"; "W-0"]
       [mk_trade W (of_Z 2); mk_trade L (neg (of_ratio false 15 10));
        mk_trade BE zero; mk_trade W (neg zero)].
Proof.
  assert (H : parse_trade_data "W2R-5, l-1.5 ,be, W-0"
              = Ok (Some [mk_trade W (of_Z 2); mk_trade L (neg (of_ratio false 15 10));
                          mk_trade BE zero; mk_trade W (neg zero)]))
    by (vm_compute; reflexivity).
  assert (E : entries_of "W2R-5, l-1.5 ,be, W-0" = ["W2R-5"; "L-1.5"; "BE"; "W-0"])
    by (vm_compute; reflexivity).
  split; [exact H|]. split; [exact E|].
  rewrite <- E. exact (proj1 (parse_sign_follows_entry _ _ H)).
Defined.

(* ================================================================= *)
(** ** Writing the trades and reading them back *)

(** C9 (the code departs from the claim).  A magnitude of [10^16] is
    written by [save_data] in exponent notation, [W1e+16R]; the parser
    reads the digits up to the [e] and ignores the rest, so the trade read
    back has the magnitude [1]. *)
Theorem save_then_parse_changes_large_magnitude :
  parse_trade_data "W10000000000000000" = Ok (Some [mk_trade W (of_Z (10 ^ 16))])
  /\ trades_str [mk_trade W (of_Z (10 ^ 16))] = "W1e+16R"
  /\ parse_trade_data "W1e+16R" = Ok (Some [mk_trade W one])
  /\ eqb one (of_Z (10 ^ 16)) = false.
Proof. repeat split; vm_compute; reflexivity. Qed.

(** The same happens below [0.0001]: [L0.00001] is written [L1e-05R] and
    read back as a loss of 1R. *)
Example save_then_parse_changes_small_magnitude :
  parse_trade_data "L0.00001" = Ok (Some [mk_trade L (of_ratio false 1 100000)])
  /\ trades_str [mk_trade L (of_ratio false 1 100000)] = "L1e-05R"
  /\ parse_trade_data "L1e-05R" = Ok (Some [mk_trade L one])
  /\ eqb one (of_ratio false 1 100000) = false.
Proof. repeat split; vm_compute; reflexivity. Qed.

(** On everyday magnitudes the trades are read back as they were. *)
Example save_then_parse_small_magnitudes :
  parse_trade_data "w2r, L1.5, be, W0.3R, L-1"
  = Ok (Some [mk_trade W (of_Z 2); mk_trade L (of_ratio false 15 10); mk_trade BE zero;
              mk_trade W (of_ratio false 3 10); mk_trade L (neg one)])
  /\ trades_str [mk_trade W (of_Z 2); mk_trade L (of_ratio false 15 10); mk_trade BE zero;
                 mk_trade W (of_ratio false 3 10); mk_trade L (neg one)]
     = "W2.0R,L1.5R,BE,W0.3R,L-1.0R"
  /\ parse_trade_data "W2.0R,L1.5R,BE,W0.3R,L-1.0R"
     = parse_trade_data "w2r, L1.5, be, W0.3R, L-1".
Proof. repeat split; vm_compute; reflexivity. Qed.

(* ================================================================= *)
(** ** Week of the month *)

Lemma ceiling_sevenths (a : Z) :
  (a - 1) / 7 + 1 = Qceiling (inject_Z a / 7).
Proof.
  unfold Qceiling, Qfloor, Qdiv, Qmult, Qinv, Qopp, inject_Z. simpl.
  rewrite Z.mul_1_r.
  symmetry. apply Z.opp_inj. rewrite Z.opp_involutive.
  symmetry. apply (Z.div_unique (- a) 7 (- ((a - 1) / 7 + 1)) (6 - (a - 1) mod 7)).
  - left. pose proof (Z.mod_pos_bound (a - 1) 7 ltac:(lia)). lia.
  - pose proof (Z.div_mod (a - 1) 7 ltac:(lia)). lia.
Qed.

(** C8.  For a date that [strptime] reads, the week of the month computed
    by the loop, [(dom + first_weekday - 1) // 7 + 1], is the ceiling of
    [(dom + first_weekday) / 7], where [first_weekday] is the weekday (Monday
    is 0) of the first day of the month; it is the value recorded for the
    day. *)
Theorem week_of_month_is_ceiling (day_date : string) (date_obj : PyDate.datetime) :
  PyDate.strptime day_date = Some date_obj ->
  let first_weekday := PyDate.weekday (PyDate.replace_day_1 date_obj) in
  0 <= first_weekday <= 6
  /\ week_of_month_of date_obj
     = Qceiling (inject_Z (PyDate.day date_obj + first_weekday) / 7)
  /\ forall risk_amount st d,
       date d = day_date ->
       exists st' dr,
         process_day risk_amount st d = Ok st'
         /\ Loop.daily_results st' = (Loop.daily_results st ++ [dr])%list
         /\ Daily.week_of_month dr
            = Some (Qceiling (inject_Z (PyDate.day date_obj + first_weekday) / 7)).
Proof.
  intros Hd first_weekday.
  assert (Hw : week_of_month_of date_obj
               = Qceiling (inject_Z (PyDate.day date_obj + first_weekday) / 7)).
  { unfold week_of_month_of. apply ceiling_sevenths. }
  split; [|split; [exact Hw|]].
  - subst first_weekday. unfold PyDate.weekday.
    pose proof (Z.mod_pos_bound (PyDate.toordinal (PyDate.replace_day_1 date_obj) + 6) 7
                  ltac:(lia)).
    lia.
  - intros risk_amount st d Hdate.
    destruct (process_day_fields risk_amount st d)
      as (st' & Hst & _ & _ & _ & _ & _ & _ & _ & _ & _ & dr & Hdr & Hcal & _).
    exists st', dr. repeat split; auto.
    rewrite Hdate in Hcal. unfold calendar_fields in Hcal. rewrite Hd in Hcal.
    inversion Hcal as [[H0 H1 H2]]. rewrite H2, Hw. reflexivity.
Qed.

(** The value is 6 on the last days of a month that starts late in the
    week: March 2020 starts on a Sunday. *)
Example week_of_month_six :
  PyDate.strptime "2020-03-31" = Some (PyDate.mk_datetime 2020 3 31)
  /\ PyDate.weekday (PyDate.mk_datetime 2020 3 1) = 6
  /\ week_of_month_of (PyDate.mk_datetime 2020 3 31) = 6.
Proof. repeat split; vm_compute; reflexivity. Qed.

Lemma week_of_month_is_ceiling_witness :
  PyDate.strptime "2024-03-31" = Some (PyDate.mk_datetime 2024 3 31)
  /\ week_of_month_of (PyDate.mk_datetime 2024 3 31) = 5
  /\ week_of_month_of (PyDate.mk_datetime 2024 3 31)
     = Qceiling (inject_Z (31 + PyDate.weekday (PyDate.mk_datetime 2024 3 1)) / 7).
Proof.
  assert (H : PyDate.strptime "2024-03-31" = Some (PyDate.mk_datetime 2024 3 31))
    by (vm_compute; reflexivity).
  split; [exact H|]. split; [vm_compute; reflexivity|].
  exact (proj1 (proj2 (week_of_month_is_ceiling "2024-03-31" _ H))).
Defined.

(* ================================================================= *)
(** ** Streaks *)

Lemma ltb_max (a b : nat) : (if (a <? b)%nat then b else a) = Nat.max a b.
Proof. destruct (Nat.ltb_spec a b); lia. Qed.



(* ================================================================= *)
(** ** Divisions and exceptions of the analysis *)

(** C5, counterexample.  With an initial balance of [1], a risk amount of
    [1e200], a win of 1R on the first day and a loss of 1R on the second,
    the daily returns are [1e200] and [-1], their mean is [5e199], and the
    square of the first deviation is out of the float range:
    [analyze_trades] raises [OverflowError]. *)
Lemma analyze_trades_overflow :
  analyze_trades win_then_loss one huge = Raise OverflowError.
Proof. vm_compute. reflexivity. Qed.

(** C5, amended.  [analyze_trades] never divides by zero and takes no
    square root of a negative number.  The loop over the days always
    completes, and a day that starts with a balance that is not positive adds
    no daily return.  After the loop every ratio is guarded, and the report
    is returned unless a squared deviation of the Sharpe ratio or of the SQN
    is out of the float range, in which case [** 2] raises
    [OverflowError]. *)
Theorem analyze_trades_raises_only_overflow
  (trades_data : list day_data) (initial_balance risk_amount : float) :
  (forall st d, exists st',
      process_day risk_amount st d = Ok st'
      /\ (gtb (Loop.current_balance st) zero = false ->
          Loop.daily_returns st' = Loop.daily_returns st))
  /\ exists st,
      run_days risk_amount trades_data (initial_state initial_balance) = Ok st
      /\ ((exists r, analyze_trades trades_data initial_balance risk_amount = Ok r)
          \/ (analyze_trades trades_data initial_balance risk_amount = Raise OverflowError
              /\ (square_overflows (Loop.daily_returns st)
                  \/ square_overflows (Loop.all_trade_r st)))).
Proof.
  split.
  - intros st d.
    destruct (process_day_fields risk_amount st d)
      as (st' & Hst & _ & _ & _ & _ & _ & _ & _ & Hr & _).
    exists st'. split; [exact Hst|]. intros G. rewrite G in Hr. exact Hr.
  - destruct (run_days_total risk_amount trades_data (initial_state initial_balance))
      as [st Hst].
    exists st. split; [exact Hst|].
    unfold analyze_trades. rewrite Hst. cbn [bind].
    destruct (overall_metrics_cases risk_amount st)
      as [(o & s & q & Ho & _)|(Ho & [[_ Hs]|[_ Hq]])]; rewrite Ho; cbn [bind]; eauto.
Qed.

Lemma analyze_trades_raises_only_overflow_witness :
  exists r,
    analyze_trades (example_history 1 "2024-01-01" 2 "2024-01-02") (of_Z 25000) (of_Z 250)
    = Ok r.
Proof.
  destruct (analyze_trades_raises_only_overflow
              (example_history 1 "2024-01-01" 2 "2024-01-02") (of_Z 25000) (of_Z 250))
    as [_ [st [_ [H|[H _]]]]].
  - exact H.
  - vm_compute in H. discriminate H.
Defined.

(* ================================================================= *)
(** ** Sharpe ratio and SQN *)

Lemma std_dev_of_population xs avg : std_dev_of xs avg = population_std_dev xs avg.
Proof.
  unfold std_dev_of, population_std_dev, population_variance.
  destruct (mapM (fun x => pow2 (sub x avg)) xs); reflexivity.
Qed.

Lemma zero_not_gtb x : eqb x zero = true -> gtb x zero = false.
Proof. destruct x as [s|s| |s m e]; try destruct s; try reflexivity; discriminate. Qed.

Lemma sqrt_not_positive x :
  gtb (SFsqrt prec emax x) zero = false -> zero_or_nan (SFsqrt prec emax x).
Proof.
  destruct x as [s|s| |s m e]; try destruct s; simpl; intros H; try exact I;
    try discriminate H.
  revert H. destruct (SFsqrt_core_binary prec emax (Z.pos m) e) as [[mz ez] lz].
  pose proof (binary_round_aux_sign_false mz ez lz) as Hs.
  destruct (binary_round_aux prec emax false mz ez lz) as [s'|s'| |s' m' e'];
    simpl in Hs; try subst s'; intros H; try exact I; discriminate H.
Qed.

Lemma population_std_dev_is_sqrt xs avg std :
  population_std_dev xs avg = Ok std -> exists variance, std = SFsqrt prec emax variance.
Proof.
  unfold population_std_dev. destruct (population_variance xs avg) as [v|e]; [|discriminate].
  cbn [bind]. unfold sqrt. destruct (ltb v zero); [discriminate|].
  intros H. inversion H. eauto.
Qed.

(** C6, counterexample.  On the samples [inf] and [1] (the parser reads
    [inf] in a number of 310 digits) the mean is [inf] and the population
    standard deviation is not a number: it is not [0] and there are two
    samples, yet the Sharpe ratio and the SQN are [0], while the formulas
    give a value that is not a number; the report of such a history has an
    SQN of [0].  On the samples [1e200] and [-1] both computations raise
    [OverflowError]. *)
Lemma sharpe_and_sqn_without_positive_deviation :
  mean [inf; one] = Ok inf
  /\ population_std_dev [inf; one] inf = Ok S754_nan
  /\ eqb S754_nan zero = false
  /\ sharpe_ratio_of [inf; one] = Ok zero
  /\ sqn_of [inf; one] = Ok zero
  /\ eqb (mul (SFdiv prec emax inf S754_nan) (SFsqrt prec emax (of_Z 252))) zero = false
  /\ eqb (SFdiv prec emax (mul inf (SFsqrt prec emax (of_nat 2))) S754_nan) zero = false
  /\ parse_trade_data ("W1" ++ zeros 309 ++ ",W1") = Ok (Some [mk_trade W inf; mk_trade W one])
  /\ (exists r,
        analyze_trades [mk_day 1 "2024-01-01" [mk_trade W inf; mk_trade W one]]
          (of_Z 25000) (of_Z 250) = Ok r
        /\ Overall.sqn (overall r) = zero)
  /\ sharpe_ratio_of [huge; neg one] = Raise OverflowError
  /\ sqn_of [huge; neg one] = Raise OverflowError.
Proof.
  split; [vm_compute; reflexivity|].
  split; [vm_compute; reflexivity|].
  split; [vm_compute; reflexivity|].
  split; [vm_compute; reflexivity|].
  split; [vm_compute; reflexivity|].
  split; [vm_compute; reflexivity|].
  split; [vm_compute; reflexivity|].
  split; [vm_compute; reflexivity|].
  split; [eexists; split; vm_compute; reflexivity|].
  split; vm_compute; reflexivity.
Qed.

(** C6, amended.  The Sharpe ratio and the SQN are [0], without an
    exception, for fewer than two samples.  For two samples or more, with
    the population standard deviation (the sum of the squared deviations is
    divided by [N]): when it is above zero the Sharpe ratio is
    [mean / stddev * sqrt(252)] and the SQN is [mean * sqrt(N) / stddev];
    when it is not above zero, it is [0] or not a number, and both are [0];
    when a squared deviation is out of the float range, the Sharpe ratio and
    the SQN raise [OverflowError].  One of the three cases holds for every
    list of samples.  The report carries these two values, computed on the
    daily returns and on the signed R of all the trades. *)
Theorem sharpe_and_sqn_formulas :
  (forall xs, (List.length xs < 2)%nat ->
     sharpe_ratio_of xs = Ok zero /\ sqn_of xs = Ok zero)
  /\ (forall xs avg std,
        (2 <= List.length xs)%nat ->
        mean xs = Ok avg ->
        population_std_dev xs avg = Ok std ->
        (gtb std zero = false ->
           zero_or_nan std
           /\ sharpe_ratio_of xs = Ok zero /\ sqn_of xs = Ok zero)
        /\ (eqb std zero = true ->
           sharpe_ratio_of xs = Ok zero /\ sqn_of xs = Ok zero)
        /\ (gtb std zero = true ->
           sharpe_ratio_of xs
           = Ok (mul (SFdiv prec emax avg std) (SFsqrt prec emax (of_Z 252)))
           /\ sqn_of xs
              = Ok (SFdiv prec emax
                      (mul avg (SFsqrt prec emax (of_nat (List.length xs)))) std)))
  /\ (forall xs,
        (2 <= List.length xs)%nat ->
        exists avg,
          mean xs = Ok avg
          /\ ((exists std, population_std_dev xs avg = Ok std)
              \/ (population_std_dev xs avg = Raise OverflowError
                  /\ square_overflows xs
                  /\ sharpe_ratio_of xs = Raise OverflowError
                  /\ sqn_of xs = Raise OverflowError)))
  /\ (forall trades_data initial_balance risk_amount r,
        analyze_trades trades_data initial_balance risk_amount = Ok r ->
        exists st,
          run_days risk_amount trades_data (initial_state initial_balance) = Ok st
          /\ sharpe_ratio_of (Loop.daily_returns st) = Ok (Overall.sharpe_ratio (overall r))
          /\ sqn_of (Loop.all_trade_r st) = Ok (Overall.sqn (overall r))).
Proof.
  assert (Hzero : forall xs avg std,
            mean xs = Ok avg ->
            population_std_dev xs avg = Ok std ->
            gtb std zero = false ->
            sharpe_ratio_of xs = Ok zero /\ sqn_of xs = Ok zero).
  { intros xs avg std Hm Hs G. rewrite <- std_dev_of_population in Hs.
    unfold sharpe_ratio_of, sqn_of.
    destruct (1 <? List.length xs)%nat; [|auto].
    rewrite Hm. cbn [bind]. rewrite Hs. cbn [bind]. rewrite G. auto. }
  split; [|split; [|split]].
  - intros xs H. unfold sharpe_ratio_of, sqn_of.
    destruct (Nat.ltb_spec 1 (List.length xs)); [lia | auto].
  - intros xs avg std Hn Hm Hs. split; [|split].
    + intros G. split; [|exact (Hzero _ _ _ Hm Hs G)].
      destruct (population_std_dev_is_sqrt _ _ _ Hs) as [v ->].
      apply sqrt_not_positive. exact G.
    + intros G. exact (Hzero _ _ _ Hm Hs (zero_not_gtb _ G)).
    + intros G. rewrite <- std_dev_of_population in Hs.
      unfold sharpe_ratio_of, sqn_of.
      destruct (Nat.ltb_spec 1 (List.length xs)); [|lia].
      rewrite Hm. cbn [bind]. rewrite Hs. cbn [bind].
      rewrite G, (div_guarded _ _ G). cbn [bind].
      rewrite sqrt_252_ok. cbn [bind].
      rewrite sqrt_nonneg_ok by (apply sign_false_nonneg, of_nat_sign_false).
      cbn [bind]. rewrite (div_guarded _ _ G). auto.
  - intros xs Hn. destruct xs as [|x xs]; [simpl in Hn; lia|].
    eexists. split; [apply mean_cons|].
    set (avg := SFdiv prec emax (sum (x :: xs)) (of_nat (List.length (x :: xs)))).
    destruct (std_dev_of_cases x xs avg) as [[sq [_ H]]|[H [r [Hr Hp]]]].
    + left. rewrite <- std_dev_of_population. eauto.
    + right. rewrite <- std_dev_of_population. split; [exact H|].
      split; [exists avg, r; split; [apply mean_cons | split; assumption]|].
      unfold sharpe_ratio_of, sqn_of.
      destruct (Nat.ltb_spec 1 (List.length (x :: xs))); [|lia].
      rewrite mean_cons. cbn [bind]. fold avg. rewrite H. split; reflexivity.
  - intros trades_data initial_balance risk_amount r H.
    unfold analyze_trades in H.
    destruct (run_days risk_amount trades_data (initial_state initial_balance))
      as [st|e] eqn:Hst; [|discriminate].
    cbn [bind] in H. exists st. split; [reflexivity|].
    destruct (overall_metrics_cases risk_amount st)
      as [(o & s & q & Ho & Hs & Hq & Es & Eq & _)|(Ho & _)];
      rewrite Ho in H; cbn [bind] in H; [|discriminate].
    inversion H. simpl. rewrite Es, Eq. auto.
Qed.

Lemma sharpe_and_sqn_formulas_witness :
  mean [one; of_Z 3] = Ok (of_Z 2)
  /\ population_std_dev [one; of_Z 3] (of_Z 2) = Ok one
  /\ sharpe_ratio_of [one; of_Z 3]
     = Ok (mul (SFdiv prec emax (of_Z 2) one) (SFsqrt prec emax (of_Z 252)))
  /\ sqn_of [one; of_Z 3]
     = Ok (SFdiv prec emax (mul (of_Z 2) (SFsqrt prec emax (of_nat 2))) one).
Proof.
  assert (Hm : mean [one; of_Z 3] = Ok (of_Z 2)) by (vm_compute; reflexivity).
  assert (Hs : population_std_dev [one; of_Z 3] (of_Z 2) = Ok one)
    by (vm_compute; reflexivity).
  split; [exact Hm|]. split; [exact Hs|].
  apply (proj1 (proj2 sharpe_and_sqn_formulas) [one; of_Z 3] (of_Z 2) one).
  - simpl. lia.
  - exact Hm.
  - exact Hs.
  - reflexivity.
Defined.

(* ================================================================= *)
(** ** Profit factor *)

Lemma filter_breakeven ty (day_trades : list trade) :
  (forall t, In t day_trades -> type t = BE) ->
  ty <> BE ->
  filter (fun trade => trade_type_eqb (type trade) ty) day_trades = [].
Proof.
  intros H Hty. induction day_trades as [|t ts IH]; simpl; [reflexivity|].
  rewrite (H t (or_introl eq_refl)).
  destruct ty; try congruence; simpl; apply IH; intros t' Ht'; apply H; right; exact Ht'.
Qed.

Lemma signed_r_breakeven (day_trades : list trade) :
  (forall t, In t day_trades -> type t = BE) ->
  Forall zero_or_nan (map signed_r day_trades).
Proof.
  intros H. induction day_trades as [|t ts IH]; simpl; constructor.
  - unfold signed_r. rewrite (H t (or_introl eq_refl)). exact I.
  - apply IH. intros t' Ht'. apply H. right. exact Ht'.
Qed.

Lemma mul_zero_or_nan a b : zero_or_nan a -> zero_or_nan (mul a b).
Proof.
  destruct a as [s|s| |s m e]; simpl; intros H; try contradiction;
    destruct b as [s'|s'| |s' m' e']; simpl; auto.
Qed.

Lemma div_zero_or_nan a b : zero_or_nan a -> zero_or_nan (SFdiv prec emax a b).
Proof.
  destruct a as [s|s| |s m e]; simpl; intros H; try contradiction;
    destruct b as [s'|s'| |s' m' e']; simpl; auto.
Qed.

Lemma add_zero_or_nan a b : zero_or_nan a -> zero_or_nan b -> zero_or_nan (add a b).
Proof.
  destruct a as [s|s| |s m e]; simpl; intros Ha; try contradiction;
    destruct b as [s'|s'| |s' m' e']; simpl; intros Hb; try contradiction; auto;
    destruct s, s'; simpl; auto.
Qed.

Lemma sub_zero_or_nan a b : zero_or_nan a -> zero_or_nan b -> zero_or_nan (sub a b).
Proof.
  destruct a as [s|s| |s m e]; simpl; intros Ha; try contradiction;
    destruct b as [s'|s'| |s' m' e']; simpl; intros Hb; try contradiction; auto;
    destruct s, s'; simpl; auto.
Qed.

Lemma sum_from_zero_or_nan xs a :
  zero_or_nan a -> Forall zero_or_nan xs -> zero_or_nan (fold_left add xs a).
Proof.
  intros Ha H. revert a Ha. induction H as [|x xs Hx _ IH]; intros a Ha; simpl; auto.
  apply IH, add_zero_or_nan; assumption.
Qed.

Lemma pow2_zero_or_nan x : zero_or_nan x -> exists y, pow2 x = Ok y.
Proof.
  destruct x as [s|s| |s m e]; simpl; intros H; try contradiction;
    unfold pow2; simpl; eauto.
Qed.

Lemma zero_or_nan_no_overflow xs : Forall zero_or_nan xs -> ~ square_overflows xs.
Proof.
  intros H (avg & r & Hm & Hr & Hp).
  assert (Ha : zero_or_nan avg).
  { unfold mean, div_int in Hm. destruct (List.length xs); [discriminate|].
    inversion Hm. apply div_zero_or_nan, sum_from_zero_or_nan; [exact I | exact H]. }
  assert (Hx : zero_or_nan r) by (apply (proj1 (Forall_forall _ _) H r Hr)).
  destruct (pow2_zero_or_nan (sub r avg) (sub_zero_or_nan _ _ Hx Ha)) as [y Hy].
  congruence.
Qed.

(** On a history of break-even trades the loop keeps the R won and lost at
    [0], and the daily returns and the signed R at zero (or not a number,
    for a risk amount that is not finite). *)
Lemma run_days_breakeven ra days :
  all_breakeven days ->
  forall st st',
    run_days ra days st = Ok st' ->
    Loop.total_r_lost st = zero ->
    Forall zero_or_nan (Loop.daily_returns st) ->
    Forall zero_or_nan (Loop.all_trade_r st) ->
    Loop.total_r_lost st' = zero
    /\ Forall zero_or_nan (Loop.daily_returns st')
    /\ Forall zero_or_nan (Loop.all_trade_r st').
Proof.
  induction days as [|d days IH]; intros Hbe st st' Hrun Hl Hdr Hat; simpl in Hrun.
  - inversion Hrun. subst. auto.
  - destruct (process_day_fields ra st d)
      as (st1 & Hst & _ & _ & _ & Hl1 & Hat1 & _ & _ & Hdr1 & _).
    rewrite Hst in Hrun. cbn [bind] in Hrun.
    assert (Hd : forall t, In t (trades d) -> type t = BE).
    { intros t Ht. apply (Hbe d t); [left; reflexivity | exact Ht]. }
    apply (IH (fun d' t Hd' => Hbe d' t (or_intror Hd')) st1 st' Hrun).
    + rewrite Hl1, Hl. unfold sum_r. rewrite (filter_breakeven L _ Hd); [reflexivity|discriminate].
    + rewrite Hdr1. destruct (gtb (Loop.current_balance st) zero); [|exact Hdr].
      apply Forall_app. split; [exact Hdr|]. constructor; [|constructor].
      apply div_zero_or_nan, mul_zero_or_nan.
      unfold day_net_r_of, sum_r.
      rewrite (filter_breakeven W _ Hd), (filter_breakeven L _ Hd) by discriminate.
      exact I.
    + rewrite Hat1. apply Forall_app. split; [exact Hat|]. apply signed_r_breakeven, Hd.
Qed.

(** C10, counterexample.  On one day with a win of [1e200] R and a win
    of 1R, with a balance of 25000 and a risk amount of 250, the loop ends
    with a total R lost of [0], which is not above zero, and
    [analyze_trades] raises [OverflowError] in the SQN: there is no report,
    and no profit factor. *)
Lemma profit_factor_without_report :
  exists st,
    run_days (of_Z 250) [mk_day 1 "2024-01-01" [mk_trade W huge; mk_trade W one]]
      (initial_state (of_Z 25000)) = Ok st
    /\ Loop.total_r_lost st = zero
    /\ gtb (Loop.total_r_lost st) zero = false
    /\ sqn_of (Loop.all_trade_r st) = Raise OverflowError
    /\ analyze_trades [mk_day 1 "2024-01-01" [mk_trade W huge; mk_trade W one]]
         (of_Z 25000) (of_Z 250) = Raise OverflowError.
Proof.
  eexists. split; [vm_compute; reflexivity|].
  split; [vm_compute; reflexivity|].
  split; [vm_compute; reflexivity|].
  split; vm_compute; reflexivity.
Qed.

(** C10, amended.  When the total R lost is not strictly positive,
    [analyze_trades] either returns a report, whose profit factor is
    [+infinity] and not [0], or raises [OverflowError] because a squared
    deviation of the daily returns or of the signed R is out of the float
    range; whenever it returns a report for such a history, the profit
    factor is [+infinity].  The empty history and every history of
    break-even trades always have a report, with [+infinity]. *)
Theorem profit_factor_infinite_without_loss :
  (forall trades_data initial_balance risk_amount st,
     run_days risk_amount trades_data (initial_state initial_balance) = Ok st ->
     gtb (Loop.total_r_lost st) zero = false ->
     (analyze_trades trades_data initial_balance risk_amount = Raise OverflowError
      /\ (square_overflows (Loop.daily_returns st)
          \/ square_overflows (Loop.all_trade_r st)))
     \/ exists r,
          analyze_trades trades_data initial_balance risk_amount = Ok r
          /\ Overall.profit_factor (overall r) = inf
          /\ eqb (Overall.profit_factor (overall r)) zero = false)
  /\ (forall trades_data initial_balance risk_amount st r,
        run_days risk_amount trades_data (initial_state initial_balance) = Ok st ->
        gtb (Loop.total_r_lost st) zero = false ->
        analyze_trades trades_data initial_balance risk_amount = Ok r ->
        Overall.profit_factor (overall r) = inf)
  /\ (forall initial_balance risk_amount,
        exists r, analyze_trades [] initial_balance risk_amount = Ok r
                  /\ Overall.profit_factor (overall r) = inf)
  /\ (forall trades_data initial_balance risk_amount,
        all_breakeven trades_data ->
        exists r, analyze_trades trades_data initial_balance risk_amount = Ok r
                  /\ Overall.profit_factor (overall r) = inf).
Proof.
  assert (Hgen : forall trades_data initial_balance risk_amount st,
     run_days risk_amount trades_data (initial_state initial_balance) = Ok st ->
     gtb (Loop.total_r_lost st) zero = false ->
     (analyze_trades trades_data initial_balance risk_amount = Raise OverflowError
      /\ (square_overflows (Loop.daily_returns st) \/ square_overflows (Loop.all_trade_r st)))
     \/ exists r,
          analyze_trades trades_data initial_balance risk_amount = Ok r
          /\ Overall.profit_factor (overall r) = inf).
  { intros trades_data initial_balance risk_amount st Hst Hl.
    unfold analyze_trades. rewrite Hst. cbn [bind].
    destruct (overall_metrics_cases risk_amount st)
      as [(o & s & q & Ho & _ & _ & _ & _ & _ & Hpf & _)|(Ho & [[_ Hs]|[_ Hq]])];
      rewrite Ho; cbn [bind]; auto.
    right. eexists. split; [reflexivity|]. simpl. rewrite Hpf, Hl. reflexivity. }
  split; [|split; [|split]].
  - intros trades_data initial_balance risk_amount st Hst Hl.
    destruct (Hgen _ _ _ _ Hst Hl) as [H|(r & H & Hpf)]; [left; exact H|].
    right. exists r. split; [exact H|]. split; [exact Hpf|]. rewrite Hpf. reflexivity.
  - intros trades_data initial_balance risk_amount st r Hst Hl Hr.
    destruct (Hgen _ _ _ _ Hst Hl) as [[H _]|(r' & H & Hpf)]; [congruence|].
    rewrite Hr in H. inversion H. subst. exact Hpf.
  - intros initial_balance risk_amount.
    destruct (Hgen [] initial_balance risk_amount _ eq_refl eq_refl)
      as [[H _]|H]; [|exact H].
    vm_compute in H. discriminate H.
  - intros trades_data initial_balance risk_amount Hbe.
    destruct (run_days_total risk_amount trades_data (initial_state initial_balance))
      as [st Hst].
    destruct (run_days_breakeven risk_amount trades_data Hbe _ _ Hst eq_refl
                (Forall_nil _) (Forall_nil _)) as (Hl & Hdr & Hat).
    destruct (Hgen _ _ _ _ Hst ltac:(rewrite Hl; reflexivity)) as [[_ [H|H]]|H];
      [| |exact H]; exfalso; revert H; apply zero_or_nan_no_overflow; assumption.
Qed.

Lemma profit_factor_infinite_without_loss_witness :
  exists r,
    analyze_trades [mk_day 1 "2024-01-01" [mk_trade W (of_Z 2); mk_trade BE zero]]
      (of_Z 25000) (of_Z 250) = Ok r
    /\ Overall.profit_factor (overall r) = inf.
Proof.
  destruct (proj1 profit_factor_infinite_without_loss
              [mk_day 1 "2024-01-01" [mk_trade W (of_Z 2); mk_trade BE zero]]
              (of_Z 25000) (of_Z 250) _ ltac:(vm_compute; reflexivity))
    as [[H _]|(r & H & Hpf & _)].
  - vm_compute. reflexivity.
  - vm_compute in H. discriminate H.
  - exists r. split; assumption.
Defined.

(* ================================================================= *)
(** ** The example of the specification *)

(** C4, counterexample.  On the two days [W2R,L1R] and [W1R] the overall
    win rate is not [100]: there are two wins and one loss. *)
Lemma example_win_rate_is_not_100 :
  exists r,
    analyze_trades (example_history 1 "2024-01-01" 2 "2024-01-02") (of_Z 25000) (of_Z 250)
    = Ok r
    /\ eqb (Overall.win_rate (overall r)) hundred = false
    /\ Overall.win_rate (overall r) = mul (SFdiv prec emax (of_Z 2) (of_Z 3)) hundred.
Proof.
  eexists. split; [vm_compute; reflexivity|]. split; vm_compute; reflexivity.
Qed.

(** C4, amended.  With an initial balance of 25000, a risk amount of 250
    and the days [W2R,L1R] and then [W1R]: the first day has a net R of 1, a
    P&L of 250 and an end balance of 25250; the second day has a net R of 1,
    a P&L of 250 and an end balance of 25500; overall the total R is 2, the
    maximum drawdown is 0 in dollars and in percent, and the win rate is
    [2 / 3 * 100] (two wins among three decided trades). *)
Theorem example_two_days (n1 : Z) (d1 : string) (n2 : Z) (d2 : string) :
  parse_trade_data "W2R,L1R" = Ok (Some [mk_trade W (of_Z 2); mk_trade L one])
  /\ parse_trade_data "W1R" = Ok (Some [mk_trade W one])
  /\ exists r day1 day2,
      analyze_trades (example_history n1 d1 n2 d2) (of_Z 25000) (of_Z 250) = Ok r
      /\ daily r = [day1; day2]
      /\ Daily.net_r day1 = one
      /\ Daily.daily_pnl day1 = of_Z 250
      /\ Daily.end_balance day1 = of_Z 25250
      /\ Daily.net_r day2 = one
      /\ Daily.daily_pnl day2 = of_Z 250
      /\ Daily.end_balance day2 = of_Z 25500
      /\ Overall.total_r (overall r) = of_Z 2
      /\ Overall.win_rate (overall r) = mul (SFdiv prec emax (of_Z 2) (of_Z 3)) hundred
      /\ Overall.max_drawdown_amount (overall r) = zero
      /\ Overall.max_drawdown_pct (overall r) = zero.
Proof.
  split; [vm_compute; reflexivity|]. split; [vm_compute; reflexivity|].
  unfold analyze_trades, example_history. cbn [run_days].
  set (st0 := initial_state (of_Z 25000)).
  destruct (process_day_fields (of_Z 250) st0
              (mk_day n1 d1 [mk_trade W (of_Z 2); mk_trade L one]))
    as (st1 & Hst1 & Hw1 & Hl1 & Hrw1 & Hrl1 & Hat1 & Hb1 & He1 & Hdr1 & _
        & day1 & Hd1 & _ & Hn1 & Hp1 & Hb1').
  rewrite Hst1. cbn [bind].
  destruct (process_day_fields (of_Z 250) st1
              (mk_day n2 d2 [mk_trade W one]))
    as (st2 & Hst2 & Hw2 & Hl2 & Hrw2 & Hrl2 & Hat2 & Hb2 & He2 & Hdr2 & _
        & day2 & Hd2 & _ & Hn2 & Hp2 & Hb2').
  rewrite Hst2. cbn [bind].
  cbn [trades] in *.
  assert (B1 : Loop.current_balance st1 = of_Z 25250)
    by (rewrite Hb1; vm_compute; reflexivity).
  assert (B2 : Loop.current_balance st2 = of_Z 25500)
    by (rewrite Hb2, B1; vm_compute; reflexivity).
  assert (W2 : Loop.total_wins st2 = 2%nat) by (rewrite Hw2, Hw1; reflexivity).
  assert (L2 : Loop.total_losses st2 = 1%nat) by (rewrite Hl2, Hl1; reflexivity).
  assert (RW2 : Loop.total_r_won st2 = of_Z 3)
    by (rewrite Hrw2, Hrw1; vm_compute; reflexivity).
  assert (RL2 : Loop.total_r_lost st2 = one)
    by (rewrite Hrl2, Hrl1; vm_compute; reflexivity).
  assert (AT2 : Loop.all_trade_r st2 = [of_Z 2; neg one; one])
    by (rewrite Hat2, Hat1; reflexivity).
  assert (E2 : Loop.equity_curve st2 = [of_Z 25000; of_Z 25250; of_Z 25500])
    by (rewrite He2, He1, B1, B2; reflexivity).
  assert (DR2 : Loop.daily_returns st2
                = [SFdiv prec emax (of_Z 250) (of_Z 25000);
                   SFdiv prec emax (of_Z 250) (of_Z 25250)])
    by (rewrite Hdr2, Hdr1, B1; vm_compute; reflexivity).
  assert (D2 : Loop.daily_results st2 = [day1; day2])
    by (rewrite Hd2, Hd1; reflexivity).
  destruct (overall_metrics_cases (of_Z 250) st2)
    as [(o & s & q & Ho & _ & _ & _ & _ & Ht & _ & _ & _ & Hwr & Hdd)
       |(Ho & [[Hs _]|[Hq _]])].
  - rewrite Ho. cbn [bind].
    exists (mk_report o (Loop.daily_results st2)), day1, day2.
    split; [reflexivity|]. cbn [daily overall].
    rewrite W2, L2 in Hwr. rewrite E2 in Hdd. rewrite RW2, RL2 in Ht.
    assert (Ewr : Overall.win_rate o = mul (SFdiv prec emax (of_Z 2) (of_Z 3)) hundred)
      by (vm_compute in Hwr; inversion Hwr as [E]; symmetry; exact E).
    assert (Edd : (Overall.max_drawdown_pct o, Overall.max_drawdown_amount o) = (zero, zero))
      by (vm_compute in Hdd; inversion Hdd as [[E1 E2']];
          f_equal; symmetry; [exact E1 | exact E2']).
    inversion Edd as [[Epct Eamt]].
    rewrite Hn1, Hp1, Hb1', Hn2, Hp2, Hb2', B1, B2, Ht, Ewr.
    repeat split; try (vm_compute; reflexivity). exact D2.
  - rewrite DR2 in Hs. vm_compute in Hs. discriminate Hs.
  - rewrite AT2 in Hq. vm_compute in Hq. discriminate Hq.
Qed.

(* ================================================================= *)
(** ** The parser: letter case and commas *)

Lemma upper_char_idempotent a : upper_char (upper_char a) = upper_char a.
Proof. destruct a as [[] [] [] [] [] [] [] []]; reflexivity. Qed.

Lemma upper_char_space a : is_space (upper_char a) = is_space a.
Proof. destruct a as [[] [] [] [] [] [] [] []]; reflexivity. Qed.

Lemma upper_char_eqb_space a : Ascii.eqb (upper_char a) " " = Ascii.eqb a " ".
Proof. destruct a as [[] [] [] [] [] [] [] []]; reflexivity. Qed.

Lemma upper_char_eqb_comma a : Ascii.eqb (upper_char a) "," = Ascii.eqb a ",".
Proof. destruct a as [[] [] [] [] [] [] [] []]; reflexivity. Qed.

Lemma upper_idempotent s : upper (upper s) = upper s.
Proof. induction s as [|a s IH]; simpl; [reflexivity|]. rewrite upper_char_idempotent, IH. reflexivity. Qed.

Lemma upper_remove_space s : remove_char " " (upper s) = upper (remove_char " " s).
Proof.
  induction s as [|a s IH]; simpl; [reflexivity|].
  rewrite upper_char_eqb_space. destruct (Ascii.eqb a " "); simpl; rewrite IH; reflexivity.
Qed.

Lemma split_not_nil sep s : split sep s <> [].
Proof.
  destruct s as [|a s]; simpl; [discriminate|].
  destruct (Ascii.eqb a sep); [discriminate|]. destruct (split sep s); discriminate.
Qed.

Lemma upper_split s : split "," (upper s) = map upper (split "," s).
Proof.
  induction s as [|a s IH]; simpl; [reflexivity|].
  rewrite upper_char_eqb_comma. destruct (Ascii.eqb a ","); simpl; rewrite IH; [reflexivity|].
  destruct (split "," s); reflexivity.
Qed.

Lemma upper_lstrip s : lstrip (upper s) = upper (lstrip s).
Proof.
  induction s as [|a s IH]; simpl; [reflexivity|].
  rewrite upper_char_space. destruct (is_space a); [exact IH | reflexivity].
Qed.

Lemma upper_rstrip s : rstrip (upper s) = upper (rstrip s).
Proof.
  induction s as [|a s IH]; simpl; [reflexivity|].
  rewrite IH, upper_char_space. destruct (rstrip s); simpl; [|reflexivity].
  destruct (is_space a); reflexivity.
Qed.

Lemma upper_strip s : strip (upper s) = upper (strip s).
Proof. unfold strip. rewrite upper_lstrip, upper_rstrip. reflexivity. Qed.

Lemma parse_entries_upper entries :
  forall acc, parse_entries (map upper entries) acc = parse_entries entries acc.
Proof.
  induction entries as [|e rest IH]; intros acc; simpl; [reflexivity|].
  rewrite upper_strip, upper_idempotent.
  destruct (upper (strip e) =? EmptyString); [apply IH|].
  destruct (upper (strip e) =? "BE"); [apply IH|].
  destruct (re_match_trade (upper (strip e))) as [[ty r_str]|]; [|reflexivity].
  destruct (if r_str =? EmptyString then Ok one else py_float r_str); cbn [bind];
    [apply IH | reflexivity].
Qed.

(** X1.  The parser does not distinguish small and capital letters: a text and
    its capital form give the same result, be it a list of trades, [None]
    or an exception. *)
Theorem parse_ignores_letter_case (trade_input : string) :
  parse_trade_data (upper trade_input) = parse_trade_data trade_input.
Proof.
  unfold parse_trade_data.
  rewrite upper_remove_space, upper_split. apply parse_entries_upper.
Qed.

Lemma remove_char_append c a b :
  remove_char c (a ++ b) = remove_char c a ++ remove_char c b.
Proof.
  induction a as [|x a IH]; simpl; [reflexivity|].
  destruct (Ascii.eqb x c); simpl; rewrite IH; reflexivity.
Qed.

Lemma split_append_sep sep a b :
  split sep (a ++ String sep b) = (split sep a ++ split sep b)%list.
Proof.
  induction a as [|x a IH]; simpl.
  - rewrite Ascii.eqb_refl. reflexivity.
  - destruct (Ascii.eqb x sep); rewrite IH; [reflexivity|].
    pose proof (split_not_nil sep a) as Hn.
    destruct (split sep a); [contradiction | reflexivity].
Qed.

(** The result of the entries after [acc] is the result from the empty
    list, after [acc]. *)
Lemma parse_entries_from entries :
  forall acc,
    parse_entries entries acc
    = match parse_entries entries [] with
      | Ok (Some ts) => Ok (Some (acc ++ ts)%list)
      | other => other
      end.
Proof.
  induction entries as [|e rest IH]; intros acc; simpl.
  - rewrite app_nil_r. reflexivity.
  - destruct (upper (strip e) =? EmptyString); [apply IH|].
    destruct (upper (strip e) =? "BE").
    { rewrite (IH (acc ++ _)%list), (IH [_]).
      destruct (parse_entries rest []) as [[ts|]|]; try reflexivity.
      rewrite <- app_assoc. reflexivity. }
    destruct (re_match_trade (upper (strip e))) as [[ty r_str]|]; [|reflexivity].
    destruct (if r_str =? EmptyString then Ok one else py_float r_str); cbn [bind];
      [|reflexivity].
    rewrite (IH (acc ++ _)%list), (IH [_]).
    destruct (parse_entries rest []) as [[ts|]|]; try reflexivity.
    rewrite <- app_assoc. reflexivity.
Qed.

Lemma parse_entries_app e1 :
  forall e2 acc,
    parse_entries (e1 ++ e2) acc
    = match parse_entries e1 acc with
      | Ok (Some ts) => parse_entries e2 ts
      | other => other
      end.
Proof.
  induction e1 as [|e rest IH]; intros e2 acc; simpl; [reflexivity|].
  destruct (upper (strip e) =? EmptyString); [apply IH|].
  destruct (upper (strip e) =? "BE"); [apply IH|].
  destruct (re_match_trade (upper (strip e))) as [[ty r_str]|]; [|reflexivity].
  destruct (if r_str =? EmptyString then Ok one else py_float r_str); cbn [bind];
    [apply IH | reflexivity].
Qed.

(** X2.  Two texts joined by a comma are parsed one after the other: the
    trades of the first are followed by the trades of the second, and the
    first text that fails decides the failure of the whole, the trades
    parsed before it being dropped. *)
Theorem parse_comma_joined (a b : string) :
  parse_trade_data (a ++ "," ++ b)
  = match parse_trade_data a with
    | Ok (Some ta) =>
        match parse_trade_data b with
        | Ok (Some tb) => Ok (Some (ta ++ tb)%list)
        | other => other
        end
    | other => other
    end.
Proof.
  unfold parse_trade_data.
  rewrite remove_char_append. simpl. rewrite split_append_sep, parse_entries_app.
  destruct (parse_entries (split "," (remove_char " " a)) []) as [[ta|]|]; try reflexivity.
  apply parse_entries_from.
Qed.

(* ================================================================= *)
(** ** Reading back what [save_data] writes *)

Lemma append_empty_r (s : string) : s ++ EmptyString = s.
Proof. induction s as [|a s IH]; simpl; [reflexivity|]. rewrite IH. reflexivity. Qed.

Lemma string_forall_append p a b :
  string_forall p (a ++ b) = string_forall p a && string_forall p b.
Proof. induction a as [|x a IH]; simpl; [reflexivity|]. rewrite IH, andb_assoc. reflexivity. Qed.

Lemma take_digits_forall s : string_forall token_char (fst (take_digits s)) = true.
Proof.
  induction s as [|a s IH]; simpl; [reflexivity|].
  destruct (is_digit a) eqn:E; [|reflexivity].
  destruct (take_digits s) as [ds rest]. simpl in *. rewrite IH, andb_true_r.
  unfold token_char. rewrite E. reflexivity.
Qed.

Lemma take_digits_more s t :
  (snd (take_digits s) <> EmptyString
   \/ match t with String c _ => is_digit c = false | EmptyString => True end) ->
  take_digits (s ++ t) = (fst (take_digits s), snd (take_digits s) ++ t).
Proof.
  induction s as [|a s IH]; simpl; intros H.
  - destruct H as [H|H]; [contradiction|].
    destruct t as [|c t]; simpl; [reflexivity|]. rewrite H. reflexivity.
  - destruct (is_digit a); [|reflexivity].
    destruct (take_digits s) as [ds rest]. simpl in *. rewrite (IH H). reflexivity.
Qed.

Lemma take_opt_more p s t :
  s <> EmptyString ->
  take_opt p (s ++ t) = (fst (take_opt p s), snd (take_opt p s) ++ t).
Proof. destruct s as [|a s]; simpl; [contradiction|]. destruct (p a); reflexivity. Qed.

(** A number in positional notation, followed by [R], after the letter: the
    second group of the pattern is the number. *)
Lemma re_match_plain c num :
  plain_number num = true ->
  string_forall token_char num = true
  /\ num <> EmptyString
  /\ re_match_trade (String c (num ++ "R"))
     = if Ascii.eqb c "W" then Some (W, num)
       else if Ascii.eqb c "L" then Some (L, num) else None.
Proof.
  unfold plain_number, re_match_trade. intros H.
  pose proof (take_opt_append (Ascii.eqb "-") num) as A1.
  assert (S1 : take_opt is_sign (num ++ "R")
               = (fst (take_opt (Ascii.eqb "-") num),
                  snd (take_opt (Ascii.eqb "-") num) ++ "R")
               /\ string_forall token_char (fst (take_opt (Ascii.eqb "-") num)) = true
               /\ num <> EmptyString).
  { destruct num as [|a n]; [vm_compute in H; discriminate H|].
    change (String a n ++ "R") with (String a (n ++ "R")).
    cbn [take_opt] in *.
    destruct (Ascii.eqb "-" a) eqn:E.
    - apply Ascii.eqb_eq in E. subst a. repeat split; discriminate.
    - cbn [fst snd]. unfold is_sign. rewrite (Ascii.eqb_sym a "-"), E. cbn [orb].
      destruct (Ascii.eqb a "+") eqn:E'; [|repeat split; discriminate].
      apply Ascii.eqb_eq in E'. subst a. vm_compute in H. discriminate H. }
  destruct S1 as (S1 & F1 & Hne).
  destruct (take_opt (Ascii.eqb "-") num) as [sgn r1]. simpl in A1, S1, F1.
  pose proof (take_digits_append r1) as A2.
  pose proof (take_digits_forall r1) as F2.
  pose proof (take_digits_more r1 "R") as S2.
  destruct (take_digits r1) as [ip r2]. simpl in A2, F2, S2.
  pose proof (take_opt_append is_dot r2) as A3.
  pose proof (take_opt_more is_dot r2 "R") as S3.
  assert (F3 : string_forall token_char (fst (take_opt is_dot r2)) = true).
  { destruct r2 as [|a r]; simpl; [reflexivity|]. destruct (is_dot a) eqn:E; [|reflexivity].
    unfold is_dot in E. apply Ascii.eqb_eq in E. subst a. reflexivity. }
  assert (N2 : r2 <> EmptyString).
  { intros ->. simpl in H. rewrite !andb_false_r in H. discriminate H. }
  destruct (take_opt is_dot r2) as [dot r3]. simpl in A3, S3, F3.
  pose proof (take_digits_append r3) as A4.
  pose proof (take_digits_forall r3) as F4.
  pose proof (take_digits_more r3 "R") as S4.
  destruct (take_digits r3) as [fp r4]. simpl in A4, F4, S4.
  apply andb_prop in H. destruct H as [H H4].
  apply String.eqb_eq in H4. subst r4.
  assert (Enum : num = sgn ++ ip ++ dot ++ fp).
  { rewrite A1, A2, A3, A4, append_empty_r. reflexivity. }
  split; [|split; [exact Hne|]].
  - rewrite Enum, !string_forall_append, F1, F2, F3, F4. reflexivity.
  - rewrite S1, (S2 (or_introl N2)), (S3 N2), (S4 (or_intror eq_refl)). simpl.
    rewrite <- Enum. reflexivity.
Qed.

Lemma token_char_facts c :
  token_char c = true ->
  is_space c = false /\ upper_char c = c
  /\ Ascii.eqb c "," = false /\ Ascii.eqb c " " = false.
Proof. destruct c as [[] [] [] [] [] [] [] []]; intros H; try discriminate H; repeat split. Qed.

Lemma token_strip s : string_forall token_char s = true -> strip s = s.
Proof.
  intros H. unfold strip.
  assert (L : lstrip s = s).
  { destruct s as [|a s]; simpl in *; [reflexivity|].
    apply andb_prop in H. destruct H as [Ha _].
    destruct (token_char_facts a Ha) as (-> & _). reflexivity. }
  rewrite L. clear L.
  induction s as [|a s IH]; simpl in *; [reflexivity|].
  apply andb_prop in H. destruct H as [Ha Hs]. rewrite (IH Hs).
  destruct s; [|reflexivity].
  destruct (token_char_facts a Ha) as (-> & _). reflexivity.
Qed.

Lemma token_upper s : string_forall token_char s = true -> upper s = s.
Proof.
  induction s as [|a s IH]; simpl; [reflexivity|]. intros H.
  apply andb_prop in H. destruct H as [Ha Hs].
  destruct (token_char_facts a Ha) as (_ & -> & _). rewrite (IH Hs). reflexivity.
Qed.

Lemma token_remove_space s : string_forall token_char s = true -> remove_char " " s = s.
Proof.
  induction s as [|a s IH]; simpl; [reflexivity|]. intros H.
  apply andb_prop in H. destruct H as [Ha Hs].
  destruct (token_char_facts a Ha) as (_ & _ & _ & ->). rewrite (IH Hs). reflexivity.
Qed.

Lemma token_split s : string_forall token_char s = true -> split "," s = [s].
Proof.
  induction s as [|a s IH]; simpl; [reflexivity|]. intros H.
  apply andb_prop in H. destruct H as [Ha Hs].
  destruct (token_char_facts a Ha) as (_ & _ & -> & _). rewrite (IH Hs). reflexivity.
Qed.

(** The text written for one trade is made of token characters, and the
    parser reads it as that trade. *)
Lemma trade_string_entry t :
  written_plainly t ->
  string_forall token_char (trade_string t) = true
  /\ forall rest acc,
       parse_entries (trade_string t :: rest) acc = parse_entries rest (acc ++ [t])%list.
Proof.
  assert (Hwl : forall c ty x,
            (if Ascii.eqb c "W" then Some (W, float_repr x)
             else if Ascii.eqb c "L" then Some (L, float_repr x) else None)
            = Some (ty, float_repr x) ->
            token_char c = true ->
            plain_number (float_repr x) = true ->
            py_float (float_repr x) = Ok x ->
            string_forall token_char (String c (float_repr x ++ "R")) = true
            /\ forall rest acc,
                 parse_entries (String c (float_repr x ++ "R") :: rest) acc
                 = parse_entries rest (acc ++ [mk_trade ty x])%list).
  { intros c ty x Hc Htc Hp Hf.
    destruct (re_match_plain c _ Hp) as (Hn & Hne & Hm).
    assert (Ht : string_forall token_char (String c (float_repr x ++ "R")) = true).
    { simpl. rewrite Htc, string_forall_append, Hn. reflexivity. }
    split; [exact Ht|]. intros rest acc.
    cbn [parse_entries]. rewrite (token_strip _ Ht), (token_upper _ Ht), Hm, Hc.
    destruct (String.eqb_spec (String c (float_repr x ++ "R")) EmptyString) as [E|_];
      [discriminate E|].
    destruct (String.eqb_spec (String c (float_repr x ++ "R")) "BE") as [E|_].
    { exfalso. inversion E as [[Ec Er]]. subst c. discriminate Hc. }
    destruct (String.eqb_spec (float_repr x) EmptyString) as [E|_]; [contradiction|].
    rewrite Hf. reflexivity. }
  destruct t as [ty x]. unfold written_plainly, trade_string. simpl type. simpl r_multiple.
  destruct ty.
  - intros [Hp Hf]. apply (Hwl "W"%char W x); auto.
  - intros [Hp Hf]. apply (Hwl "L"%char L x); auto.
  - intros ->. split; reflexivity.
Qed.

Lemma join_tokens (tokens : list string) :
  Forall (fun s => string_forall token_char s = true) tokens ->
  remove_char " " (join "," tokens) = join "," tokens
  /\ (tokens <> [] -> split "," (join "," tokens) = tokens).
Proof.
  induction 1 as [|t ts Ht Hts IH]; [split; [reflexivity | intros E; contradiction]|].
  destruct IH as (I2 & I3).
  destruct ts as [|t' ts].
  - simpl. split.
    + apply token_remove_space, Ht.
    + intros _. apply token_split, Ht.
  - change (join "," (t :: t' :: ts)) with (t ++ String "," (join "," (t' :: ts))).
    split.
    + rewrite remove_char_append.
      change (remove_char " " (String "," (join "," (t' :: ts))))
        with (String "," (remove_char " " (join "," (t' :: ts)))).
      rewrite I2, (token_remove_space _ Ht). reflexivity.
    + intros _. rewrite split_append_sep, (token_split _ Ht), I3 by discriminate. reflexivity.
Qed.

Lemma parse_entries_trade_strings ts :
  Forall written_plainly ts ->
  forall acc, parse_entries (map trade_string ts) acc = Ok (Some (acc ++ ts)%list).
Proof.
  induction 1 as [|t ts Ht _ IH]; intros acc; simpl map.
  - simpl. rewrite app_nil_r. reflexivity.
  - destruct (trade_string_entry t Ht) as [_ Hstep].
    rewrite Hstep, IH, <- app_assoc. reflexivity.
Qed.

Lemma parse_trades_str (day_trades : list trade) :
  Forall written_plainly day_trades ->
  parse_trade_data (trades_str day_trades) = Ok (Some day_trades).
Proof.
  intros H. unfold parse_trade_data, trades_str.
  assert (Ht : Forall (fun s => string_forall token_char s = true)
                 (map trade_string day_trades)).
  { apply Forall_forall. intros s Hs. apply in_map_iff in Hs. destruct Hs as (t & <- & Hin).
    apply trade_string_entry. revert t Hin. apply Forall_forall. exact H. }
  destruct (join_tokens _ Ht) as (Hr & Hs).
  rewrite Hr.
  destruct day_trades as [|t ts]; [reflexivity|].
  rewrite Hs by discriminate.
  apply (parse_entries_trade_strings _ H []).
Qed.

(** X3.  The trades that [save_data] writes in positional notation are read
    back by the parser as they were: joining with commas, removing spaces,
    splitting, stripping, capitalising and matching lose nothing. *)
Theorem parse_reads_saved_trades (day_trades : list trade) :
  Forall written_plainly day_trades ->
  parse_trade_data (trades_str day_trades) = Ok (Some day_trades).
Proof. exact (parse_trades_str day_trades). Qed.

Lemma parse_reads_saved_trades_witness :
  Forall written_plainly
    [mk_trade W (of_Z 2); mk_trade L (of_ratio false 15 10); mk_trade BE zero;
     mk_trade L (neg one)]
  /\ parse_trade_data
       (trades_str [mk_trade W (of_Z 2); mk_trade L (of_ratio false 15 10);
                    mk_trade BE zero; mk_trade L (neg one)])
     = Ok (Some [mk_trade W (of_Z 2); mk_trade L (of_ratio false 15 10);
                 mk_trade BE zero; mk_trade L (neg one)]).
Proof.
  assert (H : Forall written_plainly
                [mk_trade W (of_Z 2); mk_trade L (of_ratio false 15 10); mk_trade BE zero;
                 mk_trade L (neg one)]).
  { repeat constructor; vm_compute; reflexivity. }
  split; [exact H|]. exact (parse_reads_saved_trades _ H).
Defined.

(* ================================================================= *)
(** ** A text without entries *)

Lemma remove_char_forall p c s :
  string_forall p s = true -> string_forall p (remove_char c s) = true.
Proof.
  induction s as [|a s IH]; cbn [string_forall remove_char]; [reflexivity|].
  intros H. apply andb_prop in H. destruct H as [Ha Hs].
  destruct (Ascii.eqb a c); [apply IH; exact Hs|].
  cbn [string_forall]. rewrite Ha, (IH Hs). reflexivity.
Qed.

Lemma split_blank s :
  string_forall blank_char s = true ->
  Forall (fun piece => string_forall is_space piece = true) (split "," s).
Proof.
  induction s as [|a s IH]; cbn [string_forall split]; [repeat constructor|].
  intros H. apply andb_prop in H. destruct H as [Ha Hs]. specialize (IH Hs).
  destruct (Ascii.eqb a ",") eqn:E; [constructor; [reflexivity | exact IH]|].
  unfold blank_char in Ha. rewrite E, orb_false_r in Ha.
  destruct (split "," s) as [|piece pieces]; [repeat constructor; cbn; rewrite Ha; reflexivity|].
  inversion IH as [|? ? Hp Hps]; subst.
  constructor; [cbn [string_forall]; rewrite Ha, Hp; reflexivity | exact Hps].
Qed.

Lemma strip_blank piece : string_forall is_space piece = true -> strip piece = EmptyString.
Proof.
  intros H. unfold strip.
  assert (L : lstrip piece = EmptyString).
  { induction piece as [|a s IH]; [reflexivity|].
    cbn [string_forall] in H. apply andb_prop in H. destruct H as [Ha Hs].
    cbn [lstrip]. rewrite Ha. apply IH. exact Hs. }
  rewrite L. reflexivity.
Qed.

Lemma parse_entries_blank entries :
  Forall (fun piece => string_forall is_space piece = true) entries ->
  forall acc, parse_entries entries acc = Ok (Some acc).
Proof.
  induction 1 as [|piece entries Hp _ IH]; intros acc; [reflexivity|].
  cbn [parse_entries]. rewrite (strip_blank _ Hp). exact (IH acc).
Qed.

(** X4.  A text made of white space and commas only, the empty text among
    them, has no entry: the parser returns the empty list, neither [None]
    nor an exception. *)
Theorem parse_blank_text (trade_input : string) :
  string_forall blank_char trade_input = true ->
  parse_trade_data trade_input = Ok (Some []).
Proof.
  intros H. unfold parse_trade_data.
  apply parse_entries_blank, split_blank, remove_char_forall. exact H.
Qed.

Lemma parse_blank_text_witness :
  parse_trade_data " ,, , " = Ok (Some []).
Proof. apply parse_blank_text. reflexivity. Defined.

(* ================================================================= *)
(** ** The loop over the days: what the variables hold *)

(** More of what one pass of the loop body does to the variables. *)
Lemma process_day_counts ra st d :
  exists st', process_day ra st d = Ok st'
    /\ Loop.total_trades st' = (Loop.total_trades st + List.length (trades d))%nat
    /\ Loop.total_breakeven st' = (Loop.total_breakeven st + count_type BE (trades d))%nat
    /\ Loop.day_of_week_performance st'
       = dict_append String.eqb (fst (fst (calendar_fields (date d))))
           (day_net_r_of (trades d)) (Loop.day_of_week_performance st)
    /\ Loop.week_of_month_performance st'
       = dict_append_opt (snd (calendar_fields (date d)))
           (day_net_r_of (trades d)) (Loop.week_of_month_performance st)
    /\ Loop.month_performance st'
       = dict_append_opt (snd (fst (calendar_fields (date d))))
           (day_net_r_of (trades d)) (Loop.month_performance st)
    /\ exists dr, Loop.daily_results st' = (Loop.daily_results st ++ [dr])%list
         /\ Daily.day dr = day d
         /\ Daily.date dr = date d
         /\ Daily.num_trades dr = List.length (trades d)
         /\ Daily.wins dr = count_type W (trades d)
         /\ Daily.losses dr = count_type L (trades d)
         /\ Daily.breakeven dr = count_type BE (trades d)
         /\ Daily.r_won dr = sum_r W (trades d)
         /\ Daily.r_lost dr = sum_r L (trades d).
Proof.
  unfold process_day, day_net_r_of.
  destruct (calendar_fields (date d)) as [[dow mo] wk].
  destruct (rate_guard_ok (count_type W (trades d))
              (count_type W (trades d) + count_type L (trades d))) as [v Hv].
  rewrite Hv. cbn [bind].
  rewrite return_guard_ok. cbn [bind].
  destruct (gtb (sub (sum_r W (trades d)) (sum_r L (trades d))) zero);
    [|destruct (ltb (sub (sum_r W (trades d)) (sum_r L (trades d))) zero)];
    (eexists; split; [reflexivity|]; cbn;
     repeat (split; [reflexivity|]);
     eexists; split; [reflexivity|]; cbn; auto 10).
Qed.

(** A property of the days done so far and of the variables, kept by each
    pass, holds at the end of the loop. *)
Lemma run_days_invariant ra (P : list day_data -> Loop.state -> Prop) :
  (forall done st d st',
      P done st -> process_day ra st d = Ok st' -> P (done ++ [d])%list st') ->
  forall days done st st',
    P done st -> run_days ra days st = Ok st' -> P (done ++ days)%list st'.
Proof.
  intros Hstep. induction days as [|d days IH]; intros done st st' HP Hrun; simpl in Hrun.
  - inversion Hrun. subst. rewrite app_nil_r. exact HP.
  - destruct (process_day ra st d) as [st1|e] eqn:E; cbn [bind] in Hrun; [|discriminate].
    change (d :: days) with ([d] ++ days)%list. rewrite app_assoc.
    apply (IH _ st1); [|exact Hrun]. apply (Hstep done st d st1 HP E).
Qed.

Ltac bind_ok H :=
  match type of H with
  | bind ?c _ = Ok _ =>
      let E := fresh "E" in
      destruct c eqn:E; cbn [bind] in H; [|discriminate H]
  end.

(** The report is made of the variables at the end of the loop. *)
Lemma analyze_trades_report trades_data initial_balance risk_amount r :
  analyze_trades trades_data initial_balance risk_amount = Ok r ->
  exists st,
    run_days risk_amount trades_data (initial_state initial_balance) = Ok st
    /\ daily r = Loop.daily_results st
    /\ Overall.total_trades (overall r) = Loop.total_trades st
    /\ Overall.final_balance (overall r) = Loop.current_balance st
    /\ Overall.max_win_streak (overall r) = Loop.max_win_streak st
    /\ Overall.max_loss_streak (overall r) = Loop.max_loss_streak st
    /\ max_drawdown (Loop.equity_curve st)
       = Ok (Overall.max_drawdown_pct (overall r), Overall.max_drawdown_amount (overall r))
    /\ day_of_week_avg_of (Loop.day_of_week_performance st)
       = Ok (Overall.day_of_week_performance (overall r))
    /\ numbered_avg_of week_name (Loop.week_of_month_performance st)
       = Ok (Overall.week_of_month_performance (overall r))
    /\ numbered_avg_of month_names (Loop.month_performance st)
       = Ok (Overall.month_performance (overall r)).
Proof.
  unfold analyze_trades. intros H.
  bind_ok H. exists a. split; [reflexivity|].
  bind_ok H. inversion H. subst r. cbn [daily overall]. clear H.
  split; [reflexivity|].
  rename E0 into H. unfold overall_metrics in H.
  repeat (bind_ok H;
          try match type of H with
              | (let '(_, _) := ?p in _) = _ => destruct p
              end).
  inversion H. cbn. auto 10.
Qed.

(* ================================================================= *)
(** ** The daily results and the totals *)

Lemma count_type_total (day_trades : list trade) :
  (count_type W day_trades + count_type L day_trades + count_type BE day_trades)%nat
  = List.length day_trades.
Proof.
  unfold count_type. induction day_trades as [|t ts IH]; simpl; [reflexivity|].
  destruct (type t); simpl; lia.
Qed.

(** X5.  The report has one daily result for each day, in the order of the
    days, with the day number and the date of the day; the trades of a day
    are its wins, losses and break-evens, and the total number of trades is
    the number of trades of all the days. *)
Theorem daily_results_follow_days trades_data initial_balance risk_amount r :
  analyze_trades trades_data initial_balance risk_amount = Ok r ->
  map (fun dr => (Daily.day dr, Daily.date dr)) (daily r)
  = map (fun d => (day d, date d)) trades_data
  /\ map Daily.num_trades (daily r) = map (fun d => List.length (trades d)) trades_data
  /\ Forall (fun dr => Daily.num_trades dr
                       = (Daily.wins dr + Daily.losses dr + Daily.breakeven dr)%nat)
       (daily r)
  /\ Overall.total_trades (overall r) = List.length (List.concat (map trades trades_data)).
Proof.
  intros H.
  destruct (analyze_trades_report _ _ _ _ H) as (st & Hrun & -> & -> & _).
  pose (P := fun (done : list day_data) (s : Loop.state) =>
    map (fun dr => (Daily.day dr, Daily.date dr)) (Loop.daily_results s)
    = map (fun d => (day d, date d)) done
    /\ map Daily.num_trades (Loop.daily_results s)
       = map (fun d => List.length (trades d)) done
    /\ Forall (fun dr => Daily.num_trades dr
                         = (Daily.wins dr + Daily.losses dr + Daily.breakeven dr)%nat)
         (Loop.daily_results s)
    /\ Loop.total_trades s = List.length (List.concat (map trades done))).
  apply (run_days_invariant risk_amount P) with (done := []) (st := initial_state initial_balance)
                                               (days := trades_data); [| |exact Hrun].
  - intros done s d s' (I1 & I2 & I3 & I4) Hs.
    destruct (process_day_counts risk_amount s d)
      as (s1 & Hs1 & Ht & _ & _ & _ & _ & dr & Hdr & Hday & Hdate & Hn & Hw & Hl & Hb & _).
    rewrite Hs in Hs1. inversion Hs1. subst s1. unfold P.
    rewrite Hdr, !map_app, I1, I2. cbn [map]. rewrite Hday, Hdate, Hn.
    repeat split.
    + apply Forall_app. split; [exact I3|]. constructor; [|constructor].
      rewrite Hn, Hw, Hl, Hb. symmetry. apply count_type_total.
    + rewrite Ht, I4, concat_app, length_app. simpl. rewrite app_nil_r. reflexivity.
  - repeat split. constructor.
Qed.

Lemma daily_results_follow_days_witness :
  exists r,
    analyze_trades (example_history 7 "2024-01-01" 9 "no date") (of_Z 25000) (of_Z 250) = Ok r
    /\ map (fun dr => (Daily.day dr, Daily.date dr)) (daily r)
       = [(7, "2024-01-01"); (9, "no date")]
    /\ Overall.total_trades (overall r) = 3%nat.
Proof.
  assert (H : exists r, analyze_trades (example_history 7 "2024-01-01" 9 "no date")
                          (of_Z 25000) (of_Z 250) = Ok r).
  { eexists. vm_compute. reflexivity. }
  destruct H as [r H]. exists r. split; [exact H|].
  destruct (daily_results_follow_days _ _ _ _ H) as (H1 & _ & _ & H4).
  split; [exact H1 | exact H4].
Defined.

(* ================================================================= *)
(** ** The balance from day to day *)

Lemma last_cons_default {A : Type} (x : A) (l : list A) (a b : A) :
  last (x :: l) a = last (x :: l) b.
Proof. revert x. induction l as [|y l IH]; intros x; [reflexivity|]. exact (IH y). Qed.

Lemma balance_chain_snoc ra b ds dr :
  balance_chain ra b ds ->
  Daily.daily_pnl dr = mul (Daily.net_r dr) ra ->
  Daily.end_balance dr = add (last (map Daily.end_balance ds) b) (Daily.daily_pnl dr) ->
  balance_chain ra b (ds ++ [dr]).
Proof.
  revert b. induction ds as [|d ds IH]; intros b; simpl.
  - auto.
  - intros (H1 & H2 & H3) Hp He. repeat split; auto.
    apply IH; auto.
    destruct ds as [|d' ds']; [exact He|].
    rewrite He. f_equal. apply (last_cons_default (Daily.end_balance d')).
Qed.

(** X6.  The net R of a day is its R won minus its R lost; its P&L is the net R
    times the risk amount; its end balance is the end balance of the day
    before (the initial balance for the first day) plus the P&L; the final
    balance is the end balance of the last day, or the initial balance when
    there is no day. *)
Theorem balances_follow_days trades_data initial_balance risk_amount r :
  analyze_trades trades_data initial_balance risk_amount = Ok r ->
  map Daily.net_r (daily r)
  = map (fun d => sub (sum_r W (trades d)) (sum_r L (trades d))) trades_data
  /\ balance_chain risk_amount initial_balance (daily r)
  /\ Overall.final_balance (overall r)
     = last (map Daily.end_balance (daily r)) initial_balance.
Proof.
  intros H.
  destruct (analyze_trades_report _ _ _ _ H) as (st & Hrun & -> & _ & -> & _).
  pose (P := fun (done : list day_data) (s : Loop.state) =>
    map Daily.net_r (Loop.daily_results s)
    = map (fun d => sub (sum_r W (trades d)) (sum_r L (trades d))) done
    /\ balance_chain risk_amount initial_balance (Loop.daily_results s)
    /\ Loop.current_balance s
       = last (map Daily.end_balance (Loop.daily_results s)) initial_balance).
  apply (run_days_invariant risk_amount P) with (done := []) (st := initial_state initial_balance)
                                               (days := trades_data); [| |exact Hrun].
  - intros done s d s' (I1 & I2 & I3) Hs.
    destruct (process_day_fields risk_amount s d)
      as (s1 & Hs1 & _ & _ & _ & _ & _ & Hb & _ & _ & _ & dr & Hdr & _ & Hn & Hp & He).
    rewrite Hs in Hs1. inversion Hs1. subst s1. unfold P.
    rewrite Hdr, !map_app, I1. cbn [map]. rewrite Hn, last_last.
    split; [reflexivity|]. split; [|symmetry; exact He].
    apply balance_chain_snoc; [exact I2 | rewrite Hp, Hn; reflexivity |].
    rewrite He, Hb, Hp, <- I3. reflexivity.
  - repeat split.
Qed.

Lemma balances_follow_days_witness :
  exists r,
    analyze_trades win_then_loss (of_Z 1000) (of_Z 10) = Ok r
    /\ map Daily.end_balance (daily r) = [of_Z 1010; of_Z 1000]
    /\ Overall.final_balance (overall r) = of_Z 1000.
Proof.
  assert (H : exists r, analyze_trades win_then_loss (of_Z 1000) (of_Z 10) = Ok r).
  { eexists. vm_compute. reflexivity. }
  destruct H as [r H]. exists r. split; [exact H|].
  destruct (balances_follow_days _ _ _ _ H) as (H1 & H2 & H3).
  assert (E : map Daily.end_balance (daily r) = [of_Z 1010; of_Z 1000]).
  { vm_compute in H. inversion H. reflexivity. }
  split; [exact E|]. rewrite H3, E. reflexivity.
Defined.

(* ================================================================= *)
(** ** Bounds on the streaks *)

Lemma gtb_excludes_ltb x : gtb x zero = true -> ltb x zero = false.
Proof. destruct x as [s|s| |s m e]; try destruct s; try reflexivity; discriminate. Qed.

Lemma winning_losing_disjoint days :
  (List.length (winning_days days) + List.length (losing_days days) <= List.length days)%nat.
Proof.
  unfold winning_days, losing_days. induction days as [|d days IH]; simpl; [lia|].
  destruct (gtb (day_net_r_of (trades d)) zero) eqn:G.
  - rewrite (gtb_excludes_ltb _ G). simpl. lia.
  - destruct (ltb (day_net_r_of (trades d)) zero); simpl; lia.
Qed.

(** X7.  The longest win streak is at most the number of days with a net R
    above zero, the longest loss streak at most the number of days with a
    net R below zero, so the two together are at most the number of days;
    when every day has a net R above zero the longest win streak is the
    number of days, and likewise for the losses. *)
Theorem streaks_are_bounded trades_data initial_balance risk_amount r :
  analyze_trades trades_data initial_balance risk_amount = Ok r ->
  (Overall.max_win_streak (overall r) <= List.length (winning_days trades_data))%nat
  /\ (Overall.max_loss_streak (overall r) <= List.length (losing_days trades_data))%nat
  /\ (Overall.max_win_streak (overall r) + Overall.max_loss_streak (overall r)
      <= List.length trades_data)%nat
  /\ (List.length (winning_days trades_data) = List.length trades_data ->
      Overall.max_win_streak (overall r) = List.length trades_data)
  /\ (List.length (losing_days trades_data) = List.length trades_data ->
      Overall.max_loss_streak (overall r) = List.length trades_data).
Proof.
  intros H.
  destruct (analyze_trades_report _ _ _ _ H) as (st & Hrun & _ & _ & _ & -> & -> & _).
  pose (P := fun (done : list day_data) (s : Loop.state) =>
    (Loop.current_win_streak s <= Loop.max_win_streak s)%nat
    /\ (Loop.max_win_streak s <= List.length (winning_days done))%nat
    /\ (Loop.current_loss_streak s <= Loop.max_loss_streak s)%nat
    /\ (Loop.max_loss_streak s <= List.length (losing_days done))%nat
    /\ (List.length (winning_days done) = List.length done ->
        Loop.current_win_streak s = List.length done)
    /\ (List.length (losing_days done) = List.length done ->
        Loop.current_loss_streak s = List.length done)).
  assert (HP : P ([] ++ trades_data)%list st).
  { apply (run_days_invariant risk_amount P) with (st := initial_state initial_balance);
      [| |exact Hrun].
    - intros done s d s' (I1 & I2 & I3 & I4 & I5 & I6) Hs.
      destruct (process_day_fields risk_amount s d)
        as (s1 & Hs1 & _ & _ & _ & _ & _ & _ & _ & _ & Hst & _).
      rewrite Hs in Hs1. inversion Hs1. subst s1. clear Hs1. unfold P.
      unfold winning_days, losing_days in *. rewrite !filter_app, !length_app. cbn [filter].
      pose proof (winning_losing_disjoint done) as Hd. unfold winning_days, losing_days in Hd.
      destruct (gtb (day_net_r_of (trades d)) zero) eqn:G.
      + rewrite (gtb_excludes_ltb _ G). rewrite ltb_max in Hst.
        inversion Hst as [[E1 E2 E3 E4]]. rewrite E1, E2, E3, E4. cbn [List.length].
        repeat split; try lia.
      + destruct (ltb (day_net_r_of (trades d)) zero) eqn:G'.
        * rewrite ltb_max in Hst.
          inversion Hst as [[E1 E2 E3 E4]]. rewrite E1, E2, E3, E4. cbn [List.length].
          repeat split; try lia.
        * inversion Hst as [[E1 E2 E3 E4]]. rewrite E1, E2, E3, E4. cbn [List.length].
          repeat split; try lia.
    - unfold P. cbn. repeat split; lia. }
  cbn [app] in HP. destruct HP as (I1 & I2 & I3 & I4 & I5 & I6).
  pose proof (winning_losing_disjoint trades_data) as Hd.
  repeat split; lia.
Qed.

Lemma streaks_are_bounded_witness :
  exists r,
    analyze_trades (example_history 1 "2024-01-01" 2 "2024-01-02") (of_Z 25000) (of_Z 250)
    = Ok r
    /\ Overall.max_win_streak (overall r) = 2%nat.
Proof.
  assert (H : exists r, analyze_trades (example_history 1 "2024-01-01" 2 "2024-01-02")
                          (of_Z 25000) (of_Z 250) = Ok r).
  { eexists. vm_compute. reflexivity. }
  destruct H as [r H]. exists r. split; [exact H|].
  destruct (streaks_are_bounded _ _ _ _ H) as (_ & _ & _ & H4 & _).
  apply H4. vm_compute. reflexivity.
Defined.

(* ================================================================= *)
(** ** The maximal drawdown *)

Lemma gtb_above_positive a d :
  a = zero \/ gtb a zero = true -> gtb d a = true -> gtb d zero = true.
Proof.
  intros [->|Ha]; [auto|]. revert Ha.
  destruct a as [s|s| |s m e]; destruct d as [s'|s'| |s' m' e'];
    try destruct s; try destruct s'; simpl; try discriminate; auto.
Qed.

Lemma drawdown_of_curve_incl c1 c2 amount pct :
  (forall x, In x c1 -> In x c2) ->
  drawdown_of_curve c1 amount pct -> drawdown_of_curve c2 amount pct.
Proof.
  intros Hi [H|(G & pk & lo & H1 & H2 & H3)]; [left; exact H|].
  right. split; [exact G|]. exists pk, lo. auto.
Qed.

Lemma drawdown_walk_inv rest :
  forall seen peak amount pct acc',
    In peak seen ->
    drawdown_of_curve seen amount pct ->
    drawdown_walk (peak, amount, pct) rest = Ok acc' ->
    drawdown_of_curve (seen ++ rest) (snd (fst acc')) (snd acc').
Proof.
  induction rest as [|equity rest IH]; intros seen peak amount pct acc' Hpk Hinv Hw.
  - simpl in Hw. inversion Hw. subst. simpl. rewrite app_nil_r. exact Hinv.
  - cbn [drawdown_walk] in Hw. unfold drawdown_step in Hw.
    set (peak' := if gtb equity peak then equity else peak) in Hw.
    assert (Hpk' : In peak' (seen ++ [equity])).
    { subst peak'. apply in_or_app. destruct (gtb equity peak); [right; left; reflexivity | left; exact Hpk]. }
    assert (Hpct : (if gtb peak' zero
                    then q <- div (sub peak' equity) peak' ;; Ok (mul q hundred)
                    else Ok zero)
                   = Ok (if gtb peak' zero
                         then mul (SFdiv prec emax (sub peak' equity) peak') hundred
                         else zero)).
    { destruct (gtb peak' zero) eqn:G; [rewrite (div_guarded _ _ G)|]; reflexivity. }
    rewrite Hpct in Hw. cbn [bind] in Hw.
    replace (seen ++ equity :: rest)%list with ((seen ++ [equity]) ++ rest)%list
      by (rewrite <- app_assoc; reflexivity).
    destruct (gtb (sub peak' equity) amount) eqn:G.
    + apply (IH _ _ _ _ _ Hpk') in Hw; [exact Hw|].
      right. split.
      * apply (gtb_above_positive amount); [|exact G].
        destruct Hinv as [[-> _]|[Ha _]]; auto.
      * exists peak', equity. repeat split; auto.
        apply in_or_app. right. left. reflexivity.
    + apply (IH _ _ _ _ _ Hpk') in Hw; [exact Hw|].
      apply (drawdown_of_curve_incl seen); [|exact Hinv].
      intros x Hx. apply in_or_app. left. exact Hx.
Qed.

Lemma max_drawdown_of_curve curve pct amount :
  max_drawdown curve = Ok (pct, amount) -> drawdown_of_curve curve amount pct.
Proof.
  unfold max_drawdown. destruct (1 <? List.length curve)%nat.
  - destruct curve as [|b rest]; simpl; [intros H; inversion H; left; auto|].
    intros H. bind_ok H. destruct a as [[pk am] pc]. inversion H. subst.
    apply (drawdown_walk_inv rest [b] b zero zero _ (or_introl eq_refl)) in E;
      [exact E | left; auto].
  - intros H. inversion H. left. auto.
Qed.

Lemma equity_curve_is_balances ra initial_balance days st :
  run_days ra days (initial_state initial_balance) = Ok st ->
  Loop.equity_curve st = initial_balance :: map Daily.end_balance (Loop.daily_results st).
Proof.
  intros Hrun.
  apply (run_days_invariant ra
           (fun _ s => Loop.equity_curve s
                       = initial_balance :: map Daily.end_balance (Loop.daily_results s)))
    with (done := []) (st := initial_state initial_balance) (days := days);
    [| reflexivity | exact Hrun].
  intros done s d s' I Hs.
  destruct (process_day_fields ra s d)
    as (s1 & Hs1 & _ & _ & _ & _ & _ & _ & He & _ & _ & dr & Hdr & _ & _ & _ & Hb).
  rewrite Hs in Hs1. inversion Hs1. subst s1.
  rewrite He, Hdr, I, map_app. simpl. rewrite Hb. reflexivity.
Qed.

(** X8.  The maximal drawdown is never negative; when it is zero the percentage
    is zero; otherwise it is the fall from one balance of the curve (the
    initial balance followed by the end balances of the days) to another,
    and the percentage reported is the percentage of that fall on that
    peak. *)
Theorem max_drawdown_is_a_fall trades_data initial_balance risk_amount r :
  analyze_trades trades_data initial_balance risk_amount = Ok r ->
  leb zero (Overall.max_drawdown_amount (overall r)) = true
  /\ drawdown_of_curve (initial_balance :: map Daily.end_balance (daily r))
       (Overall.max_drawdown_amount (overall r)) (Overall.max_drawdown_pct (overall r)).
Proof.
  intros H.
  destruct (analyze_trades_report _ _ _ _ H) as (st & Hrun & -> & _ & _ & _ & _ & Hdd & _).
  rewrite (equity_curve_is_balances _ _ _ _ Hrun) in Hdd.
  apply max_drawdown_of_curve in Hdd. split; [|exact Hdd].
  destruct Hdd as [[-> _]|[G _]]; [reflexivity|].
  revert G. destruct (Overall.max_drawdown_amount (overall r)) as [s|s| |s m e];
    try destruct s; simpl; try discriminate; auto.
Qed.

Lemma max_drawdown_is_a_fall_witness :
  exists r,
    analyze_trades win_then_loss (of_Z 1000) (of_Z 10) = Ok r
    /\ Overall.max_drawdown_amount (overall r) = of_Z 10
    /\ leb zero (Overall.max_drawdown_amount (overall r)) = true.
Proof.
  assert (H : exists r, analyze_trades win_then_loss (of_Z 1000) (of_Z 10) = Ok r).
  { eexists. vm_compute. reflexivity. }
  destruct H as [r H]. exists r. split; [exact H|].
  split; [vm_compute in H; inversion H; reflexivity|].
  exact (proj1 (max_drawdown_is_a_fall _ _ _ _ H)).
Defined.

Ltac compare_cases :=
  repeat match goal with
         | H : context [Pos.compare_cont Eq ?x ?y] |- _ =>
             change (Pos.compare_cont Eq x y) with (Pos.compare x y) in H
         | H : context [Z.compare ?x ?y] |- _ => destruct (Z.compare_spec x y)
         | H : context [Pos.compare ?x ?y] |- _ => destruct (Pos.compare_spec x y)
         | |- context [Pos.compare_cont Eq ?x ?y] =>
             change (Pos.compare_cont Eq x y) with (Pos.compare x y)
         | |- context [Z.compare ?x ?y] => destruct (Z.compare_spec x y)
         | |- context [Pos.compare ?x ?y] => destruct (Pos.compare_spec x y)
         end.

Lemma ltb_transitive a b c : ltb a b = true -> ltb b c = true -> ltb a c = true.
Proof.
  unfold ltb, SFltb, SFcompare.
  destruct a as [sa|sa| |sa ma ea]; destruct b as [sb|sb| |sb mb eb];
    destruct c as [sc|sc| |sc mc ec];
    try destruct sa; try destruct sb; try destruct sc;
    intros H1 H2; try discriminate H1; try discriminate H2; try reflexivity;
    compare_cases; simpl in *; try discriminate; try reflexivity; try lia.
Qed.

Lemma ltb_irreflexive a : ltb a a = false.
Proof.
  unfold ltb, SFltb, SFcompare.
  destruct a as [s|s| |s m e]; try destruct s; try reflexivity;
    rewrite Z.compare_refl; change (Pos.compare_cont Eq m m) with (Pos.compare m m);
    rewrite Pos.compare_refl; reflexivity.
Qed.

Lemma ltb_asymmetric a b : ltb a b = true -> ltb b a = false.
Proof.
  intros H. destruct (ltb b a) eqn:E; [|reflexivity].
  rewrite <- (ltb_irreflexive a). symmetry. apply (ltb_transitive a b a); assumption.
Qed.

Lemma drawdown_walk_max rest :
  forall peak amount pct acc',
    drawdown_walk (peak, amount, pct) rest = Ok acc' ->
    (snd (fst acc') = amount \/ gtb (snd (fst acc')) amount = true)
    /\ (snd (fst acc') = amount \/ In (snd (fst acc')) (falls_from peak rest))
    /\ forall d, In d (falls_from peak rest) -> gtb d (snd (fst acc')) = false.
Proof.
  induction rest as [|equity rest IH]; intros peak amount pct acc' Hw.
  - simpl in Hw. inversion Hw. simpl. repeat split; auto. intros d [].
  - cbn [drawdown_walk] in Hw. unfold drawdown_step in Hw. cbn [falls_from].
    set (peak' := if gtb equity peak then equity else peak) in *.
    assert (Hpct : (if gtb peak' zero
                    then q <- div (sub peak' equity) peak' ;; Ok (mul q hundred)
                    else Ok zero)
                   = Ok (if gtb peak' zero
                         then mul (SFdiv prec emax (sub peak' equity) peak') hundred
                         else zero)).
    { destruct (gtb peak' zero) eqn:G; [rewrite (div_guarded _ _ G)|]; reflexivity. }
    rewrite Hpct in Hw. cbn [bind] in Hw.
    set (d1 := sub peak' equity) in *.
    destruct (gtb d1 amount) eqn:G; cbn [bind] in Hw;
      destruct (IH _ _ _ _ Hw) as (I1 & I2 & I3); clear IH.
    + split; [|split].
      * right. destruct I1 as [->|I1]; [exact G|].
        unfold gtb in *. apply (ltb_transitive amount d1); assumption.
      * right. destruct I2 as [->|I2]; [left; reflexivity | right; exact I2].
      * intros d [<-|Hd]; [|apply I3; exact Hd].
        destruct I1 as [->|I1]; [apply ltb_irreflexive|].
        unfold gtb in *. apply ltb_asymmetric. exact I1.
    + split; [exact I1|]. split.
      * destruct I2 as [I2|I2]; [left; exact I2 | right; right; exact I2].
      * intros d [<-|Hd]; [|apply I3; exact Hd].
        destruct I1 as [->|I1]; [exact G|].
        change (ltb (snd (fst acc')) d1 = false).
        change (ltb amount d1 = false) in G.
        change (ltb amount (snd (fst acc')) = true) in I1.
        destruct (ltb (snd (fst acc')) d1) eqn:E; [|reflexivity].
        rewrite <- G. symmetry. apply (ltb_transitive amount (snd (fst acc'))); assumption.
Qed.

(** X9.  The maximal drawdown is the largest of the falls from the running peak:
    it is one of them, or zero when none is above zero, and no fall is above
    it. *)
Theorem max_drawdown_is_maximal trades_data initial_balance risk_amount r :
  analyze_trades trades_data initial_balance risk_amount = Ok r ->
  let falls := falls_from initial_balance (map Daily.end_balance (daily r)) in
  (Overall.max_drawdown_amount (overall r) = zero
   \/ In (Overall.max_drawdown_amount (overall r)) falls)
  /\ forall d, In d falls -> gtb d (Overall.max_drawdown_amount (overall r)) = false.
Proof.
  intros H.
  destruct (analyze_trades_report _ _ _ _ H) as (st & Hrun & -> & _ & _ & _ & _ & Hdd & _).
  rewrite (equity_curve_is_balances _ _ _ _ Hrun) in Hdd.
  unfold max_drawdown in Hdd. cbn [List.length List.hd List.tl] in Hdd.
  destruct (1 <? S (List.length (map Daily.end_balance (Loop.daily_results st))))%nat eqn:L.
  - bind_ok Hdd. destruct a as [[pk am] pc]. inversion Hdd. subst.
    destruct (drawdown_walk_max _ _ _ _ _ E) as (_ & I2 & I3). simpl in I2, I3.
    split; assumption.
  - inversion Hdd.
    destruct (map Daily.end_balance (Loop.daily_results st)); [|discriminate L].
    simpl. split; [left; reflexivity | intros d []].
Qed.

Lemma max_drawdown_is_maximal_witness :
  exists r,
    analyze_trades win_then_loss (of_Z 1000) (of_Z 10) = Ok r
    /\ falls_from (of_Z 1000) (map Daily.end_balance (daily r)) = [zero; of_Z 10]
    /\ gtb (of_Z 10) (Overall.max_drawdown_amount (overall r)) = false.
Proof.
  assert (H : exists r, analyze_trades win_then_loss (of_Z 1000) (of_Z 10) = Ok r).
  { eexists. vm_compute. reflexivity. }
  destruct H as [r H]. exists r. split; [exact H|].
  assert (E : falls_from (of_Z 1000) (map Daily.end_balance (daily r)) = [zero; of_Z 10]).
  { vm_compute in H. inversion H. reflexivity. }
  split; [exact E|].
  apply (proj2 (max_drawdown_is_maximal _ _ _ _ H)).
  rewrite E. right. left. reflexivity.
Defined.

(* ================================================================= *)
(** ** Performance by weekday, week of the month and month *)

Lemma dict_append_buckets {K : Type} (eqb : K -> K -> bool)
  (Heqb : forall a b, eqb a b = true <-> a = b)
  (keys : list K) (f : K -> list float) (k : K) (v : float) :
  NoDup keys ->
  dict_append eqb k v (map (fun key => (key, f key)) keys)
  = map (fun key => (key, (f key ++ if eqb k key then [v] else [])%list)) keys.
Proof.
  induction keys as [|a keys IH]; intros Hnd; [reflexivity|].
  inversion Hnd as [|? ? Hnotin Hnd']; subst. cbn [map dict_append].
  destruct (eqb k a) eqn:E.
  - f_equal. apply map_ext_in. intros key Hin.
    destruct (eqb k key) eqn:E'; [|rewrite app_nil_r; reflexivity].
    apply Heqb in E, E'. subst. contradiction.
  - rewrite app_nil_r. f_equal. apply IH. exact Hnd'.
Qed.

Lemma net_r_where_snoc p done d :
  net_r_where p (done ++ [d])
  = (net_r_where p done ++ if p d then [day_net_r_of (trades d)] else [])%list.
Proof.
  unfold net_r_where. rewrite filter_app, map_app. cbn [filter].
  destruct (p d); reflexivity.
Qed.

Lemma dict_append_opt_buckets (keys : list Z) (key_of : day_data -> option Z) done d :
  NoDup keys ->
  let bucket days k :=
    net_r_where (fun d => match key_of d with Some k' => Z.eqb k' k | None => false end) days in
  dict_append_opt (key_of d) (day_net_r_of (trades d))
    (map (fun k => (k, bucket done k)) keys)
  = map (fun k => (k, bucket (done ++ [d])%list k)) keys.
Proof.
  intros Hnd bucket. subst bucket. cbv beta.
  destruct (key_of d) as [k|] eqn:E; cbn [dict_append_opt].
  - rewrite (dict_append_buckets Z.eqb Z.eqb_eq keys _ k _ Hnd).
    apply map_ext. intros key. rewrite net_r_where_snoc, E. reflexivity.
  - apply map_ext. intros key. rewrite net_r_where_snoc, E, app_nil_r. reflexivity.
Qed.

Lemma run_days_buckets ra days ib st :
  run_days ra days (initial_state ib) = Ok st ->
  Loop.day_of_week_performance st
  = map (fun name => (name, net_r_where (on_weekday name) days))
      ["Monday"; "Tuesday"; "Wednesday"; "Thursday"; "Friday"]
  /\ Loop.week_of_month_performance st
     = map (fun w => (w, net_r_where (in_week w) days)) [1; 2; 3; 4; 5]
  /\ Loop.month_performance st
     = map (fun m => (m, net_r_where (in_month m) days))
         [1; 2; 3; 4; 5; 6; 7; 8; 9; 10; 11; 12].
Proof.
  intros Hrun.
  apply (run_days_invariant ra
           (fun done st =>
              Loop.day_of_week_performance st
              = map (fun name => (name, net_r_where (on_weekday name) done))
                  ["Monday"; "Tuesday"; "Wednesday"; "Thursday"; "Friday"]
              /\ Loop.week_of_month_performance st
                 = map (fun w => (w, net_r_where (in_week w) done)) [1; 2; 3; 4; 5]
              /\ Loop.month_performance st
                 = map (fun m => (m, net_r_where (in_month m) done))
                     [1; 2; 3; 4; 5; 6; 7; 8; 9; 10; 11; 12])
           ) with (days := days) (done := []) (st := initial_state ib) (st' := st);
    [| repeat split | exact Hrun].
  clear. intros done st d st' (Hd & Hw & Hm) Hstep.
  destruct (process_day_counts ra st d) as (st1 & Hst1 & _ & _ & Hd' & Hw' & Hm' & _).
  rewrite Hst1 in Hstep. inversion Hstep. subst st1. clear Hstep Hst1.
  rewrite Hd', Hw', Hm', Hd, Hw, Hm. clear. split; [|split].
  - rewrite (dict_append_buckets String.eqb String.eqb_eq).
    + apply map_ext. intros name. rewrite net_r_where_snoc. reflexivity.
    + repeat constructor; simpl; intuition discriminate.
  - apply (dict_append_opt_buckets [1; 2; 3; 4; 5]
             (fun d => snd (calendar_fields (date d)))).
    repeat constructor; simpl; intuition discriminate.
  - apply (dict_append_opt_buckets [1; 2; 3; 4; 5; 6; 7; 8; 9; 10; 11; 12]
             (fun d => snd (fst (calendar_fields (date d))))).
    repeat constructor; simpl; intuition discriminate.
Qed.

Lemma mean_nonempty results :
  results <> [] ->
  mean results = Ok (SFdiv prec emax (sum results) (of_nat (List.length results))).
Proof. destruct results; [congruence | intros _; apply mean_cons]. Qed.

Lemma day_of_week_avg_of_buckets (keys : list string) (f : string -> list float) :
  day_of_week_avg_of (map (fun name => (name, f name)) keys)
  = Ok (map (fun name => (name, average_or_zero (f name))) keys).
Proof.
  induction keys as [|a keys IH]; [reflexivity|].
  cbn [map day_of_week_avg_of]. rewrite IH.
  unfold average_or_zero. destruct (f a) eqn:E; [reflexivity|].
  rewrite mean_cons. reflexivity.
Qed.

Lemma numbered_avg_of_buckets name (keys : list Z) (f : Z -> list float) :
  numbered_avg_of name (map (fun k => (k, f k)) keys)
  = Ok (flat_map (fun k => named_average (name k) (f k)) keys).
Proof.
  induction keys as [|a keys IH]; [reflexivity|].
  cbn [map numbered_avg_of flat_map]. rewrite IH.
  unfold named_average. destruct (f a) eqn:E; [reflexivity|].
  rewrite mean_cons. reflexivity.
Qed.

(** X10.  The weekday performance of the report has the five keys Monday to
    Friday, each with the mean net R of the days whose date is read and
    falls on that weekday, and 0 when there is none. *)
Theorem weekday_averages trades_data initial_balance risk_amount r :
  analyze_trades trades_data initial_balance risk_amount = Ok r ->
  Overall.day_of_week_performance (overall r)
  = map (fun name => (name, average_or_zero (net_r_where (on_weekday name) trades_data)))
      ["Monday"; "Tuesday"; "Wednesday"; "Thursday"; "Friday"].
Proof.
  intros H.
  destruct (analyze_trades_report _ _ _ _ H)
    as (st & Hrun & _ & _ & _ & _ & _ & _ & Hd & _).
  destruct (run_days_buckets _ _ _ _ Hrun) as (Ed & _).
  rewrite Ed, day_of_week_avg_of_buckets in Hd.
  inversion Hd. reflexivity.
Qed.

(** X11.  The performance by week of the month has an entry for each of the
    weeks 1 to 5 in which a day with a readable date falls, and the
    performance by month one for each such month, in increasing order; the
    value is the mean net R of those days. *)
Theorem week_and_month_averages trades_data initial_balance risk_amount r :
  analyze_trades trades_data initial_balance risk_amount = Ok r ->
  Overall.week_of_month_performance (overall r)
  = flat_map (fun w => named_average (week_name w) (net_r_where (in_week w) trades_data))
      [1; 2; 3; 4; 5]
  /\ Overall.month_performance (overall r)
     = flat_map (fun m => named_average (month_names m) (net_r_where (in_month m) trades_data))
         [1; 2; 3; 4; 5; 6; 7; 8; 9; 10; 11; 12].
Proof.
  intros H.
  destruct (analyze_trades_report _ _ _ _ H)
    as (st & Hrun & _ & _ & _ & _ & _ & _ & _ & Hw & Hm).
  destruct (run_days_buckets _ _ _ _ Hrun) as (_ & Ew & Em).
  rewrite Ew, numbered_avg_of_buckets in Hw.
  rewrite Em, numbered_avg_of_buckets in Hm.
  inversion Hw. inversion Hm. split; reflexivity.
Qed.

Lemma weekday_averages_witness :
  exists r,
    analyze_trades win_then_loss (of_Z 1000) (of_Z 10) = Ok r
    /\ Overall.day_of_week_performance (overall r)
       = [("Monday", one); ("Tuesday", neg one); ("Wednesday", zero);
          ("Thursday", zero); ("Friday", zero)].
Proof.
  assert (H : exists r, analyze_trades win_then_loss (of_Z 1000) (of_Z 10) = Ok r).
  { eexists. vm_compute. reflexivity. }
  destruct H as [r H]. exists r. split; [exact H|].
  rewrite (weekday_averages _ _ _ _ H). vm_compute. reflexivity.
Defined.

Lemma week_and_month_averages_witness :
  exists r,
    analyze_trades (example_history 1 "2020-03-31" 2 "2020-03-02") (of_Z 1000) (of_Z 10)
    = Ok r
    /\ Overall.week_of_month_performance (overall r) = [("Week 2", one)]
    /\ Overall.month_performance (overall r) = [("March", one)].
Proof.
  assert (H : exists r,
             analyze_trades (example_history 1 "2020-03-31" 2 "2020-03-02")
               (of_Z 1000) (of_Z 10) = Ok r).
  { eexists. vm_compute. reflexivity. }
  destruct H as [r H]. exists r. split; [exact H|].
  destruct (week_and_month_averages _ _ _ _ H) as [Ew Em].
  rewrite Ew, Em. split; vm_compute; reflexivity.
Defined.

(* ================================================================= *)
(** ** Dates that are read *)

Lemma in_range_bounds lo hi c :
  PyDate.in_range lo hi c = true ->
  (nat_of_ascii lo <= nat_of_ascii c <= nat_of_ascii hi)%nat.
Proof.
  unfold PyDate.in_range. intros H. apply andb_prop in H. destruct H as [H1 H2].
  apply Nat.leb_le in H1, H2. lia.
Qed.

Lemma in_range_digit lo hi c :
  PyDate.in_range lo hi c = true ->
  digit_value lo <= digit_value c <= digit_value hi.
Proof. intros H. apply in_range_bounds in H. unfold digit_value. lia. Qed.

Lemma is_digit_value c : is_digit c = true -> 0 <= digit_value c <= 9.
Proof.
  unfold is_digit, digit_value. intros H. apply andb_prop in H. destruct H as [H1 H2].
  apply Nat.leb_le in H1, H2. lia.
Qed.

Lemma take_year_value s ys r :
  PyDate.take_year s = Some (ys, r) -> 0 <= digits_value ys <= 9999.
Proof.
  unfold PyDate.take_year.
  destruct s as [|a [|b [|c [|d rest]]]]; try discriminate.
  destruct (is_digit a) eqn:Ea; [|discriminate].
  destruct (is_digit b) eqn:Eb; [|discriminate].
  destruct (is_digit c) eqn:Ec; [|discriminate].
  destruct (is_digit d) eqn:Ed; [|discriminate].
  cbn [andb]. intros H. inversion H. subst.
  apply is_digit_value in Ea, Eb, Ec, Ed.
  unfold digits_value. cbn [digits_value_from]. lia.
Qed.

Lemma take_month_value s ms r :
  PyDate.take_month s = Some (ms, r) -> 1 <= digits_value ms <= 12.
Proof.
  unfold PyDate.take_month.
  set (two := match s with
              | String a (String b (String "-" rest)) => _
              | _ => None
              end).
  assert (Htwo : forall ms r, two = Some (ms, r) -> 1 <= digits_value ms <= 12).
  { subst two. clear. intros ms r.
    destruct s as [|a [|b [|c rest]]]; try discriminate.
    destruct c as [[] [] [] [] [] [] [] []]; try discriminate.
    destruct (Ascii.eqb a "1") eqn:E1.
    - apply Ascii.eqb_eq in E1. subst a.
      destruct (PyDate.in_range "0" "2" b) eqn:E2; [|discriminate].
      cbn [andb orb]. intros H. inversion H. subst.
      apply in_range_digit in E2. unfold digits_value. cbn [digits_value_from].
      change (digit_value "1") with 1. change (digit_value "0") with 0 in E2.
      change (digit_value "2") with 2 in E2. lia.
    - cbn [andb orb]. destruct (Ascii.eqb a "0") eqn:E0; [|discriminate].
      apply Ascii.eqb_eq in E0. subst a.
      destruct (PyDate.in_range "1" "9" b) eqn:E2; [|discriminate].
      cbn [andb]. intros H. inversion H. subst.
      apply in_range_digit in E2. unfold digits_value. cbn [digits_value_from].
      change (digit_value "0") with 0. change (digit_value "1") with 1 in E2.
      change (digit_value "9") with 9 in E2. lia. }
  destruct two as [[ms' r']|] eqn:E.
  - intros H. inversion H. subst. apply (Htwo ms r). reflexivity.
  - clear. destruct s as [|a [|b rest]]; try discriminate.
    destruct b as [[] [] [] [] [] [] [] []]; try discriminate.
    destruct (PyDate.in_range "1" "9" a) eqn:E; [|discriminate].
    intros H. inversion H. subst.
    apply in_range_digit in E. unfold digits_value. cbn [digits_value_from].
    change (digit_value "1") with 1 in E. change (digit_value "9") with 9 in E. lia.
Qed.

Lemma eqb_digit_value a c : Ascii.eqb a c = true -> digit_value a = digit_value c.
Proof. intros H. apply Ascii.eqb_eq in H. subst. reflexivity. Qed.

Ltac digit_facts :=
  repeat match goal with
    | H : Ascii.eqb _ _ = true |- _ => apply eqb_digit_value in H
    | H : PyDate.in_range _ _ _ = true |- _ => apply in_range_digit in H
    | H : is_digit _ = true |- _ => apply is_digit_value in H
    end;
  change (digit_value "0") with 0 in *;
  change (digit_value "1") with 1 in *;
  change (digit_value "2") with 2 in *;
  change (digit_value "3") with 3 in *;
  change (digit_value "9") with 9 in *;
  unfold digits_value; cbn [digits_value_from].

Lemma take_day_value s ds r :
  PyDate.take_day s = Some (ds, r) -> 1 <= digits_value ds.
Proof.
  unfold PyDate.take_day. destruct s as [|a [|b rest]]; try discriminate.
  - destruct (PyDate.in_range "1" "9" a) eqn:E; [|discriminate].
    intros H. inversion H. subst. digit_facts. lia.
  - destruct (Ascii.eqb a "3") eqn:E3;
      destruct (PyDate.in_range "0" "1" b) eqn:E01;
      destruct (PyDate.in_range "1" "2" a) eqn:E12;
      destruct (is_digit b) eqn:Eb;
      destruct (Ascii.eqb a "0") eqn:E0;
      destruct (PyDate.in_range "1" "9" b) eqn:E19b;
      destruct (PyDate.in_range "1" "9" a) eqn:E19a;
      destruct (Ascii.eqb a " ") eqn:Esp;
      cbn [andb orb]; intros H; inversion H; subst; digit_facts; lia.
Qed.

Lemma days_in_month_le y m : PyDate.days_in_month y m <= 31.
Proof.
  unfold PyDate.days_in_month.
  destruct (m =? 2)%Z; [destruct (PyDate.is_leap y); lia|].
  destruct ((m =? 4)%Z || (m =? 6)%Z || (m =? 9)%Z || (m =? 11)%Z); lia.
Qed.

Lemma strptime_fields s d :
  PyDate.strptime s = Some d ->
  1 <= PyDate.year d <= 9999
  /\ 1 <= PyDate.month d <= 12
  /\ 1 <= PyDate.day d <= PyDate.days_in_month (PyDate.year d) (PyDate.month d).
Proof.
  unfold PyDate.strptime.
  destruct (PyDate.take_year s) as [[ys r0]|] eqn:Ey; [|discriminate].
  destruct r0 as [|c r1]; [discriminate|].
  destruct c as [[] [] [] [] [] [] [] []]; try discriminate.
  destruct (PyDate.take_month r1) as [[ms r2]|] eqn:Em; [|discriminate].
  destruct (PyDate.take_day r2) as [[ds r3]|] eqn:Ed; [|discriminate].
  destruct r3; [|discriminate].
  destruct (1 <=? digits_value ys)%Z eqn:E1; [|discriminate].
  destruct (digits_value ds <=? PyDate.days_in_month (digits_value ys) (digits_value ms))%Z
    eqn:E2; [|discriminate].
  cbn [andb]. intros H. inversion H. subst d. cbn [PyDate.year PyDate.month PyDate.day].
  apply Z.leb_le in E1, E2.
  pose proof (take_year_value _ _ _ Ey).
  pose proof (take_month_value _ _ _ Em).
  pose proof (take_day_value _ _ _ Ed).
  lia.
Qed.

(** X12.  A date that is read has a month from 1 to 12, a day of the month from 1
    to the length of the month, one of the seven weekday names and a week of
    the month from 1 to 6; the same values are those recorded for the day. *)
Theorem readable_date_fields (day_date : string) (date_obj : PyDate.datetime) :
  PyDate.strptime day_date = Some date_obj ->
  1 <= PyDate.year date_obj <= 9999
  /\ 1 <= PyDate.month date_obj <= 12
  /\ 1 <= PyDate.day date_obj
       <= PyDate.days_in_month (PyDate.year date_obj) (PyDate.month date_obj)
  /\ In (PyDate.day_name date_obj)
       ["Monday"; "Tuesday"; "Wednesday"; "Thursday"; "Friday"; "Saturday"; "Sunday"]
  /\ 1 <= week_of_month_of date_obj <= 6
  /\ calendar_fields day_date
     = (PyDate.day_name date_obj, Some (PyDate.month date_obj),
        Some (week_of_month_of date_obj)).
Proof.
  intros H. destruct (strptime_fields _ _ H) as (Hy & Hm & Hd).
  split; [exact Hy|]. split; [exact Hm|]. split; [exact Hd|]. split; [|split].
  - unfold PyDate.day_name. apply nth_In. cbn [List.length].
    pose proof (Z.mod_pos_bound (PyDate.toordinal date_obj + 6) 7 ltac:(lia)).
    unfold PyDate.weekday. lia.
  - unfold week_of_month_of.
    pose proof (days_in_month_le (PyDate.year date_obj) (PyDate.month date_obj)).
    pose proof (Z.mod_pos_bound
                  (PyDate.toordinal (PyDate.replace_day_1 date_obj) + 6) 7 ltac:(lia)) as Hw.
    change ((PyDate.toordinal (PyDate.replace_day_1 date_obj) + 6) mod 7)
      with (PyDate.weekday (PyDate.replace_day_1 date_obj)) in Hw.
    set (w := PyDate.weekday (PyDate.replace_day_1 date_obj)) in *.
    assert (0 <= (PyDate.day date_obj + w - 1) / 7 <= 5); [|lia].
    split; [apply Z.div_pos; lia|].
    apply Z.lt_succ_r. apply Z.div_lt_upper_bound; lia.
  - unfold calendar_fields. rewrite H. reflexivity.
Qed.

Lemma readable_date_fields_witness :
  PyDate.strptime "2020-03-31" = Some (PyDate.mk_datetime 2020 3 31)
  /\ week_of_month_of (PyDate.mk_datetime 2020 3 31) = 6
  /\ 1 <= week_of_month_of (PyDate.mk_datetime 2020 3 31) <= 6.
Proof.
  assert (H : PyDate.strptime "2020-03-31" = Some (PyDate.mk_datetime 2020 3 31))
    by (vm_compute; reflexivity).
  split; [exact H|]. split; [vm_compute; reflexivity|].
  exact (proj1 (proj2 (proj2 (proj2 (proj2 (readable_date_fields _ _ H)))))).
Defined.

(* ================================================================= *)
(** ** Day numbers as text *)

Lemma of_uint_acc_value d :
  forall acc,
    Z.pos (Pos.of_uint_acc d acc) = digits_value_from (Z.pos acc) (NilEmpty.string_of_uint d).
Proof.
  induction d; intros acc; cbn [Pos.of_uint_acc NilEmpty.string_of_uint digits_value_from];
    [reflexivity | rewrite IHd; f_equal;
                   match goal with |- context [digit_value ?c] =>
                     let v := eval vm_compute in (digit_value c) in
                     change (digit_value c) with v
                   end; lia ..].
Qed.

Lemma of_uint_value d :
  Z.of_N (Pos.of_uint d) = digits_value (NilEmpty.string_of_uint d).
Proof.
  unfold digits_value.
  induction d; cbn [Pos.of_uint NilEmpty.string_of_uint digits_value_from Z.of_N];
    [reflexivity | exact IHd | rewrite of_uint_acc_value; reflexivity ..].
Qed.

Lemma string_of_uint_digits d : string_forall is_digit (NilEmpty.string_of_uint d) = true.
Proof. induction d; cbn [NilEmpty.string_of_uint string_forall]; try rewrite IHd; reflexivity. Qed.

Lemma string_of_N_value n : digits_value (string_of_N n) = Z.of_N n.
Proof.
  unfold string_of_N, NilZero.string_of_uint.
  rewrite <- (DecimalN.Unsigned.of_to n) at 2. unfold N.of_uint.
  destruct (N.to_uint n) eqn:E; first [symmetry; apply of_uint_value | reflexivity].
Qed.

Lemma string_of_N_digits n :
  exists a ds, string_of_N n = String a ds
    /\ is_digit a = true /\ string_forall is_digit ds = true.
Proof.
  unfold string_of_N, NilZero.string_of_uint.
  destruct (N.to_uint n) as [|d|d|d|d|d|d|d|d|d|d];
    cbn [NilEmpty.string_of_uint]; eexists _, _;
    (split; [reflexivity|]); (split; [reflexivity|]);
    try apply string_of_uint_digits; reflexivity.
Qed.

Lemma digit_is_plain a :
  is_digit a = true ->
  is_c_space a = false /\ is_sign a = false /\ Ascii.eqb a "_" = false.
Proof. destruct a as [[] [] [] [] [] [] [] []]; intros H; try discriminate H; repeat split. Qed.

Lemma int_digits_all ds :
  string_forall is_digit ds = true -> int_digits ds = (ds, EmptyString).
Proof.
  induction ds as [|a ds IH]; cbn [string_forall int_digits]; [reflexivity|].
  intros H. apply andb_prop in H. destruct H as [Ha Hds].
  rewrite Ha, (IH Hds). reflexivity.
Qed.

(** [int] reads back the text that [str] writes for an integer. *)
Lemma py_int_str_int n s : str_int n = Ok s -> py_int s = Ok n.
Proof.
  unfold str_int. intros H.
  destruct (string_of_N_digits (Z.to_N (Z.abs n))) as (a & ds & E & Ha & Hds).
  pose proof (string_of_N_value (Z.to_N (Z.abs n))) as V.
  rewrite E in H, V.
  destruct (max_str_digits <? String.length (String a ds))%nat eqn:L; [discriminate|].
  destruct (digit_is_plain a Ha) as (Hsp & Hsg & _).
  assert (P : forall sgn,
             (let '(ds', rest) := int_digits ds in
              match skip_spaces rest with
              | EmptyString =>
                  if (max_str_digits <? String.length (String a ds'))%nat
                  then Raise ValueError
                  else Ok (if sgn =? "-" then - digits_value (String a ds')
                           else digits_value (String a ds'))
              | _ => Raise ValueError
              end)
             = Ok (if sgn =? "-" then - digits_value (String a ds)
                   else digits_value (String a ds))).
  { intros sgn. rewrite (int_digits_all ds Hds). cbn [skip_spaces]. rewrite L. reflexivity. }
  destruct (n <? 0)%Z eqn:Neg; inversion H; subst s; clear H.
  - unfold py_int. change ("-" ++ String a ds) with (String "-" (String a ds)).
    cbn [skip_spaces]. change (is_c_space "-") with false. cbv iota.
    cbn [take_opt]. change (is_sign "-") with true. cbv iota.
    rewrite Ha, (P "-"). change ("-" =? "-") with true. cbv iota.
    rewrite V. apply Z.ltb_lt in Neg. f_equal. rewrite Z2N.id; lia.
  - unfold py_int. cbn [skip_spaces]. rewrite Hsp. cbn [take_opt]. rewrite Hsg.
    rewrite Ha, (P EmptyString). change (EmptyString =? "-") with false. cbv iota.
    rewrite V. apply Z.ltb_ge in Neg. f_equal. rewrite Z2N.id; lia.
Qed.

(* ================================================================= *)
(** ** utils.py: loading what was saved *)

Lemma load_rows_app a :
  forall b acc,
    load_rows (a ++ b) acc = (acc' <- load_rows a acc ;; load_rows b acc').
Proof.
  induction a as [|row a IH]; intros b acc; [reflexivity|].
  cbn [app load_rows].
  destruct row as [|f1 [|f2 [|f3 [|f4 row]]]]; try apply IH.
  destruct (parse_trade_data f3) as [[[|t l]|]|e]; cbn [bind]; try apply IH; [|reflexivity].
  destruct (py_int f1) as [n|e]; cbn [bind]; [apply IH | reflexivity].
Qed.

Lemma load_rows_passed_over row rest acc :
  passed_over row -> load_rows (row :: rest) acc = load_rows rest acc.
Proof.
  intros H. cbn [load_rows].
  destruct row as [|f1 [|f2 [|f3 [|f4 row]]]]; try reflexivity.
  destruct H as [H|H]; rewrite H; reflexivity.
Qed.

Lemma load_rows_raising rows :
  forall acc, Exists raising_row rows -> exists e, load_rows rows acc = Raise e.
Proof.
  induction rows as [|row rows IH]; intros acc H; [inversion H|].
  cbn [load_rows].
  destruct row as [|f1 [|f2 [|f3 [|f4 row]]]];
    try (inversion H as [? ? Hr|? ? Hr]; subst; [contradiction Hr | apply IH; exact Hr]).
  destruct (parse_trade_data f3) as [[[|t l]|]|e] eqn:Ep; cbn [bind].
  - inversion H as [? ? Hr|? ? Hr]; subst; [|apply IH; exact Hr].
    destruct Hr as [[e He]|(t & l & e & He & _)]; rewrite Ep in He; discriminate He.
  - destruct (py_int f1) as [n|e] eqn:En; cbn [bind]; [|eauto].
    inversion H as [? ? Hr|? ? Hr]; subst; [|apply IH; exact Hr].
    destruct Hr as [[e He]|(t' & l' & e & _ & He)]; [rewrite Ep in He|rewrite En in He];
      discriminate He.
  - inversion H as [? ? Hr|? ? Hr]; subst; [|apply IH; exact Hr].
    destruct Hr as [[e He]|(t & l & e & He & _)]; rewrite Ep in He; discriminate He.
  - eauto.
Qed.

(** What the loop of [load_data] adds for the rows it has read. *)
Lemma load_rows_sound rows :
  forall acc days,
    load_rows rows acc = Ok days ->
    exists new,
      days = (acc ++ new)%list
      /\ (List.length new <= List.length rows)%nat
      /\ Forall (fun d =>
                   has_trades d = true
                   /\ exists day_num trades_str,
                        In [day_num; date d; trades_str] rows
                        /\ py_int day_num = Ok (day d)
                        /\ parse_trade_data trades_str = Ok (Some (trades d))) new.
Proof.
  induction rows as [|row rows IH]; intros acc days H.
  - inversion H. exists []. rewrite app_nil_r. repeat split; auto.
  - assert (Hskip : load_rows rows acc = Ok days ->
              exists new,
                days = (acc ++ new)%list
                /\ (List.length new <= List.length (row :: rows))%nat
                /\ Forall (fun d =>
                     has_trades d = true
                     /\ exists day_num trades_str,
                          In [day_num; date d; trades_str] (row :: rows)
                          /\ py_int day_num = Ok (day d)
                          /\ parse_trade_data trades_str = Ok (Some (trades d))) new).
    { intros H'. destruct (IH _ _ H') as (new & -> & Hl & Hf). exists new.
      split; [reflexivity|]. split; [simpl; lia|].
      revert Hf. apply Forall_impl. intros d (Ht & n & ts & Hin & Hn & Hp).
      split; [exact Ht|]. exists n, ts. split; [right; exact Hin | split; assumption]. }
    cbn [load_rows] in H.
    destruct row as [|f1 [|f2 [|f3 [|f4 row]]]]; try (apply Hskip; exact H).
    destruct (parse_trade_data f3) as [[[|t l]|]|e] eqn:Ep; cbn [bind] in H;
      try (apply Hskip; exact H); [|discriminate H].
    destruct (py_int f1) as [n|e] eqn:En; cbn [bind] in H; [|discriminate H].
    destruct (IH _ _ H) as (new & -> & Hl & Hf).
    exists (mk_day n f2 (t :: l) :: new).
    split; [rewrite <- app_assoc; reflexivity|]. split; [simpl; lia|].
    constructor.
    + split; [reflexivity|]. exists f1, f3. cbn [day date trades].
      split; [left; reflexivity | split; assumption].
    + revert Hf. apply Forall_impl. intros d (Ht & n' & ts & Hin & Hn & Hp).
      split; [exact Ht|]. exists n', ts. split; [right; exact Hin | split; assumption].
Qed.

Lemma load_rows_saved trades_data :
  forall rows acc,
    save_rows trades_data = (rows, true) ->
    Forall (fun d => Forall written_plainly (trades d)) trades_data ->
    load_rows rows acc = Ok (acc ++ filter has_trades trades_data)%list.
Proof.
  induction trades_data as [|d rest IH]; intros rows acc Hs Hw.
  - inversion Hs. simpl. rewrite app_nil_r. reflexivity.
  - cbn [save_rows] in Hs. inversion Hw as [|? ? Hd Hrest]; subst.
    destruct (str_int (day d)) as [day_text|e] eqn:En; [|discriminate Hs].
    destruct (save_rows rest) as [rows' ok] eqn:Er. inversion Hs. subst. clear Hs.
    cbn [load_rows filter]. rewrite (parse_trades_str _ Hd). cbn [bind].
    unfold has_trades at 1.
    destruct (trades d) as [|t l] eqn:Et.
    + apply (IH _ _ eq_refl Hrest).
    + rewrite (py_int_str_int _ _ En). cbn [bind].
      rewrite (IH _ _ eq_refl Hrest), <- app_assoc. cbn [app].
      rewrite <- Et. destruct d; reflexivity.
Qed.

Lemma reader_rows_all written :
  forallb reader_accepts written = true -> reader_rows written = (written, false).
Proof.
  induction written as [|row rest IH]; [reflexivity|].
  cbn [forallb reader_rows]. intros H. apply andb_prop in H. destruct H as [Hr Hrest].
  rewrite Hr, (IH Hrest). reflexivity.
Qed.

Lemma reader_rows_raises written :
  forallb reader_accepts written = false -> snd (reader_rows written) = true.
Proof.
  induction written as [|row rest IH]; [discriminate|].
  cbn [forallb reader_rows]. destruct (reader_accepts row); [|reflexivity].
  cbn [andb]. intros H. specialize (IH H).
  destruct (reader_rows rest) as [rows raises]. exact IH.
Qed.

Lemma str_int_within_limit n day_text : str_int n = Ok day_text -> within_limit day_text = true.
Proof.
  unfold str_int, within_limit, field_size_limit.
  destruct (max_str_digits <? String.length (string_of_N (Z.to_N (Z.abs n))))%nat eqn:L;
    [discriminate|].
  apply Nat.ltb_ge in L. unfold max_str_digits in L.
  intros H. apply Z.leb_le.
  destruct (n <? 0)%Z; inversion H; subst; cbn [append String.length]; lia.
Qed.

Lemma save_rows_accepted trades_data :
  forall rows,
    save_rows trades_data = (rows, true) ->
    forallb reader_accepts rows = forallb fields_within_limit trades_data.
Proof.
  induction trades_data as [|d rest IH]; intros rows Hs.
  - inversion Hs. reflexivity.
  - cbn [save_rows] in Hs.
    destruct (str_int (day d)) as [day_text|e] eqn:En; [|discriminate Hs].
    destruct (save_rows rest) as [rows' ok] eqn:Er. inversion Hs. subst. clear Hs.
    cbn [forallb]. rewrite (IH _ eq_refl). f_equal.
    unfold reader_accepts, fields_within_limit. cbn [forallb].
    rewrite (str_int_within_limit _ _ En), andb_true_r. reflexivity.
Qed.

(** X13.  [load_data] on the file that [save_data] has written, when it
    returns [True] and the magnitudes are written in positional notation:
    it returns the days that were saved, without the days that have no
    trade, when the date and the trade text of every day are fields that
    the reader accepts, and [None] when one of them is larger than the
    limit of the reader. *)
Theorem load_reads_saved_days (trades_data : list day_data) (file : list (list string)) :
  save_data trades_data = (file, true) ->
  Forall (fun d => Forall written_plainly (trades d)) trades_data ->
  load_saved_file file
  = if forallb fields_within_limit trades_data
    then Some (filter has_trades trades_data)
    else None.
Proof.
  unfold save_data. intros Hs Hw.
  destruct (save_rows trades_data) as [rows ok] eqn:Er. inversion Hs. subst. clear Hs.
  pose proof (save_rows_accepted _ _ Er) as Ha.
  unfold load_saved_file.
  destruct (forallb fields_within_limit trades_data) eqn:Ef.
  - rewrite reader_rows_all by (cbn [forallb]; rewrite Ha; reflexivity).
    unfold load_data. rewrite (load_rows_saved _ _ [] Er Hw). reflexivity.
  - assert (Hr : snd (reader_rows (["Day"; "Date"; "Trades"] :: rows)) = true).
    { apply reader_rows_raises. cbn [forallb]. rewrite Ha. reflexivity. }
    destruct (reader_rows (["Day"; "Date"; "Trades"] :: rows)) as [yielded raises].
    cbn [snd] in Hr. subst raises. reflexivity.
Qed.

Lemma load_reads_saved_days_witness :
  let days := [mk_day 1 "2024-01-01" [mk_trade W (of_Z 2); mk_trade BE zero];
               mk_day 2 "2024-01-02" [];
               mk_day (-3) "later" [mk_trade L (of_ratio false 15 10)]] in
  save_data days
  = ([["Day"; "Date"; "Trades"]; ["1"; "2024-01-01"; "W2.0R,BE"];
      ["2"; "2024-01-02"; EmptyString]; ["-3"; "later"; "L1.5R"]], true)
  /\ load_saved_file (fst (save_data days))
     = Some [mk_day 1 "2024-01-01" [mk_trade W (of_Z 2); mk_trade BE zero];
             mk_day (-3) "later" [mk_trade L (of_ratio false 15 10)]].
Proof.
  intros days.
  assert (Hs : save_data days
               = ([["Day"; "Date"; "Trades"]; ["1"; "2024-01-01"; "W2.0R,BE"];
                   ["2"; "2024-01-02"; EmptyString]; ["-3"; "later"; "L1.5R"]], true))
    by (vm_compute; reflexivity).
  split; [exact Hs|].
  rewrite Hs. cbn [fst].
  rewrite (load_reads_saved_days days _ Hs).
  - reflexivity.
  - repeat constructor; vm_compute; reflexivity.
Defined.

(** X14.  A row that has not three fields, or whose trade text is rejected by
    the parser or holds no trade, changes nothing in what [load_data]
    returns: the day is left out without a message. *)
Theorem load_passes_over_rows (header row : list string) (before after : list (list string)) :
  passed_over row ->
  load_data (header :: before ++ row :: after) = load_data (header :: before ++ after).
Proof.
  intros H. unfold load_data. rewrite !load_rows_app.
  destruct (load_rows before []) as [acc|e]; cbn [bind]; [|reflexivity].
  rewrite (load_rows_passed_over _ _ _ H). reflexivity.
Qed.

Lemma load_passes_over_rows_witness :
  passed_over ["2"; "2024-01-02"; "W1R,X2R"]
  /\ load_data [["Day"; "Date"; "Trades"]; ["1"; "2024-01-01"; "W2R"];
                ["2"; "2024-01-02"; "W1R,X2R"]; ["3"; "2024-01-03"; "L1R"]]
     = load_data [["Day"; "Date"; "Trades"]; ["1"; "2024-01-01"; "W2R"];
                  ["3"; "2024-01-03"; "L1R"]].
Proof.
  assert (H : passed_over ["2"; "2024-01-02"; "W1R,X2R"]) by (left; vm_compute; reflexivity).
  split; [exact H|].
  exact (load_passes_over_rows ["Day"; "Date"; "Trades"] _
           [["1"; "2024-01-01"; "W2R"]] [["3"; "2024-01-03"; "L1R"]] H).
Defined.

(** X15.  [load_data] returns [None] for a file without rows, and for a file
    with one row, after the first, on which the parser raises or whose day
    number is not an integer while it has trades: the other rows are lost
    with it. *)
Theorem load_fails_as_a_whole (header : list string) (rows : list (list string)) :
  load_data [] = None
  /\ (Exists raising_row rows -> load_data (header :: rows) = None).
Proof.
  split; [reflexivity|]. intros H. unfold load_data.
  destruct (load_rows_raising rows [] H) as [e ->]. reflexivity.
Qed.

Lemma load_fails_as_a_whole_witness :
  Exists raising_row [["1"; "2024-01-01"; "W2R"]; ["2"; "2024-01-02"; "W."]]
  /\ load_data [["Day"; "Date"; "Trades"]; ["1"; "2024-01-01"; "W2R"];
                ["2"; "2024-01-02"; "W."]] = None
  /\ Exists raising_row [["1.0"; "2024-01-01"; "W2R"]].
Proof.
  assert (H : Exists raising_row [["1"; "2024-01-01"; "W2R"]; ["2"; "2024-01-02"; "W."]]).
  { right. left. left. eexists. vm_compute. reflexivity. }
  split; [exact H|]. split.
  - exact (proj2 (load_fails_as_a_whole ["Day"; "Date"; "Trades"] _) H).
  - left. right. eexists _, _, _. split; vm_compute; reflexivity.
Defined.

(** X16.  Every day that [load_data] returns has at least one trade and comes
    from a row of three fields after the first: its date is the second
    field as it stands, its number the integer written in the first and its
    trades those read from the third; there are fewer days than rows. *)
Theorem loaded_days_come_from_rows (file : list (list string)) (trades_data : list day_data) :
  load_data file = Some trades_data ->
  (List.length trades_data < List.length file)%nat
  /\ Forall (fun d =>
               has_trades d = true
               /\ exists day_num trades_str,
                    In [day_num; date d; trades_str] (List.tl file)
                    /\ py_int day_num = Ok (day d)
                    /\ parse_trade_data trades_str = Ok (Some (trades d))) trades_data.
Proof.
  unfold load_data. destruct file as [|header rows]; [discriminate|].
  destruct (load_rows rows []) as [days|e] eqn:E; [|discriminate].
  intros H. inversion H. subst days. clear H.
  destruct (load_rows_sound _ _ _ E) as (new & -> & Hl & Hf).
  cbn [app List.tl List.length]. split; [lia | exact Hf].
Qed.

Lemma loaded_days_come_from_rows_witness :
  load_data [["Day"; "Date"; "Trades"]; [" 1_0 "; "no date"; " w , be "]; ["x"; "y"]]
  = Some [mk_day 10 "no date" [mk_trade W one; mk_trade BE zero]]
  /\ (1 < 3)%nat.
Proof.
  assert (H : load_data [["Day"; "Date"; "Trades"]; [" 1_0 "; "no date"; " w , be "];
                         ["x"; "y"]]
              = Some [mk_day 10 "no date" [mk_trade W one; mk_trade BE zero]])
    by (vm_compute; reflexivity).
  split; [exact H|].
  exact (proj1 (loaded_days_come_from_rows _ _ H)).
Defined.

(* ================================================================= *)
(** ** The overall figures in terms of the history *)

Lemma sum_snoc xs x : sum (xs ++ [x]) = add (sum xs) x.
Proof. unfold sum. rewrite fold_left_app. reflexivity. Qed.

Lemma count_type_app ty a b :
  count_type ty (a ++ b) = (count_type ty a + count_type ty b)%nat.
Proof. unfold count_type. rewrite filter_app, length_app. reflexivity. Qed.

Lemma all_trades_snoc done d : all_trades (done ++ [d]) = (all_trades done ++ trades d)%list.
Proof.
  unfold all_trades. rewrite map_app, concat_app. cbn [map List.concat].
  rewrite app_nil_r. reflexivity.
Qed.

Lemma returns_of_snoc results :
  forall prev dr,
    returns_of prev (results ++ [dr])
    = (returns_of prev results
       ++ (if gtb (last (map Daily.end_balance results) prev) zero
           then [SFdiv prec emax (Daily.daily_pnl dr)
                   (last (map Daily.end_balance results) prev)]
           else []))%list.
Proof.
  induction results as [|x results IH]; intros prev dr.
  - cbn [app returns_of map last]. rewrite app_nil_r. reflexivity.
  - cbn [app returns_of]. rewrite IH, <- app_assoc. do 2 f_equal.
    destruct results as [|y results]; [reflexivity|].
    cbn [map]. rewrite (last_cons_default _ _ (Daily.end_balance x) prev).
    cbn [last]. reflexivity.
Qed.

Lemma run_days_totals ra days ib st :
  run_days ra days (initial_state ib) = Ok st ->
  Loop.total_wins st = count_type W (all_trades days)
  /\ Loop.total_losses st = count_type L (all_trades days)
  /\ Loop.total_r_won st = sum (map (fun d => sum_r W (trades d)) days)
  /\ Loop.total_r_lost st = sum (map (fun d => sum_r L (trades d)) days)
  /\ Loop.all_trade_r st = map signed_r (all_trades days)
  /\ Loop.daily_returns st = returns_of ib (Loop.daily_results st).
Proof.
  intros Hrun.
  pose (P := fun (done : list day_data) (s : Loop.state) =>
    Loop.total_wins s = count_type W (all_trades done)
    /\ Loop.total_losses s = count_type L (all_trades done)
    /\ Loop.total_r_won s = sum (map (fun d => sum_r W (trades d)) done)
    /\ Loop.total_r_lost s = sum (map (fun d => sum_r L (trades d)) done)
    /\ Loop.all_trade_r s = map signed_r (all_trades done)
    /\ Loop.daily_returns s = returns_of ib (Loop.daily_results s)
    /\ Loop.current_balance s = last (map Daily.end_balance (Loop.daily_results s)) ib).
  assert (H : P ([] ++ days)%list st).
  { apply (run_days_invariant ra P) with (st := initial_state ib); [|repeat split|exact Hrun].
    clear. intros done s d s' (I1 & I2 & I3 & I4 & I5 & I6 & I7) Hs.
    destruct (process_day_fields ra s d)
      as (s1 & Hs1 & F1 & F2 & F3 & F4 & F5 & Hb & _ & F6 & _ & dr & Hdr & _ & Hn & Hp & He).
    rewrite Hs in Hs1. inversion Hs1. subst s1. clear Hs1. unfold P.
    rewrite F1, F2, F3, F4, F5, F6, Hdr, I1, I2, I3, I4, I5, I6.
    rewrite all_trades_snoc, !count_type_app, !map_app. cbn [map].
    rewrite !sum_snoc, returns_of_snoc, last_last, <- I7, Hp.
    repeat split; try reflexivity.
    - destruct (gtb (Loop.current_balance s) zero); [reflexivity | rewrite app_nil_r; reflexivity].
    - symmetry. exact He. }
  destruct H as (I1 & I2 & I3 & I4 & I5 & I6 & _). auto 10.
Qed.

Lemma rate_guard_value m n :
  (if (0 <? n)%nat then q <- int_div m n ;; Ok (mul q hundred) else Ok zero)
  = Ok (if (0 <? n)%nat then mul (SFdiv prec emax (of_nat m) (of_nat n)) hundred else zero).
Proof.
  destruct (0 <? n)%nat eqn:E; [|reflexivity].
  unfold int_div. rewrite (div_int_pos _ _ E). reflexivity.
Qed.

Lemma average_guard_value a n :
  (if (0 <? n)%nat then div_int a n else Ok zero)
  = Ok (if (0 <? n)%nat then SFdiv prec emax a (of_nat n) else zero).
Proof. destruct (0 <? n)%nat eqn:E; [apply div_int_pos; exact E | reflexivity]. Qed.

Lemma ratio_guard_value a b :
  (if gtb b zero then div a b else Ok inf)
  = Ok (if gtb b zero then SFdiv prec emax a b else inf).
Proof. destruct (gtb b zero) eqn:E; [apply div_guarded; exact E | reflexivity]. Qed.

(** The figures that the code computes after the loop, from the totals. *)
Lemma analyze_trades_overall trades_data initial_balance risk_amount r :
  analyze_trades trades_data initial_balance risk_amount = Ok r ->
  exists st,
    run_days risk_amount trades_data (initial_state initial_balance) = Ok st
    /\ daily r = Loop.daily_results st
    /\ Overall.win_rate (overall r)
       = (if (0 <? Loop.total_wins st + Loop.total_losses st)%nat
          then mul (SFdiv prec emax (of_nat (Loop.total_wins st))
                      (of_nat (Loop.total_wins st + Loop.total_losses st))) hundred
          else zero)
    /\ Overall.total_r (overall r) = sub (Loop.total_r_won st) (Loop.total_r_lost st)
    /\ Overall.avg_win_r (overall r)
       = (if (0 <? Loop.total_wins st)%nat
          then SFdiv prec emax (Loop.total_r_won st) (of_nat (Loop.total_wins st))
          else zero)
    /\ Overall.avg_loss_r (overall r)
       = (if (0 <? Loop.total_losses st)%nat
          then SFdiv prec emax (Loop.total_r_lost st) (of_nat (Loop.total_losses st))
          else zero)
    /\ Overall.avg_risk_reward (overall r)
       = (if gtb (Overall.avg_loss_r (overall r)) zero
          then SFdiv prec emax (Overall.avg_win_r (overall r)) (Overall.avg_loss_r (overall r))
          else inf)
    /\ Overall.net_pnl (overall r) = mul (Overall.total_r (overall r)) risk_amount
    /\ Overall.expectancy (overall r)
       = sub (mul (SFdiv prec emax (Overall.win_rate (overall r)) hundred)
                (Overall.avg_win_r (overall r)))
             (mul (SFdiv prec emax (sub hundred (Overall.win_rate (overall r))) hundred)
                (Overall.avg_loss_r (overall r)))
    /\ sharpe_ratio_of (Loop.daily_returns st) = Ok (Overall.sharpe_ratio (overall r))
    /\ sqn_of (Loop.all_trade_r st) = Ok (Overall.sqn (overall r)).
Proof.
  unfold analyze_trades. intros H.
  bind_ok H. exists a. split; [reflexivity|].
  bind_ok H. inversion H. subst r. cbn [daily overall]. clear H.
  split; [reflexivity|].
  rename E0 into H. unfold overall_metrics in H.
  rewrite rate_guard_value in H. cbn [bind] in H.
  rewrite ratio_guard_value in H. cbn [bind] in H.
  rewrite !average_guard_value in H. cbn [bind] in H.
  rewrite ratio_guard_value in H. cbn [bind] in H.
  bind_ok H.
  match type of H with (let '(_, _) := ?p in _) = _ => destruct p end.
  rewrite !div_hundred in H. cbn [bind] in H.
  repeat bind_ok H.
  inversion H. cbn. auto 12.
Qed.

(** X17.  The win rate is the share of the wins among the wins and losses of all
    the days, times 100, and 0 when there is neither; the total R is the sum
    of the daily R won minus the sum of the daily R lost; the average win
    and the average loss divide these sums by the numbers of wins and of
    losses; break-even trades enter none of them. *)
Theorem overall_figures_over_all_trades trades_data initial_balance risk_amount r :
  analyze_trades trades_data initial_balance risk_amount = Ok r ->
  let wins := count_type W (all_trades trades_data) in
  let losses := count_type L (all_trades trades_data) in
  let total_r_won := sum (map (fun d => sum_r W (trades d)) trades_data) in
  let total_r_lost := sum (map (fun d => sum_r L (trades d)) trades_data) in
  let o := overall r in
  Overall.win_rate o
  = (if (0 <? wins + losses)%nat
     then mul (SFdiv prec emax (of_nat wins) (of_nat (wins + losses))) hundred
     else zero)
  /\ Overall.total_r o = sub total_r_won total_r_lost
  /\ Overall.net_pnl o = mul (sub total_r_won total_r_lost) risk_amount
  /\ Overall.avg_win_r o
     = (if (0 <? wins)%nat then SFdiv prec emax total_r_won (of_nat wins) else zero)
  /\ Overall.avg_loss_r o
     = (if (0 <? losses)%nat then SFdiv prec emax total_r_lost (of_nat losses) else zero)
  /\ Overall.avg_risk_reward o
     = (if gtb (Overall.avg_loss_r o) zero
        then SFdiv prec emax (Overall.avg_win_r o) (Overall.avg_loss_r o)
        else inf)
  /\ Overall.expectancy o
     = sub (mul (SFdiv prec emax (Overall.win_rate o) hundred) (Overall.avg_win_r o))
           (mul (SFdiv prec emax (sub hundred (Overall.win_rate o)) hundred)
              (Overall.avg_loss_r o)).
Proof.
  intros H.
  destruct (analyze_trades_overall _ _ _ _ H)
    as (st & Hrun & _ & Hwr & Htr & Haw & Hal & Hrr & Hpnl & Hex & _).
  destruct (run_days_totals _ _ _ _ Hrun) as (T1 & T2 & T3 & T4 & _).
  rewrite T1, T2 in Hwr. rewrite T3, T4 in Htr. rewrite T1, T3 in Haw. rewrite T2, T4 in Hal.
  rewrite Htr in Hpnl. cbv zeta. auto 10.
Qed.

Lemma overall_figures_over_all_trades_witness :
  exists r,
    analyze_trades (example_history 1 "2024-01-01" 2 "2024-01-02") (of_Z 1000) (of_Z 10)
    = Ok r
    /\ Overall.total_r (overall r) = of_Z 2
    /\ Overall.net_pnl (overall r) = of_Z 20
    /\ Overall.avg_win_r (overall r) = of_ratio false 15 10
    /\ Overall.avg_loss_r (overall r) = one.
Proof.
  assert (H : exists r,
             analyze_trades (example_history 1 "2024-01-01" 2 "2024-01-02")
               (of_Z 1000) (of_Z 10) = Ok r).
  { eexists. vm_compute. reflexivity. }
  destruct H as [r H]. exists r. split; [exact H|].
  destruct (overall_figures_over_all_trades _ _ _ _ H) as (_ & Htr & Hpnl & Haw & Hal & _).
  rewrite Htr, Hpnl, Haw, Hal. repeat split; vm_compute; reflexivity.
Defined.

(** X18.  The Sharpe ratio is computed over the returns of the days that start
    with a balance above zero, each the P&L of the day over the balance
    before it; the SQN over one value for every trade of every day, in
    order: the R of a win, minus the R of a loss, and 0 for a break-even
    trade. *)
Theorem ratios_over_returns_and_trades trades_data initial_balance risk_amount r :
  analyze_trades trades_data initial_balance risk_amount = Ok r ->
  sharpe_ratio_of (returns_of initial_balance (daily r))
  = Ok (Overall.sharpe_ratio (overall r))
  /\ sqn_of (map signed_r (all_trades trades_data)) = Ok (Overall.sqn (overall r)).
Proof.
  intros H.
  destruct (analyze_trades_overall _ _ _ _ H)
    as (st & Hrun & -> & _ & _ & _ & _ & _ & _ & _ & Hsh & Hsq).
  destruct (run_days_totals _ _ _ _ Hrun) as (_ & _ & _ & _ & T5 & T6).
  rewrite T6 in Hsh. rewrite T5 in Hsq. split; assumption.
Qed.

Lemma ratios_over_returns_and_trades_witness :
  exists r,
    analyze_trades win_then_loss (of_Z 1000) (of_Z 10) = Ok r
    /\ returns_of (of_Z 1000) (daily r)
       = [SFdiv prec emax (of_Z 10) (of_Z 1000); SFdiv prec emax (of_Z (-10)) (of_Z 1010)]
    /\ map signed_r (all_trades win_then_loss) = [one; neg one]
    /\ Overall.sqn (overall r) = zero.
Proof.
  assert (H : exists r, analyze_trades win_then_loss (of_Z 1000) (of_Z 10) = Ok r).
  { eexists. vm_compute. reflexivity. }
  destruct H as [r H]. exists r. split; [exact H|].
  destruct (ratios_over_returns_and_trades _ _ _ _ H) as (_ & Hsq).
  split; [vm_compute in H; inversion H; vm_compute; reflexivity|].
  split; [vm_compute; reflexivity|].
  assert (E : sqn_of (map signed_r (all_trades win_then_loss)) = Ok zero)
    by (vm_compute; reflexivity).
  rewrite E in Hsq. inversion Hsq. reflexivity.
Defined.

(* ================================================================= *)
(** ** Backtest.py: the days of the session *)

Lemma renumber_from_spec trades_data :
  forall i,
    List.length (renumber_from i trades_data) = List.length trades_data
    /\ map (fun d => day (data d)) (renumber_from i trades_data)
       = map (fun k => Z.of_nat k + 1) (seq i (List.length trades_data))
    /\ map without_number (renumber_from i trades_data) = map without_number trades_data.
Proof.
  induction trades_data as [|d rest IH]; intros i; [repeat split|].
  destruct (IH (S i)) as (H1 & H2 & H3).
  cbn [renumber_from List.length map seq]. rewrite H1, H2, H3. repeat split.
Qed.

Lemma pop_cases {A : Type} idx (l l' : list A) :
  pop idx l = Some l' ->
  (idx < List.length l)%nat /\ l' = (firstn idx l ++ skipn (S idx) l)%list.
Proof.
  assert (E : pop idx l = if (idx <? List.length l)%nat
                          then Some (firstn idx l ++ skipn (S idx) l)%list else None)
    by reflexivity.
  rewrite E. destruct (idx <? List.length l)%nat eqn:L; [|discriminate].
  intros H. injection H as <-. apply Nat.ltb_lt in L. split; [exact L | reflexivity].
Qed.

Lemma pop_length {A : Type} idx (l l' : list A) :
  pop idx l = Some l' ->
  (idx < List.length l)%nat /\ List.length l' = (List.length l - 1)%nat.
Proof.
  intros H. destruct (pop_cases _ _ _ H) as [E ->]. split; [exact E|].
  rewrite length_app, length_firstn, length_skipn. lia.
Qed.

(** X19.  Removing a day numbers the days that remain 1, 2, 3, ... in order,
    whatever their numbers were, and changes nothing else in them; it takes
    an index inside the list. *)
Theorem remove_day_renumbers (idx : nat) (trades_data trades_data' : list session_day) :
  remove_day idx trades_data = Some trades_data' ->
  (idx < List.length trades_data)%nat
  /\ List.length trades_data' = (List.length trades_data - 1)%nat
  /\ numbered_in_order trades_data'
  /\ map without_number trades_data'
     = (firstn idx (map without_number trades_data)
        ++ skipn (S idx) (map without_number trades_data))%list.
Proof.
  unfold remove_day. destruct (pop idx trades_data) as [remaining|] eqn:E; [|discriminate].
  intros H. inversion H. subst trades_data'. clear H.
  destruct (pop_length _ _ _ E) as [Hi Hl].
  destruct (renumber_from_spec remaining 0) as (H1 & H2 & H3).
  split; [exact Hi|]. split; [lia|]. split.
  - unfold numbered_in_order. rewrite H1. exact H2.
  - rewrite H3. destruct (pop_cases _ _ _ E) as [_ ->].
    rewrite map_app, firstn_map, skipn_map. reflexivity.
Qed.

Lemma remove_day_renumbers_witness :
  let trades_data :=
    [mk_session_day (mk_day 7 "2024-01-01" [mk_trade W one]) None;
     mk_session_day (mk_day 8 "2024-01-02" [mk_trade L one]) (Some [0%nat]);
     mk_session_day (mk_day 9 "2024-01-03" [mk_trade BE zero]) None] in
  remove_day 1 trades_data
  = Some [mk_session_day (mk_day 1 "2024-01-01" [mk_trade W one]) None;
          mk_session_day (mk_day 2 "2024-01-03" [mk_trade BE zero]) None]
  /\ (1 < List.length trades_data)%nat.
Proof.
  intros trades_data.
  assert (H : remove_day 1 trades_data
              = Some [mk_session_day (mk_day 1 "2024-01-01" [mk_trade W one]) None;
                      mk_session_day (mk_day 2 "2024-01-03" [mk_trade BE zero]) None])
    by reflexivity.
  split; [exact H|]. exact (proj1 (remove_day_renumbers _ _ _ H)).
Defined.

Lemma add_day_cases submitted trade_input date_text rules trades_data trades_data' outcome :
  add_day submitted trade_input date_text rules trades_data = Ok (trades_data', outcome) ->
  trades_data' = trades_data
  \/ exists t l,
       parse_trade_data trade_input = Ok (Some (t :: l))
       /\ trades_data'
          = (trades_data
             ++ [mk_session_day
                   (mk_day (Z.of_nat (List.length trades_data) + 1) date_text (t :: l))
                   (Some rules)])%list
       /\ outcome = Added (S (List.length l)) (Z.of_nat (List.length trades_data) + 1).
Proof.
  unfold add_day.
  destruct (submitted && negb (trade_input =? EmptyString)).
  - destruct (parse_trade_data trade_input) as [[[|t l]|]|e]; cbn [bind]; intros H;
      inversion H; subst; try (left; reflexivity).
    right. exists t, l. repeat split.
  - intros H. inversion H. subst. left. reflexivity.
Qed.

(** X20.  The form adds a day only for a text in which the parser reads at least
    one trade, at the end of the list and with the number of days plus one
    as its number, so that days numbered 1, 2, 3, ... stay so; for any other
    text the list is unchanged. *)
Theorem add_day_appends_next_number submitted trade_input date_text rules
  (trades_data trades_data' : list session_day) outcome :
  add_day submitted trade_input date_text rules trades_data = Ok (trades_data', outcome) ->
  (numbered_in_order trades_data -> numbered_in_order trades_data')
  /\ (trades_data' = trades_data
      \/ exists trades,
           trades <> []
           /\ submitted = true
           /\ parse_trade_data trade_input = Ok (Some trades)
           /\ trades_data'
              = (trades_data
                 ++ [mk_session_day
                       (mk_day (Z.of_nat (List.length trades_data) + 1) date_text trades)
                       (Some rules)])%list
           /\ outcome = Added (List.length trades) (Z.of_nat (List.length trades_data) + 1)).
Proof.
  intros H.
  assert (Hsub : trades_data' <> trades_data -> submitted = true).
  { unfold add_day in H. destruct submitted; [reflexivity|].
    cbn [andb] in H. inversion H. congruence. }
  destruct (add_day_cases _ _ _ _ _ _ _ H) as [->|(t & l & Hp & -> & ->)].
  - split; [auto | left; reflexivity].
  - split.
    + unfold numbered_in_order. intros Hn.
      rewrite !map_app, length_app. cbn [map List.length].
      rewrite Nat.add_1_r, seq_S, map_app, Hn. reflexivity.
    + right. exists (t :: l). split; [discriminate|]. split.
      * apply Hsub. intros E. apply (f_equal (@List.length _)) in E.
        rewrite length_app in E. simpl in E. lia.
      * repeat split. exact Hp.
Qed.

Lemma add_day_appends_next_number_witness :
  add_day true "w2r, be" "2024-01-02" [0%nat]
    [mk_session_day (mk_day 1 "2024-01-01" [mk_trade L one]) None]
  = Ok ([mk_session_day (mk_day 1 "2024-01-01" [mk_trade L one]) None;
         mk_session_day (mk_day 2 "2024-01-02" [mk_trade W (of_Z 2); mk_trade BE zero])
           (Some [0%nat])],
        Added 2 2)
  /\ numbered_in_order
       [mk_session_day (mk_day 1 "2024-01-01" [mk_trade L one]) None;
        mk_session_day (mk_day 2 "2024-01-02" [mk_trade W (of_Z 2); mk_trade BE zero])
          (Some [0%nat])].
Proof.
  assert (H : add_day true "w2r, be" "2024-01-02" [0%nat]
                [mk_session_day (mk_day 1 "2024-01-01" [mk_trade L one]) None]
              = Ok ([mk_session_day (mk_day 1 "2024-01-01" [mk_trade L one]) None;
                     mk_session_day
                       (mk_day 2 "2024-01-02" [mk_trade W (of_Z 2); mk_trade BE zero])
                       (Some [0%nat])],
                    Added 2 2))
    by (vm_compute; reflexivity).
  split; [exact H|].
  apply (proj1 (add_day_appends_next_number _ _ _ _ _ _ _ H)). reflexivity.
Defined.

Lemma load_rows_have_trades file loaded_data :
  load_data file = Some loaded_data -> Forall (fun d => has_trades d = true) loaded_data.
Proof.
  unfold load_data. destruct file as [|header rows]; [discriminate|].
  destruct (load_rows rows []) as [days|e] eqn:E; [|discriminate].
  intros H. inversion H. subst days.
  destruct (load_rows_sound _ _ _ E) as (new & -> & _ & Hf).
  cbn [app]. revert Hf. apply Forall_impl. intros d [Hd _]. exact Hd.
Qed.

Lemma session_step_has_trades trades_data trades_data' :
  session_step trades_data trades_data' ->
  Forall (fun d => has_trades (data d) = true) trades_data ->
  Forall (fun d => has_trades (data d) = true) trades_data'.
Proof.
  intros Hstep Hall. destruct Hstep as [sub ti dt rl td td' out H|idx td td' H|file td].
  - destruct (add_day_cases _ _ _ _ _ _ _ H) as [->|(t & l & _ & -> & _)];
      [exact Hall|].
    apply Forall_app. split; [exact Hall|]. repeat constructor.
  - unfold remove_day in H. destruct (pop idx td) as [remaining|] eqn:E; [|discriminate].
    inversion H. subst td'. clear H.
    assert (Hrem : Forall (fun d => has_trades (data d) = true) remaining).
    { destruct (pop_cases _ _ _ E) as [_ ->]. apply Forall_app. split.
      - apply Forall_forall. intros d Hd. apply (proj1 (Forall_forall _ _) Hall).
        rewrite <- (firstn_skipn idx td). apply in_or_app. left. exact Hd.
      - apply Forall_forall. intros d Hd. apply (proj1 (Forall_forall _ _) Hall).
        rewrite <- (firstn_skipn (S idx) td). apply in_or_app. right. exact Hd. }
    clear E Hall. generalize 0%nat.
    induction Hrem as [|d rest Hd Hrest IH]; intros i; [constructor|].
    cbn [renumber_from]. constructor; [exact Hd | apply IH].
  - unfold load_selected. destruct (load_data file) as [[|d l]|] eqn:E; try exact Hall.
    apply load_rows_have_trades in E. apply Forall_map.
    revert E. apply Forall_impl. intros x Hx. exact Hx.
Qed.

(** X21.  Whatever is typed in the form and whatever file is loaded, the days
    that the form and the two buttons lead to from an empty session have
    each at least one trade. *)
Theorem session_days_have_trades (trades_data : list session_day) :
  session_steps [] trades_data ->
  Forall (fun d => has_trades (data d) = true) trades_data.
Proof.
  intros H. remember [] as start eqn:Es.
  induction H as [td|td td' td'' Hsteps IH Hstep]; [subst; constructor|].
  apply (session_step_has_trades td'); [exact Hstep | apply IH; exact Es].
Qed.

Lemma session_days_have_trades_witness :
  session_steps []
    [mk_session_day (mk_day 1 "2024-01-02" [mk_trade W (of_Z 2)]) (Some [])]
  /\ Forall (fun d => has_trades (data d) = true)
       [mk_session_day (mk_day 1 "2024-01-02" [mk_trade W (of_Z 2)]) (Some [])].
Proof.
  assert (H : session_steps []
                [mk_session_day (mk_day 1 "2024-01-02" [mk_trade W (of_Z 2)]) (Some [])]).
  { apply (steps_more [] []); [apply steps_none|].
    apply (step_add true "W2R" "2024-01-02" [] [] _ (Added 1 1)).
    vm_compute. reflexivity. }
  split; [exact H | exact (session_days_have_trades _ H)].
Defined.
